(** * gardener-extension-otelcol: configuration validation, admission
      webhook and actuator

    A shallow embedding of

    - [pkg/apis/config/validation/validation.go]  ([Validate]),
    - the shoot validator of [pkg/admission/validator]
      ([IgnoreExtensionNotFound], [getExtension], [validateExtension],
      [Validate]),
    - [pkg/actuator/actuator.go] ([Reconcile], [Delete], [ForceDelete],
      [Restore], [Migrate]),

    followed by the properties the specification states about them.

    Conventions.  A Go [string] is a byte sequence and is a Rocq [string]
    (a list of 8-bit [ascii]).  A Go pointer that may be nil is an
    [option].  A Go [error] result is [option error], [None] being [nil].
    A Go [int] is a [Z].  A map is a [gmap].  Code that may panic returns
    an [Outcome].  Functions of the Go standard library and of the
    Kubernetes and Gardener libraries are modelled only as far as this
    repository observes them; what the repository cannot observe, or what
    depends on the deployed cluster, is a field of the classes [GoLibrary]
    and [Collaborators]. *)

From Stdlib Require Import ZArith Bool Ascii String List Lia SpecFloat
  DecimalString.
From stdpp Require Import base option strings list gmap.
Import ListNotations.

Local Open Scope string_scope.
Local Open Scope Z_scope.

(** ** Part I.  The embedding *)

(** *** Go values *)

(** A call either returns or panics (nil dereference, index out of
    range). *)
Inductive Outcome (A : Type) : Type :=
| Returns (a : A)
| Panics.
Arguments Returns {A} a.
Arguments Panics {A}.

(** [[]byte]. *)
Definition bytes : Type := list Byte.byte.

(** The built-in [append(s, x)]. *)
Definition append {A : Type} (s : list A) (x : A) : list A := (s ++ [x])%list.

(** *** [k8s.io/apimachinery/pkg/util/validation/field] *)

(** The value a [field.Error] carries: [Validate] passes strings and
    [int]s. *)
Inductive BadValue : Type :=
| NoValue
| StringValue (s : string)
| IntValue (n : Z).

Inductive ErrorType : Type :=
| ErrorTypeRequired
| ErrorTypeInvalid.

(** [field.Error]. *)
Record FieldError : Type := mkFieldError {
  ErrType : ErrorType;
  Field : string;
  BadValue_ : BadValue;
  Detail : string
}.

(** [field.Required(path, detail)]. *)
Definition field_Required (path detail : string) : FieldError :=
  mkFieldError ErrorTypeRequired path NoValue detail.

(** [field.Invalid(path, value, detail)]. *)
Definition field_Invalid (path : string) (value : BadValue) (detail : string)
  : FieldError :=
  mkFieldError ErrorTypeInvalid path value detail.

(** *** Go errors *)

(** An error value allocated outside this repository, by the decoder,
    the client or the managed-resources library: its text, and whether
    [apierrors.IsNotFound] holds of it. *)
Record ExternalError : Type := {
  ext_message : string;
  ext_notFound : bool
}.

(** The [error] values this repository creates or passes on.

    - [ErrExtensionNotFound] is the package-level sentinel of the
      validator package ([errors.New("extension not found")], one
      allocation, compared by identity).
    - [errors_New] is a value made by [errors.New] or by [fmt.Errorf]
      with no [%w] verb at the place where it is returned.
    - [fmt_Errorf_w msg e] is made by [fmt.Errorf] with one [%w] verb:
      [msg] is the formatted text and [e] what [Unwrap] returns.
    - [Aggregate] is the [utilerrors.Aggregate] that
      [field.ErrorList.ToAggregate] builds.
    - [External] is a value of a collaborator: it is never identical to
      a value allocated here. *)
Inductive error : Type :=
| ErrExtensionNotFound
| errors_New (msg : string)
| fmt_Errorf_w (msg : string) (wrapped : error)
| Aggregate (errs : list FieldError)
| External (e : ExternalError).

(** [errors.Unwrap]. *)
Definition errors_Unwrap (e : error) : option error :=
  match e with
  | fmt_Errorf_w _ w => Some w
  | _ => None
  end.

(** [errors.Is(err, ErrExtensionNotFound)]: [err] or an error of its
    [Unwrap] chain is identical to the sentinel.  A value made by another
    call of [errors.New] is a different pointer, whatever its text; an
    aggregate holds [*field.Error] values only, none of them the
    sentinel. *)
Fixpoint is_ErrExtensionNotFound (e : error) : bool :=
  match e with
  | ErrExtensionNotFound => true
  | fmt_Errorf_w _ w => is_ErrExtensionNotFound w
  | errors_New _ | Aggregate _ | External _ => false
  end.

Definition errors_Is_ErrExtensionNotFound (err : option error) : bool :=
  match err with
  | None => false
  | Some e => is_ErrExtensionNotFound e
  end.

(** *** [strings] *)

Module strings.

(** [strings.HasPrefix]. *)
Definition HasPrefix (s pre : string) : bool := String.prefix pre s.

(** [strings.Contains(s, sep)] and [strings.Count(s, sep)] for a
    one-byte [sep]. *)
Fixpoint Count (s : string) (sep : ascii) : nat :=
  match s with
  | EmptyString => 0%nat
  | String c s' => ((if Ascii.eqb c sep then 1 else 0) + Count s' sep)%nat
  end.

Definition Contains (s : string) (sep : ascii) : bool :=
  negb (Nat.eqb (Count s sep) 0).

(** [strings.Cut(s, sep)] for a one-byte [sep]: the text before and
    after the first [sep], and whether [sep] was found. *)
Fixpoint Cut (s : string) (sep : ascii) : string * string * bool :=
  match s with
  | EmptyString => (EmptyString, EmptyString, false)
  | String c s' =>
      if Ascii.eqb c sep then (EmptyString, s', true)
      else let '(before, after, found) := Cut s' sep in
           (String c before, after, found)
  end.

(** [strings.HasSuffix(s, suf)] for a one-byte [suf]. *)
Fixpoint HasSuffix (s : string) (suf : ascii) : bool :=
  match s with
  | EmptyString => false
  | String c EmptyString => Ascii.eqb c suf
  | String _ s' => HasSuffix s' suf
  end.

(** [s[:len(s)-1]] for a non-empty [s]. *)
Fixpoint dropLast (s : string) : string :=
  match s with
  | EmptyString => EmptyString
  | String _ EmptyString => EmptyString
  | String c s' => String c (dropLast s')
  end.

(** [s[i:]]. *)
Fixpoint from (i : nat) (s : string) : string :=
  match i, s with
  | O, _ => s
  | S i', String _ s' => from i' s'
  | S _, EmptyString => EmptyString
  end.

(** [strings.ToLower] on ASCII. *)
Definition lower (c : ascii) : ascii :=
  let n := nat_of_ascii c in
  if ((65 <=? n) && (n <=? 90))%nat then ascii_of_nat (n + 32) else c.

Fixpoint ToLower (s : string) : string :=
  match s with
  | EmptyString => EmptyString
  | String c s' => String (lower c) (ToLower s')
  end.

End strings.

(** Externals of the Go and Kubernetes libraries that this repository's
    results depend on only through their outcome. *)
Class GoLibrary : Type := {
  (** [net/url.parseAuthority]: the error, if any, of parsing the
      [user:password@host:port] part of a URL. *)
  url_parseAuthority : string -> option string;
  (** The [ErrorBody] method of [field.Error]: the text of a field
      error after its path (type, quoted value, detail). *)
  field_ErrorBody : FieldError -> string
}.

(** *** [net/url]

    [url.Parse] as far as its error result goes; [Validate] drops the
    parsed URL.  The authority ([//user@host:port]) is checked by
    [url_parseAuthority]. *)

Module url.

Inductive ParseError : Type :=
| InvalidControlCharacter      (* invalid control character in URL *)
| MissingProtocolScheme        (* missing protocol scheme *)
| FirstPathSegmentColon        (* first path segment in URL cannot contain colon *)
| EscapeError (s : string)     (* invalid URL escape *)
| AuthorityError (msg : string).

(** [stringContainsCTLByte]: a byte below [' '] or [0x7f]. *)
Fixpoint stringContainsCTLByte (s : string) : bool :=
  match s with
  | EmptyString => false
  | String c s' =>
      let b := nat_of_ascii c in
      ((b <? 32) || (b =? 127))%nat || stringContainsCTLByte s'
  end.

Definition isLetter (c : ascii) : bool :=
  let b := nat_of_ascii c in
  (((97 <=? b) && (b <=? 122)) || ((65 <=? b) && (b <=? 90)))%nat.

Definition isDigit (c : ascii) : bool :=
  let b := nat_of_ascii c in ((48 <=? b) && (b <=? 57))%nat.

Definition ishex (c : ascii) : bool :=
  let b := nat_of_ascii c in
  (isDigit c || ((97 <=? b) && (b <=? 102)) || ((65 <=? b) && (b <=? 70)))%nat.

(** [getScheme]: the loop [for i := 0; i < len(rawURL); i++] with
    [rest = rawURL[i:]]; the result is (scheme, path, err). *)
Fixpoint getScheme_from (rawURL : string) (i : nat) (rest : string)
  : string * string * option ParseError :=
  match rest with
  | EmptyString => (EmptyString, rawURL, None)
  | String c rest' =>
      if isLetter c then getScheme_from rawURL (S i) rest'
      else if isDigit c || Ascii.eqb c "+" || Ascii.eqb c "-" || Ascii.eqb c "."
      then
        if Nat.eqb i 0 then (EmptyString, rawURL, None)
        else getScheme_from rawURL (S i) rest'
      else if Ascii.eqb c ":" then
        if Nat.eqb i 0 then (EmptyString, EmptyString, Some MissingProtocolScheme)
        else (String.substring 0 i rawURL, rest', None)
      else (EmptyString, rawURL, None)
  end.

Definition getScheme (rawURL : string) : string * string * option ParseError :=
  getScheme_from rawURL 0 rawURL.

(** [unescape(s, mode)] for [mode] one of [encodePath] and
    [encodeFragment], the modes [Parse] uses outside the authority: the
    only error is a [%] that two hex digits do not follow, reported with
    at most three bytes from the [%] on. *)
Fixpoint unescape_err (s : string) : option ParseError :=
  match s with
  | EmptyString => None
  | String c s' =>
      if Ascii.eqb c "%" then
        match s' with
        | String h1 (String h2 s'') =>
            if ishex h1 && ishex h2 then unescape_err s''
            else Some (EscapeError (String.substring 0 3 s))
        | _ => Some (EscapeError (String.substring 0 3 s))
        end
      else unescape_err s'
  end.

Section Parse.
Context {lib : GoLibrary}.

(** [parse(rawURL, viaRequest)] with [viaRequest = false], the only way
    [Parse] calls it. *)
Definition parse (rawURL : string) : option ParseError :=
  if stringContainsCTLByte rawURL then Some InvalidControlCharacter
  else if String.eqb rawURL "*" then None
  else
    let '(scheme, rest, err) := getScheme rawURL in
    match err with
    | Some e => Some e
    | None =>
        let scheme := strings.ToLower scheme in
        let rest :=
          if strings.HasSuffix rest "?" && Nat.eqb (strings.Count rest "?") 1
          then strings.dropLast rest
          else fst (fst (strings.Cut rest "?")) in
        if negb (strings.HasPrefix rest "/") && negb (String.eqb scheme "")
        then None                       (* url.Opaque = rest *)
        else if negb (strings.HasPrefix rest "/")
                && strings.Contains (fst (fst (strings.Cut rest "/"))) ":"
        then Some FirstPathSegmentColon
        else if (negb (String.eqb scheme "")
                 || negb (strings.HasPrefix rest "///"))
                && strings.HasPrefix rest "//"
        then
          let authority := strings.from 2 rest in
          let '(authority, rest) :=
            match strings.Cut authority "/" with
            | (before, after, true) => (before, String "/" after)
            | (_, _, false) => (authority, EmptyString)
            end in
          match url_parseAuthority authority with
          | Some msg => Some (AuthorityError msg)
          | None => unescape_err rest  (* url.setPath(rest) *)
          end
        else unescape_err rest          (* url.setPath(rest) *)
    end.

(** [url.Parse(rawURL)]: [None] when the text parses. *)
Definition Parse (rawURL : string) : option ParseError :=
  let '(u, frag, _) := strings.Cut rawURL "#" in
  match parse u with
  | Some e => Some e
  | None =>
      if String.eqb frag "" then None
      else unescape_err frag            (* url.setFragment(frag) *)
  end.

End Parse.

End url.

(** *** [field.ErrorList.ToAggregate] and the text of errors *)

Section ErrorText.
Context {lib : GoLibrary}.

(** The [Error] method of [field.Error]: [fmt.Sprintf("%s: %s", Field,
    ErrorBody())]. *)
Definition field_Error (e : FieldError) : string :=
  Field e +:+ ": " +:+ field_ErrorBody e.

(** The loop of [ToAggregate]: an error whose text was seen before is
    skipped ([errorMsgs] is a [sets.String]). *)
Fixpoint dedupe (errorMsgs : gset string) (errList : list FieldError)
  : list FieldError :=
  match errList with
  | [] => []
  | err :: errList' =>
      let msg := field_Error err in
      if bool_decide (msg ∈ errorMsgs) then dedupe errorMsgs errList'
      else err :: dedupe ({[ msg ]} ∪ errorMsgs) errList'
  end.

(** [list.ToAggregate()]: nil for an empty list. *)
Definition ToAggregate (errList : list FieldError) : option error :=
  match errList with
  | [] => None
  | _ => Some (Aggregate (dedupe ∅ errList))
  end.

(** [strings.Join(msgs, ", ")]. *)
Fixpoint join_comma (msgs : list string) : string :=
  match msgs with
  | [] => ""
  | [m] => m
  | m :: msgs' => m +:+ ", " +:+ join_comma msgs'
  end.

(** The [Error] method of an aggregate: the one text, or the distinct
    texts between brackets. *)
Definition aggregate_Error (errs : list FieldError) : string :=
  match errs with
  | [] => ""
  | [e] => field_Error e
  | _ =>
      match field_Error <$> dedupe ∅ errs with
      | [m] => m
      | msgs => "[" +:+ join_comma msgs +:+ "]"
      end
  end.

(** [err.Error()]. *)
Definition error_Error (e : error) : string :=
  match e with
  | ErrExtensionNotFound => "extension not found"
  | errors_New msg => msg
  | fmt_Errorf_w msg _ => msg
  | Aggregate errs => aggregate_Error errs
  | External e => ext_message e
  end.

End ErrorText.

(** [cmp.Or] at type [bool]: the first argument that is not the zero
    value, else the zero value. *)
Fixpoint cmp_Or (vals : list bool) : bool :=
  match vals with
  | [] => false
  | v :: vals' => if v then v else cmp_Or vals'
  end.

(** *** [pkg/apis/config]: the configuration types

    The fields are those [Validate] reads and the API reference of the
    repository lists: [Enabled] flags, the debug exporter, the bearer
    token and TLS material as resource references.  The types file among
    the sources is an earlier revision of the package (no [Enabled] flag,
    no debug exporter, TLS material by file path) against which
    [Validate] does not compile. *)

Module config.

(** [ResourceReferenceDetails] and [ResourceReference]. *)
Record ResourceReferenceDetails : Type := {
  Name : string;
  DataKey : string
}.

Record ResourceReference : Type := {
  ResourceRef : ResourceReferenceDetails
}.

(** [TLSConfig]. *)
Record TLSConfig : Type := {
  InsecureSkipVerify : option bool;
  CA : option ResourceReference;
  Cert : option ResourceReference;
  Key : option ResourceReference
}.

(** [RetryOnFailureConfig]; durations are [int64] nanoseconds. *)
Record RetryOnFailureConfig : Type := {
  RetryEnabled : option bool;            (* Enabled *)
  InitialInterval : Z;
  MaxInterval : Z;
  MaxElapsedTime : Z;
  Multiplier : SpecFloat.spec_float
}.

(** [OTLPHTTPExporterConfig]. *)
Record OTLPHTTPExporterConfig : Type := {
  Enabled : option bool;
  Endpoint : string;
  TracesEndpoint : string;
  MetricsEndpoint : string;
  LogsEndpoint : string;
  ProfilesEndpoint : string;
  TLS : TLSConfig;
  Token : option ResourceReference;
  Timeout : Z;
  ReadBufferSize : Z;
  WriteBufferSize : Z;
  Encoding : string;
  RetryOnFailure : RetryOnFailureConfig;
  Compression : string
}.

(** [DebugExporterConfig]. *)
Record DebugExporterConfig : Type := {
  DebugEnabled : option bool;            (* Enabled *)
  Verbosity : string
}.

(** [CollectorExportersConfig], [CollectorConfigSpec], [CollectorConfig]
    (the [TypeMeta] is its kind and API version). *)
Record CollectorExportersConfig : Type := {
  OTLPHTTPExporter : OTLPHTTPExporterConfig;
  DebugExporter : DebugExporterConfig
}.

Record CollectorConfigSpec : Type := {
  Exporters : CollectorExportersConfig
}.

Record CollectorConfig : Type := {
  Kind : string;
  APIVersion : string;
  Spec : CollectorConfigSpec
}.

(** The zero value [CollectorExportersConfig{}], the block
    [exporters = {}]. *)
Definition CollectorExportersConfig_zero : CollectorExportersConfig :=
  {| OTLPHTTPExporter :=
       {| Enabled := None; Endpoint := ""; TracesEndpoint := "";
          MetricsEndpoint := ""; LogsEndpoint := ""; ProfilesEndpoint := "";
          TLS := {| InsecureSkipVerify := None; CA := None; Cert := None;
                    Key := None |};
          Token := None; Timeout := 0; ReadBufferSize := 0;
          WriteBufferSize := 0; Encoding := "";
          RetryOnFailure :=
            {| RetryEnabled := None; InitialInterval := 0; MaxInterval := 0;
               MaxElapsedTime := 0; Multiplier := S754_zero false |};
          Compression := "" |};
     DebugExporter := {| DebugEnabled := None; Verbosity := "" |} |}.

(** Modelled from the spec: the [IsEnabled] methods of the two exporter
    configurations belong to the revision of the types file that declares
    the [Enabled] flags, which is not among the sources.  The rule they
    serve "fails if no exporter's enabled flag is true", and the flag is a
    [*bool]: an exporter is enabled when its flag is set and true. *)
Definition OTLPHTTPExporterConfig_IsEnabled (e : OTLPHTTPExporterConfig) : bool :=
  match Enabled e with
  | Some b => b
  | None => false
  end.

Definition DebugExporterConfig_IsEnabled (e : DebugExporterConfig) : bool :=
  match DebugEnabled e with
  | Some b => b
  | None => false
  end.

End config.

(** *** [pkg/apis/config/validation] *)

Module validation.
Import config.

Section Validate.
Context {lib : GoLibrary}.

(** The tables of [Validate], each a list of (path, value). *)
Definition urlFields (cfg : CollectorConfig) : list (string * string) :=
  let otlphttp := OTLPHTTPExporter (Exporters (Spec cfg)) in
  [ ("spec.exporters.otlphttp.endpoint", Endpoint otlphttp);
    ("spec.exporters.otlphttp.traces_endpoint", TracesEndpoint otlphttp);
    ("spec.exporters.otlphttp.metrics_endpoint", MetricsEndpoint otlphttp);
    ("spec.exporters.otlphttp.logs_endpoint", LogsEndpoint otlphttp);
    ("spec.exporters.otlphttp.profiles_endpoint", ProfilesEndpoint otlphttp) ].

Definition nonNegativeFields (cfg : CollectorConfig) : list (string * Z) :=
  let otlphttp := OTLPHTTPExporter (Exporters (Spec cfg)) in
  [ ("spec.exporters.otlphttp.read_buffer_size", ReadBufferSize otlphttp);
    ("spec.exporters.otlphttp.write_buffer_size", WriteBufferSize otlphttp) ].

Definition resourceRefs (cfg : CollectorConfig)
  : list (string * option ResourceReference) :=
  let otlphttp := OTLPHTTPExporter (Exporters (Spec cfg)) in
  [ ("spec.exporters.otlphttp.token", Token otlphttp);
    ("spec.exporters.otlphttp.tls.ca", CA (TLS otlphttp));
    ("spec.exporters.otlphttp.tls.cert", Cert (TLS otlphttp));
    ("spec.exporters.otlphttp.tls.key", Key (TLS otlphttp)) ].

(** The paths [Validate] reports on, in the order it visits them. *)
Definition fieldPaths (cfg : CollectorConfig) : list string :=
  "spec.exporters"
    :: ((fst <$> urlFields cfg)
          ++ (fst <$> nonNegativeFields cfg)
          ++ (fst <$> resourceRefs cfg))%list.

(** The bodies of the three [for] loops: [allErrs] after one element. *)
Definition urlFields_step (allErrs : list FieldError) (f : string * string)
  : list FieldError :=
  let '(path, value) := f in
  if negb (String.eqb value "") then
    match url.Parse value with
    | Some _ =>
        append allErrs
          (field_Invalid path (StringValue value) "invalid URL specified")
    | None => allErrs
    end
  else allErrs.

Definition nonNegativeFields_step (allErrs : list FieldError) (f : string * Z)
  : list FieldError :=
  let '(path, value) := f in
  if value <? 0 then
    append allErrs
      (field_Invalid path (IntValue value) "value cannot be negative")
  else allErrs.

Definition resourceRefs_step (allErrs : list FieldError)
  (f : string * option ResourceReference) : list FieldError :=
  let '(path, ref) := f in
  match ref with
  | Some ref =>
      if String.eqb (Name (ResourceRef ref)) ""
         || String.eqb (DataKey (ResourceRef ref)) ""
      then append allErrs
             (field_Invalid path (StringValue path) "name or dataKey is empty")
      else allErrs
  | None => allErrs
  end.

(** The list [allErrs] at the end of [Validate]. *)
Definition allErrs (cfg : CollectorConfig) : list FieldError :=
  let allErrs := [] in
  (* We require at least one exporter to be enabled *)
  let anyExporterEnabled :=
    [ DebugExporterConfig_IsEnabled (DebugExporter (Exporters (Spec cfg)));
      OTLPHTTPExporterConfig_IsEnabled (OTLPHTTPExporter (Exporters (Spec cfg))) ] in
  let allErrs :=
    if negb (cmp_Or anyExporterEnabled)
    then append allErrs (field_Required "spec.exporters" "no exporter enabled")
    else allErrs in
  (* Validate URL fields *)
  let allErrs := fold_left urlFields_step (urlFields cfg) allErrs in
  (* Make sure that the HTTP client read/write buffers are good *)
  let allErrs := fold_left nonNegativeFields_step (nonNegativeFields cfg) allErrs in
  (* Validate resource references *)
  fold_left resourceRefs_step (resourceRefs cfg) allErrs.

(** [Validate] validates the given [config.CollectorConfig]. *)
Definition Validate (cfg : CollectorConfig) : option error :=
  ToAggregate (allErrs cfg).

End Validate.

End validation.

(** *** [k8s.io/apimachinery]: raw extensions, decoders, API errors *)

Module runtime.

(** [runtime.RawExtension]. *)
Record RawExtension : Type := {
  Raw : bytes
}.

(** A non-nil [runtime.Decoder] for [config.CollectorConfig]: the decoded
    object, or the decoder's error. *)
Definition Decoder : Type := bytes -> config.CollectorConfig + ExternalError.

(** [runtime.DecodeInto(d, data, &cfg)]; calling a method of a nil
    decoder panics. *)
Definition DecodeInto (d : option Decoder) (data : bytes)
  : Outcome (config.CollectorConfig + error) :=
  match d with
  | None => Panics
  | Some decode =>
      match decode data with
      | inl cfg => Returns (inl cfg)
      | inr e => Returns (inr (External e))
      end
  end.

End runtime.

(** [apierrors.IsNotFound(err)]: looks through the [Unwrap] chain for an
    API status error with reason [NotFound]; the errors this repository
    makes itself carry no status. *)
Fixpoint apierrors_IsNotFound (e : error) : bool :=
  match e with
  | External x => ext_notFound x
  | fmt_Errorf_w _ w => apierrors_IsNotFound w
  | ErrExtensionNotFound | errors_New _ | Aggregate _ => false
  end.

(** [client.IgnoreNotFound(err)]. *)
Definition client_IgnoreNotFound (err : option error) : option error :=
  match err with
  | Some e => if apierrors_IsNotFound e then None else err
  | None => err
  end.

(** [slices.IndexFunc(s, f)]: the first index whose element satisfies
    [f], or [-1]. *)
Fixpoint slices_IndexFunc {A : Type} (s : list A) (f : A -> bool) : Z :=
  match s with
  | [] => -1
  | x :: s' =>
      if f x then 0
      else let i := slices_IndexFunc s' f in
           if i =? -1 then -1 else i + 1
  end.

(** [s[i]]: an index out of range panics. *)
Definition index {A : Type} (s : list A) (i : Z) : Outcome A :=
  if i <? 0 then Panics
  else match nth_error s (Z.to_nat i) with
       | Some x => Returns x
       | None => Panics
       end.

(** *** Gardener API types *)

(** [github.com/gardener/gardener/pkg/apis/core]: the internal [Shoot]
    the webhook receives, with the fields the validator reads. *)
Module core.

Record Extension : Type := {
  Type_ : string;
  ProviderConfig : option runtime.RawExtension;
  Disabled : option bool
}.

(** The zero value [core.Extension{}]. *)
Definition Extension_zero : Extension :=
  {| Type_ := ""; ProviderConfig := None; Disabled := None |}.

Record ShootSpec : Type := {
  Extensions : list Extension
}.

Record Shoot : Type := {
  Name : string;
  Namespace : string;
  DeletionTimestamp : option Z;
  Spec : ShootSpec
}.

End core.

(** [sigs.k8s.io/controller-runtime/pkg/client.Object] as the webhook
    passes it: the nil interface, a [*core.Shoot] (itself possibly a nil
    pointer), or a value of another type, of which [%T] is kept. *)
Inductive client_Object : Type :=
| nilObject
| ShootObject (shoot : option core.Shoot)
| OtherObject (typeName : string).

(** [fmt.Sprintf("%T", obj)]. *)
Definition fmt_T (obj : client_Object) : string :=
  match obj with
  | nilObject => "<nil>"
  | ShootObject _ => "*core.Shoot"
  | OtherObject typeName => typeName
  end.

(** [github.com/gardener/gardener/pkg/apis/core/v1beta1] and the
    extension library's [Cluster]: what [Reconcile] reads of them. *)
Module gardencorev1beta1.

Record Hibernation : Type := {
  Enabled : option bool
}.

Record Shoot : Type := {
  Spec_Hibernation : option Hibernation
}.

End gardencorev1beta1.

Module v1beta1helper.

(** [HibernationIsEnabled(shoot)]:
    [shoot.Spec.Hibernation != nil && shoot.Spec.Hibernation.Enabled != nil
     && *shoot.Spec.Hibernation.Enabled]; a nil [shoot] is dereferenced. *)
Definition HibernationIsEnabled (shoot : option gardencorev1beta1.Shoot)
  : Outcome bool :=
  match shoot with
  | None => Panics
  | Some shoot =>
      Returns
        match gardencorev1beta1.Spec_Hibernation shoot with
        | Some h =>
            match gardencorev1beta1.Enabled h with
            | Some enabled => enabled
            | None => false
            end
        | None => false
        end
  end.

End v1beta1helper.

Module extensionscontroller.

Record Cluster : Type := {
  Shoot : option gardencorev1beta1.Shoot
}.

End extensionscontroller.

Module extensionsv1alpha1.

(** [extensionsv1alpha1.Extension]: the resource the actuator is called
    with, never a nil pointer ([ProviderConfig] is
    [Spec.ProviderConfig]). *)
Record Extension : Type := {
  Name : string;
  Namespace : string;
  ProviderConfig : option runtime.RawExtension
}.

End extensionsv1alpha1.

(** *** [pkg/actuator] *)

Module actuator.

(** Name is the name of the actuator. *)
Definition Name : string := "otelcol".
(** ExtensionType is the type of the extension resources, which the
    actuator reconciles. *)
Definition ExtensionType : string := "otelcol".
(** FinalizerSuffix is the finalizer suffix used by the actuator. *)
Definition FinalizerSuffix : string := "gardener-extension-otelcol".
Definition baseResourceName : string := "external-otelcol".
(** managedResourceName is the name of the managed resource created by
    the actuator. *)
Definition managedResourceName : string := baseResourceName.
Definition targetAllocatorName : string := baseResourceName.
Definition targetAllocatorServiceAccountName : string :=
  baseResourceName +:+ "-targetallocator".
Definition targetAllocatorRoleName : string :=
  baseResourceName +:+ "-targetallocator".

(** [gardenerfeatures.OpenTelemetryCollector], the gardenlet feature
    gate. *)
Definition OpenTelemetryCollector : string := "OpenTelemetryCollector".

(** The objects [Reconcile] bundles.  Each is kept by kind, name and
    namespace: the namespace is the only input of the four constructors,
    their other fields are constants of the source. *)
Inductive ObjectKind : Type :=
| ServiceAccount
| Role
| RoleBinding
| TargetAllocator.

Record ManagedObject : Type := {
  objKind : ObjectKind;
  objName : string;
  objNamespace : string
}.

Definition getTargetAllocatorServiceAccount (namespace : string) : ManagedObject :=
  {| objKind := ServiceAccount;
     objName := targetAllocatorServiceAccountName;
     objNamespace := namespace |}.

Definition getTargetAllocatorRole (namespace : string) : ManagedObject :=
  {| objKind := Role;
     objName := targetAllocatorRoleName;
     objNamespace := namespace |}.

Definition getTargetAllocatorRoleBinding (namespace : string) : ManagedObject :=
  {| objKind := RoleBinding;
     objName := targetAllocatorRoleName;
     objNamespace := namespace |}.

Definition getTargetAllocator (namespace : string) : ManagedObject :=
  {| objKind := TargetAllocator;
     objName := targetAllocatorName;
     objNamespace := namespace |}.

(** The serialized bundle, a [map[string][]byte]. *)
Abbreviation SerializedData := (gmap string bytes).

(** The collaborators of the actuator: the seed cluster behind its
    client, and Gardener's managed-resources library acting on it.
    [World] holds all that their answers depend on; reading the cluster
    leaves it as it is. *)
Class Collaborators : Type := {
  (** the state of the seed cluster *)
  World : Type;
  (** [extensionscontroller.GetCluster(ctx, client, namespace)] *)
  GetCluster : World -> string -> extensionscontroller.Cluster + ExternalError;
  (** [managedresources.DeleteForSeed(ctx, client, namespace, name)] *)
  DeleteForSeed : World -> string -> string -> World * option ExternalError;
  (** [managedresources.CreateForSeed(ctx, client, namespace, name,
      keepObjects, data)] *)
  CreateForSeed :
    World -> string -> string -> bool -> SerializedData ->
    World * option ExternalError;
  (** [registry.AddAllAndSerialize(objects...)] on a fresh registry *)
  AddAllAndSerialize : list ManagedObject -> SerializedData + ExternalError
}.

(** A call of the managed-resources library. *)
Inductive BundlerCall : Type :=
| CallDeleteForSeed (namespace name : string)
| CallCreateForSeed (namespace name : string) (keepObjects : bool)
    (data : SerializedData).

(** One [logger.Info(msg, keysAndValues...)]. *)
Record LogEntry : Type := {
  logMsg : string;
  logKeysAndValues : list (string * string)
}.

(** [Actuator]; its [client] and [reader] are the handle on [World]. *)
Record Actuator : Type := {
  decoder : option runtime.Decoder;
  gardenerVersion : string;
  gardenletFeatureGates : gmap string bool
}.

(** [Option] is a function, which configures the [Actuator]. *)
Definition Option : Type := Actuator -> Actuator * option error.

(** [New] creates a new actuator with the given options. *)
Definition New (opts : list Option) : option Actuator * option error :=
  let act := {| decoder := None; gardenerVersion := "";
                gardenletFeatureGates := ∅ |} in
  let fix loop (act : Actuator) (opts : list Option) :=
    match opts with
    | [] => (Some act, None)
    | opt :: opts' =>
        match opt act with
        | (_, Some err) => (None, Some err)
        | (act', None) => loop act' opts'
        end
    end in
  loop act opts.

Definition WithDecoder (d : option runtime.Decoder) : Option :=
  fun a =>
    ({| decoder := d; gardenerVersion := gardenerVersion a;
        gardenletFeatureGates := gardenletFeatureGates a |}, None).

Definition WithGardenerVersion (v : string) : Option :=
  fun a =>
    ({| decoder := decoder a; gardenerVersion := v;
        gardenletFeatureGates := gardenletFeatureGates a |}, None).

Definition WithGardenletFeatures (feats : gmap string bool) : Option :=
  fun a =>
    ({| decoder := decoder a; gardenerVersion := gardenerVersion a;
        gardenletFeatureGates := feats |}, None).

Section Actuator.
Context {lib : GoLibrary} {env : Collaborators}.

(** What a trigger acts on: the seed, the operation counters, the log,
    and the record of the calls made to the managed-resources library.

    Modelled from the spec: [metrics.ActuatorOperationTotal] is declared
    in the metrics package, which is not among the sources; it is "an
    observability counter keyed by (cluster identity, trigger kind)", here
    a map from the two label values to the count, an absent key counting
    zero. *)
Record State : Type := {
  world : World;
  ActuatorOperationTotal : gmap (string * string) nat;
  logs : list LogEntry;
  calls : list BundlerCall
}.

(** A method of the actuator: from a state to an outcome and a state. *)
Definition M (A : Type) : Type := State -> Outcome A * State.

Definition ret {A : Type} (a : A) : M A := fun st => (Returns a, st).

Definition panic {A : Type} : M A := fun st => (Panics, st).

Definition bind {A B : Type} (m : M A) (f : A -> M B) : M B :=
  fun st =>
    match m st with
    | (Returns a, st') => f a st'
    | (Panics, st') => (Panics, st')
    end.

(** [defer func() { d }()] in front of [body]: [d] runs when [body] is
    left, by a return or by a panic. *)
Definition defer {A : Type} (d : State -> State) (body : M A) : M A :=
  fun st => let '(r, st') := body st in (r, d st').

(** The value of a counter. *)
Definition counter (st : State) (cluster operation : string) : nat :=
  default 0%nat (ActuatorOperationTotal st !! (cluster, operation)).

(** [metrics.ActuatorOperationTotal.WithLabelValues(cluster,
    operation).Inc()]. *)
Definition Inc (cluster operation : string) (st : State) : State :=
  {| world := world st;
     ActuatorOperationTotal :=
       <[ (cluster, operation) := S (counter st cluster operation) ]>
         (ActuatorOperationTotal st);
     logs := logs st;
     calls := calls st |}.

Definition logger_Info (msg : string) (keysAndValues : list (string * string))
  : M unit :=
  fun st =>
    (Returns tt,
     {| world := world st;
        ActuatorOperationTotal := ActuatorOperationTotal st;
        logs := append (logs st)
                  {| logMsg := msg; logKeysAndValues := keysAndValues |};
        calls := calls st |}).

Definition extensionscontroller_GetCluster (namespace : string)
  : M (extensionscontroller.Cluster + error) :=
  fun st =>
    match GetCluster (world st) namespace with
    | inl cluster => (Returns (inl cluster), st)
    | inr e => (Returns (inr (External e)), st)
    end.

Definition managedresources_DeleteForSeed (namespace name : string)
  : M (option error) :=
  fun st =>
    let '(w, err) := DeleteForSeed (world st) namespace name in
    (Returns (External <$> err),
     {| world := w;
        ActuatorOperationTotal := ActuatorOperationTotal st;
        logs := logs st;
        calls := append (calls st) (CallDeleteForSeed namespace name) |}).

Definition managedresources_CreateForSeed (namespace name : string)
  (keepObjects : bool) (data : SerializedData) : M (option error) :=
  fun st =>
    let '(w, err) := CreateForSeed (world st) namespace name keepObjects data in
    (Returns (External <$> err),
     {| world := w;
        ActuatorOperationTotal := ActuatorOperationTotal st;
        logs := logs st;
        calls := append (calls st)
                   (CallCreateForSeed namespace name keepObjects data) |}).

Definition lift {A : Type} (o : Outcome A) : M A :=
  fun st => (o, st).

Notation "x <- m ;; k" := (bind m (fun x => k))
  (at level 100, m at next level, right associativity).
Notation "m ;;; k" := (bind m (fun _ => k))
  (at level 100, right associativity).

(** [Delete] deletes any resources managed by the [Actuator]. *)
Definition Delete (a : Actuator) (ex : extensionsv1alpha1.Extension)
  : M (option error) :=
  (* Increment our example metrics counter *)
  defer (Inc (extensionsv1alpha1.Namespace ex) "delete") (
    logger_Info "deleting resources managed by extension" [] ;;;
    err <- managedresources_DeleteForSeed
             (extensionsv1alpha1.Namespace ex) managedResourceName ;;
    ret (client_IgnoreNotFound err)).

(** [Reconcile] reconciles the extension resource by taking care of any
    resources managed by the [Actuator]. *)
Definition Reconcile (a : Actuator) (ex : extensionsv1alpha1.Extension)
  : M (option error) :=
  let '(otelcolFeature, ok) :=
    match gardenletFeatureGates a !! OpenTelemetryCollector with
    | Some v => (v, true)
    | None => (false, false)
    end in
  if negb ok || negb otelcolFeature then
    logger_Info
      "gardenlet feature gate OpenTelemetryCollector is either missing or disabled"
      [] ;;;
    Delete a ex
  else
    (* The cluster name is the same as the name of the namespace for our
       Extension resource. *)
    let clusterName := extensionsv1alpha1.Namespace ex in
    (* Increment our example metrics counter *)
    defer (Inc clusterName "reconcile") (
      logger_Info "reconciling extension"
        [("name", extensionsv1alpha1.Name ex); ("cluster", clusterName)] ;;;
      r <- extensionscontroller_GetCluster clusterName ;;
      match r with
      | inr err =>
          ret (Some (fmt_Errorf_w
                       ("failed to get cluster: " +:+ error_Error err) err))
      | inl cluster =>
          (* Nothing to do here, if the shoot cluster is hibernated at the
             moment. *)
          hibernated <- lift (v1beta1helper.HibernationIsEnabled
                                (extensionscontroller.Shoot cluster)) ;;
          if hibernated : bool then ret None
          else
            (* Parse and validate the provider config *)
            match extensionsv1alpha1.ProviderConfig ex with
            | None => ret (Some (errors_New "no provider config specified"))
            | Some providerConfig =>
                d <- lift (runtime.DecodeInto (decoder a)
                             (runtime.Raw providerConfig)) ;;
                match d with
                | inr err =>
                    ret (Some (fmt_Errorf_w
                                 ("invalid provider spec configuration: "
                                  +:+ error_Error err) err))
                | inl cfg =>
                    match validation.Validate cfg with
                    | Some err => ret (Some err)
                    | None =>
                        (* Bundle things up in a managed resource *)
                        let namespace := extensionsv1alpha1.Namespace ex in
                        match AddAllAndSerialize
                                [ getTargetAllocatorServiceAccount namespace;
                                  getTargetAllocatorRole namespace;
                                  getTargetAllocatorRoleBinding namespace;
                                  getTargetAllocator namespace ] with
                        | inr e => ret (Some (External e))
                        | inl data =>
                            err <- managedresources_CreateForSeed
                                     namespace managedResourceName false data ;;
                            match err with
                            | Some err => ret (Some err)
                            | None => ret None
                            end
                        end
                    end
                end
            end
      end).

(** [ForceDelete] signals the [Actuator] to delete any resources managed
    by it, because of a force-delete event of the shoot cluster. *)
Definition ForceDelete (a : Actuator) (ex : extensionsv1alpha1.Extension)
  : M (option error) :=
  (* Increment our example metrics counter *)
  defer (Inc (extensionsv1alpha1.Namespace ex) "force_delete") (
    logger_Info
      "shoot has been force-deleted, deleting resources managed by extension"
      [] ;;;
    Delete a ex).

(** [Restore] restores the resources managed by the extension
    [Actuator]. *)
Definition Restore (a : Actuator) (ex : extensionsv1alpha1.Extension)
  : M (option error) :=
  (* Increment our example metrics counter *)
  defer (Inc (extensionsv1alpha1.Namespace ex) "restore") (Reconcile a ex).

(** [Migrate] signals the [Actuator] to reconcile the resources managed
    by it, because of a shoot control-plane migration event. *)
Definition Migrate (a : Actuator) (ex : extensionsv1alpha1.Extension)
  : M (option error) :=
  (* Increment our example metrics counter *)
  defer (Inc (extensionsv1alpha1.Namespace ex) "migrate") (Reconcile a ex).

End Actuator.

End actuator.

(** *** [pkg/admission/validator] *)

Module validator.

(** [IgnoreExtensionNotFound] returns nil if err is
    [ErrExtensionNotFound], otherwise it returns err. *)
Definition IgnoreExtensionNotFound (err : option error) : option error :=
  if errors_Is_ErrExtensionNotFound err then None else err.

(** [shootValidator] validates the provider configuration of the
    extension from a [core.Shoot] spec. *)
Record shootValidator : Type := {
  decoder : option runtime.Decoder;
  extensionType : string
}.

Section Validator.
Context {lib : GoLibrary}.

(** [newShootValidator] returns a new [shootValidator]. *)
Definition newShootValidator (decoder : option runtime.Decoder)
  : option shootValidator * option error :=
  let validator :=
    {| decoder := decoder; extensionType := actuator.ExtensionType |} in
  match decoder with
  | None =>
      (None,
       Some (errors_New ("invalid decoder specified for shoot validator "
                         +:+ extensionType validator)))
  | Some _ => (Some validator, None)
  end.

(** [getExtension] returns the [core.Extension] by extracting it from the
    given [core.Shoot] object. *)
Definition getExtension (v : shootValidator) (obj : option core.Shoot)
  : Outcome (core.Extension * option error) :=
  match obj with
  | None =>
      Returns (core.Extension_zero,
               Some (errors_New "invalid shoot resource provided"))
  | Some obj =>
      let idx :=
        slices_IndexFunc (core.Extensions (core.Spec obj))
          (fun ext => String.eqb (core.Type_ ext) (extensionType v)) in
      if idx =? -1 then
        Returns (core.Extension_zero,
                 Some (fmt_Errorf_w
                         (error_Error ErrExtensionNotFound +:+ ": "
                          +:+ extensionType v)
                         ErrExtensionNotFound))
      else
        match index (core.Extensions (core.Spec obj)) idx with
        | Returns ext => Returns (ext, None)
        | Panics => Panics
        end
  end.

(** [validateExtension] validates the extension configuration from the
    given [core.Shoot] specs. *)
Definition validateExtension (v : shootValidator)
  (newObj : option core.Shoot) (_ : option core.Shoot)
  : Outcome (option error) :=
  match getExtension v newObj with
  | Panics => Panics
  | Returns (_, Some err) => Returns (IgnoreExtensionNotFound (Some err))
  | Returns (ext, None) =>
      (* Extension is disabled, nothing to validate *)
      if match core.Disabled ext with Some disabled => disabled | None => false end
      then Returns None
      else
        match core.ProviderConfig ext with
        | None =>
            Returns (Some (errors_New ("no provider config specified for "
                                       +:+ extensionType v)))
        | Some providerConfig =>
            match runtime.DecodeInto (decoder v) (runtime.Raw providerConfig) with
            | Panics => Panics
            | Returns (inr err) =>
                Returns (Some (fmt_Errorf_w
                                 ("invalid provider spec configuration for "
                                  +:+ extensionType v +:+ ": "
                                  +:+ error_Error err) err))
            | Returns (inl cfg) =>
                match validation.Validate cfg with
                | Some err =>
                    Returns (Some (fmt_Errorf_w
                                     ("invalid extension configuration for "
                                      +:+ extensionType v +:+ ": "
                                      +:+ error_Error err) err))
                | None => Returns None
                end
            end
        end
  end.

(** [Validate] implements the [extensionswebhook.Validator] interface. *)
Definition Validate (v : shootValidator) (newObj oldObj : client_Object)
  : Outcome (option error) :=
  match newObj with
  | ShootObject newShoot =>
      let oldShoot :=
        match oldObj with
        | ShootObject oldShoot => oldShoot
        | _ => None
        end in
      match newShoot with
      | None => Panics                  (* newShoot.DeletionTimestamp *)
      | Some shoot =>
          match core.DeletionTimestamp shoot with
          | Some _ => Returns None
          | None => validateExtension v newShoot oldShoot
          end
      end
  | _ => Returns (Some (errors_New ("invalid object type: " +:+ fmt_T newObj)))
  end.

End Validator.

End validator.

(** *** The rules of the specification

    The second side of the comparisons below, written after the
    specification's words and not after the code. *)

Module rules.
Import config.

(** What an error result reports: the field errors of the aggregate. *)
Definition reported (result : option error) (e : FieldError) : Prop :=
  match result with
  | Some (Aggregate errs) => In e errs
  | _ => False
  end.

(** The fields the rules of the specification are about (spec 4.2), each
    with the path its violation is reported on.  They are written here
    from the configuration itself, apart from the tables of [Validate]:
    the base, traces, metrics, logs and profiles endpoints; the read and
    the write buffer size; the token, CA, cert and key references. *)
Definition endpoints (cfg : CollectorConfig) : list (string * string) :=
  [ ("spec.exporters.otlphttp.endpoint",
     Endpoint (OTLPHTTPExporter (Exporters (Spec cfg))));
    ("spec.exporters.otlphttp.traces_endpoint",
     TracesEndpoint (OTLPHTTPExporter (Exporters (Spec cfg))));
    ("spec.exporters.otlphttp.metrics_endpoint",
     MetricsEndpoint (OTLPHTTPExporter (Exporters (Spec cfg))));
    ("spec.exporters.otlphttp.logs_endpoint",
     LogsEndpoint (OTLPHTTPExporter (Exporters (Spec cfg))));
    ("spec.exporters.otlphttp.profiles_endpoint",
     ProfilesEndpoint (OTLPHTTPExporter (Exporters (Spec cfg)))) ].

Definition bufferSizes (cfg : CollectorConfig) : list (string * Z) :=
  [ ("spec.exporters.otlphttp.read_buffer_size",
     ReadBufferSize (OTLPHTTPExporter (Exporters (Spec cfg))));
    ("spec.exporters.otlphttp.write_buffer_size",
     WriteBufferSize (OTLPHTTPExporter (Exporters (Spec cfg)))) ].

Definition references (cfg : CollectorConfig)
  : list (string * option ResourceReference) :=
  [ ("spec.exporters.otlphttp.token",
     Token (OTLPHTTPExporter (Exporters (Spec cfg))));
    ("spec.exporters.otlphttp.tls.ca",
     CA (TLS (OTLPHTTPExporter (Exporters (Spec cfg)))));
    ("spec.exporters.otlphttp.tls.cert",
     Cert (TLS (OTLPHTTPExporter (Exporters (Spec cfg)))));
    ("spec.exporters.otlphttp.tls.key",
     Key (TLS (OTLPHTTPExporter (Exporters (Spec cfg))))) ].

(** The four rule families of the validator (spec 4.2). *)
Inductive violation {lib : GoLibrary} (cfg : CollectorConfig) : FieldError -> Prop :=
| exporters_enabled :
    (* fails if no exporter's enabled flag is true *)
    DebugEnabled (DebugExporter (Exporters (Spec cfg))) <> Some true ->
    Enabled (OTLPHTTPExporter (Exporters (Spec cfg))) <> Some true ->
    violation cfg (field_Required "spec.exporters" "no exporter enabled")
| url_fields path value :
    (* each endpoint field that is non-empty fails if it does not parse
       as a URL *)
    In (path, value) (endpoints cfg) ->
    value <> "" ->
    url.Parse value <> None ->
    violation cfg
      (field_Invalid path (StringValue value) "invalid URL specified")
| non_negative path value :
    (* read-buffer-size and write-buffer-size must be >= 0 *)
    In (path, value) (bufferSizes cfg) ->
    value < 0 ->
    violation cfg
      (field_Invalid path (IntValue value) "value cannot be negative")
| resource_reference_complete path ref :
    (* for each present reference, both name and dataKey must be
       non-empty *)
    In (path, Some ref) (references cfg) ->
    Name (ResourceRef ref) = "" \/ DataKey (ResourceRef ref) = "" ->
    violation cfg
      (field_Invalid path (StringValue path) "name or dataKey is empty").

(** An error that is [ErrExtensionNotFound] or wraps it, at any depth. *)
Inductive wraps_ErrExtensionNotFound : error -> Prop :=
| is_sentinel : wraps_ErrExtensionNotFound ErrExtensionNotFound
| wraps_sentinel msg e :
    wraps_ErrExtensionNotFound e ->
    wraps_ErrExtensionNotFound (fmt_Errorf_w msg e).

(** The extension's configuration block of a shoot: the first extension
    block with the validator's type discriminator (spec 4.3). *)
Definition extensionBlock (v : validator.shootValidator) (shoot : core.Shoot)
  : option core.Extension :=
  find (fun ext => String.eqb (core.Type_ ext) (validator.extensionType v))
    (core.Extensions (core.Spec shoot)).

(** Whether the feature gate is on for an actuator: present and true. *)
Definition featureGateOn (a : actuator.Actuator) : Prop :=
  actuator.gardenletFeatureGates a !! actuator.OpenTelemetryCollector
  = Some true.

End rules.

(** *** Concrete scenarios

    One instance of the libraries and of the collaborators, and the
    configurations, shoots and actuators the examples run on. *)

Module scenario.
Import config.

(** A text between double quotes. *)
Definition quote (s : string) : string :=
  String (ascii_of_nat 34) (s +:+ String (ascii_of_nat 34) "").

(** The body of a field error: type, value and detail. *)
Definition ErrorBody (e : FieldError) : string :=
  match ErrType e with
  | ErrorTypeRequired => "Required value"
  | ErrorTypeInvalid =>
      "Invalid value: " +:+
      match BadValue_ e with
      | NoValue => "null"
      | StringValue s => quote s
      | IntValue n => DecimalString.NilZero.string_of_int (Z.to_int n)
      end
  end +:+ (if String.eqb (Detail e) "" then "" else ": " +:+ Detail e).

(** An authority is accepted when it holds no blank. *)
Definition parseAuthority (authority : string) : option string :=
  if strings.Contains authority " " then Some "invalid character in host name"
  else None.

Definition library : GoLibrary :=
  {| url_parseAuthority := parseAuthority; field_ErrorBody := ErrorBody |}.

(** A seed: its clusters by namespace, its managed resources by
    namespace and name. *)
Record Seed : Type := {
  clusters : gmap string extensionscontroller.Cluster;
  managedResources : gmap (string * string) (gmap string bytes)
}.

Definition notFound (what : string) : ExternalError :=
  {| ext_message := what +:+ " not found"; ext_notFound := true |}.

Definition collaborators : actuator.Collaborators :=
  {| actuator.World := Seed;
     actuator.GetCluster := fun w namespace =>
       match clusters w !! namespace with
       | Some cluster => inl cluster
       | None => inr (notFound "cluster")
       end;
     actuator.DeleteForSeed := fun w namespace name =>
       match managedResources w !! (namespace, name) with
       | Some _ =>
           ({| clusters := clusters w;
               managedResources := delete (namespace, name) (managedResources w) |},
            None)
       | None => (w, Some (notFound "managedresource"))
       end;
     actuator.CreateForSeed := fun w namespace name _ data =>
       ({| clusters := clusters w;
           managedResources := <[ (namespace, name) := data ]> (managedResources w) |},
        None);
     actuator.AddAllAndSerialize := fun objects =>
       inl (list_to_map ((fun o => (actuator.objName o, [])) <$> objects)) |}.

Definition configOf (exporters : CollectorExportersConfig) : CollectorConfig :=
  {| Kind := "CollectorConfig";
     APIVersion := "otelcol.extensions.gardener.cloud/v1alpha1";
     Spec := {| Exporters := exporters |} |}.

(** The OTLP HTTP exporter alone, enabled, with the given base endpoint
    and read buffer size. *)
Definition otlphttpOnly (endpoint : string) (readBufferSize : Z)
  : CollectorConfig :=
  let o := OTLPHTTPExporter CollectorExportersConfig_zero in
  configOf
    {| OTLPHTTPExporter :=
         {| Enabled := Some true; Endpoint := endpoint;
            TracesEndpoint := TracesEndpoint o;
            MetricsEndpoint := MetricsEndpoint o;
            LogsEndpoint := LogsEndpoint o;
            ProfilesEndpoint := ProfilesEndpoint o;
            TLS := TLS o; Token := Token o; Timeout := Timeout o;
            ReadBufferSize := readBufferSize;
            WriteBufferSize := WriteBufferSize o; Encoding := Encoding o;
            RetryOnFailure := RetryOnFailure o;
            Compression := Compression o |};
       DebugExporter := DebugExporter CollectorExportersConfig_zero |}.

(** A decoder that refuses every payload, and a payload that is no
    configuration in any encoding. *)
Definition refusingDecoder : runtime.Decoder :=
  fun _ =>
    inr {| ext_message := "couldn't get version/kind; json parse error";
           ext_notFound := false |}.

Definition garbage : bytes := [Byte.x00; Byte.xff; Byte.x7b].

(** The validator the webhook registers, with that decoder. *)
Definition shootValidator : validator.shootValidator :=
  {| validator.decoder := Some refusingDecoder;
     validator.extensionType := actuator.ExtensionType |}.

Definition shootWith (deletionTimestamp : option Z)
  (extensions : list core.Extension) : core.Shoot :=
  {| core.Name := "local"; core.Namespace := "garden-local";
     core.DeletionTimestamp := deletionTimestamp;
     core.Spec := {| core.Extensions := extensions |} |}.

(** Extension blocks: one of another extension, one of this extension
    disabled with a garbage payload, one of this extension with no
    payload. *)
Definition otherBlock : core.Extension :=
  {| core.Type_ := "shoot-dns-service"; core.ProviderConfig := None;
     core.Disabled := None |}.

Definition disabledBlock : core.Extension :=
  {| core.Type_ := "otelcol";
     core.ProviderConfig := Some {| runtime.Raw := garbage |};
     core.Disabled := Some true |}.

Definition bareBlock : core.Extension :=
  {| core.Type_ := "otelcol"; core.ProviderConfig := None;
     core.Disabled := None |}.

(** The extension resource of a shoot, in the shoot's namespace of the
    seed. *)
Definition shootNamespace : string := "shoot--local--local".

Definition extension (providerConfig : option runtime.RawExtension)
  : extensionsv1alpha1.Extension :=
  {| extensionsv1alpha1.Name := "otelcol";
     extensionsv1alpha1.Namespace := shootNamespace;
     extensionsv1alpha1.ProviderConfig := providerConfig |}.

Definition actuatorWith (featureGates : gmap string bool) : actuator.Actuator :=
  {| actuator.decoder := Some refusingDecoder;
     actuator.gardenerVersion := "v1.131.0";
     actuator.gardenletFeatureGates := featureGates |}.

(** A seed that holds the cluster of the shoot, hibernated or not, and a
    managed resource applied earlier; the state before any trigger ran: no
    counter, no log line, no call. *)
Definition clusterOf (hibernated : bool) : extensionscontroller.Cluster :=
  {| extensionscontroller.Shoot :=
       Some {| gardencorev1beta1.Spec_Hibernation :=
                 Some {| gardencorev1beta1.Enabled := Some hibernated |} |} |}.

Definition seedOf (hibernated : bool) : Seed :=
  {| clusters := {[ shootNamespace := clusterOf hibernated ]};
     managedResources :=
       {[ (shootNamespace, actuator.managedResourceName) := ∅ ]} |}.

Definition stateOf (seed : Seed) : @actuator.State collaborators :=
  @actuator.Build_State collaborators seed ∅ [] [].

End scenario.

(** *** What the checks read

    Projections of the inputs, for the statements that say what a result
    depends on. *)

Module views.
Import config.

(** The fields of a configuration that [Validate] reads: the two
    [Enabled] flags and the entries of its three tables. *)
Definition checkedFields (cfg : CollectorConfig)
  : option bool * option bool * list (string * string) * list (string * Z)
    * list (string * option ResourceReference) :=
  (DebugEnabled (DebugExporter (Exporters (Spec cfg))),
   Enabled (OTLPHTTPExporter (Exporters (Spec cfg))),
   validation.urlFields cfg,
   validation.nonNegativeFields cfg,
   validation.resourceRefs cfg).

(** What [validateExtension] reads of an extension block: nothing when
    the block is disabled, its payload otherwise. *)
Definition enabledPayload (block : core.Extension)
  : option (option runtime.RawExtension) :=
  if match core.Disabled block with Some disabled => disabled | None => false end
  then None
  else Some (core.ProviderConfig block).

End views.

(** *** The [extension.Actuator] interface

    The five methods Gardener's extension controller calls on the
    actuator ([var _ extension.Actuator = &Actuator{}]). *)

Module extension.

Inductive Operation : Type :=
| Reconcile
| Delete
| ForceDelete
| Restore
| Migrate.

Section Call.
Context {lib : GoLibrary} {env : actuator.Collaborators}.

Definition call (op : Operation) (a : actuator.Actuator)
  (ex : extensionsv1alpha1.Extension) : actuator.M (option error) :=
  match op with
  | Reconcile => actuator.Reconcile a ex
  | Delete => actuator.Delete a ex
  | ForceDelete => actuator.ForceDelete a ex
  | Restore => actuator.Restore a ex
  | Migrate => actuator.Migrate a ex
  end.

End Call.

End extension.

(** *** More scenarios *)

Module fixtures.
Import config.

(** A decoder that reads every non-empty payload as the given
    configuration. *)
Definition decoderOf (cfg : CollectorConfig) : runtime.Decoder :=
  fun raw =>
    match raw with
    | [] => inr {| ext_message := "unexpected end of JSON input";
                   ext_notFound := false |}
    | _ => inl cfg
    end.

Definition collectorEndpoint : string := "https://collector.example.com:4318".

Definition payload : runtime.RawExtension :=
  {| runtime.Raw := [Byte.x7b; Byte.x7d] |}.

(** An enabled block of this extension with a payload. *)
Definition enabledBlock : core.Extension :=
  {| core.Type_ := "otelcol"; core.ProviderConfig := Some payload;
     core.Disabled := Some false |}.

Definition shootValidatorOf (cfg : CollectorConfig) : validator.shootValidator :=
  {| validator.decoder := Some (decoderOf cfg);
     validator.extensionType := actuator.ExtensionType |}.

Definition actuatorOf (cfg : CollectorConfig) : actuator.Actuator :=
  {| actuator.decoder := Some (decoderOf cfg);
     actuator.gardenerVersion := "v1.131.0";
     actuator.gardenletFeatureGates := {[ actuator.OpenTelemetryCollector := true ]} |}.

(** The same exporter with another encoding and compression, fields that
    [Validate] does not look at. *)
Definition recoded (cfg : CollectorConfig) : CollectorConfig :=
  let e := Exporters (Spec cfg) in
  let o := OTLPHTTPExporter e in
  {| Kind := Kind cfg; APIVersion := APIVersion cfg;
     Spec :=
       {| Exporters :=
            {| OTLPHTTPExporter :=
                 {| Enabled := Enabled o; Endpoint := Endpoint o;
                    TracesEndpoint := TracesEndpoint o;
                    MetricsEndpoint := MetricsEndpoint o;
                    LogsEndpoint := LogsEndpoint o;
                    ProfilesEndpoint := ProfilesEndpoint o;
                    TLS := TLS o; Token := Token o; Timeout := Timeout o;
                    ReadBufferSize := ReadBufferSize o;
                    WriteBufferSize := WriteBufferSize o;
                    Encoding := "json";
                    RetryOnFailure := RetryOnFailure o;
                    Compression := "zstd" |};
               DebugExporter := DebugExporter e |} |} |}.

End fixtures.

(** *** What the operations count, and what options do

    Read off the deferred increments of the five methods and off the loop
    of [New], for the statements about them. *)

Module accounting.

(** The operations under which a call is counted: its own, and those of
    the methods it returns through. *)
Definition counted (op : extension.Operation) (a : actuator.Actuator)
  : list string :=
  let reconcile :=
    if bool_decide (rules.featureGateOn a) then ["reconcile"] else ["delete"] in
  match op with
  | extension.Reconcile => reconcile
  | extension.Delete => ["delete"]
  | extension.ForceDelete => ["force_delete"; "delete"]
  | extension.Restore => "restore" :: reconcile
  | extension.Migrate => "migrate" :: reconcile
  end.

(** The operations that return through [Reconcile]. *)
Definition reconciles (op : extension.Operation) : bool :=
  match op with
  | extension.Reconcile | extension.Restore | extension.Migrate => true
  | extension.Delete | extension.ForceDelete => false
  end.

(** The loop of [New], from any actuator. *)
Fixpoint applyAll (act : actuator.Actuator) (opts : list actuator.Option)
  : option actuator.Actuator * option error :=
  match opts with
  | [] => (Some act, None)
  | opt :: opts' =>
      match opt act with
      | (_, Some err) => (None, Some err)
      | (act', None) => applyAll act' opts'
      end
  end.

(** An option that never fails, and one that never fails and leaves the
    feature gates as they are. *)
Definition succeeds (opt : actuator.Option) : Prop :=
  forall a, snd (opt a) = None.

Definition keepsFeatureGates (opt : actuator.Option) : Prop :=
  forall a,
    snd (opt a) = None
    /\ actuator.gardenletFeatureGates (fst (opt a))
       = actuator.gardenletFeatureGates a.

(** An option that fails with the given error on every actuator. *)
Definition failsWith (err : error) (opt : actuator.Option) : Prop :=
  forall a, snd (opt a) = Some err.

End accounting.

(** *** The objects of the bundle, in full

    [getLabels] and the four constructors of [pkg/actuator], with the
    fields the source sets.  The constants of Gardener and of the
    Kubernetes API that they use are parameters. *)

Class GardenerConstants : Type := {
  v1beta1constants_LabelRole : string;
  v1beta1constants_LabelObservability : string;
  v1beta1constants_GardenRole : string;
  v1beta1constants_GardenRoleObservability : string;
  v1beta1constants_LabelObservabilityApplication : string;
  v1beta1constants_LabelNetworkPolicyToDNS : string;
  v1beta1constants_LabelNetworkPolicyToRuntimeAPIServer : string;
  v1beta1constants_LabelNetworkPolicyToPrivateNetworks : string;
  v1beta1constants_LabelNetworkPolicyToPublicNetworks : string;
  v1beta1constants_LabelNetworkPolicyAllowed : string;
  v1beta1constants_LabelNetworkPolicyScrapeTargets : string;
  v1beta1constants_PriorityClassNameShootControlPlane100 : string;
  resourcesv1alpha1_NetworkPolicyLabelKeyPrefix : string;
  (** [gardenerutils.NetworkPolicyLabel(serviceName, port)] *)
  gardenerutils_NetworkPolicyLabel : string -> Z -> string;
  rbacv1_GroupName : string;
  rbacv1_ServiceAccountKind : string;
  corev1_ResourceCPU : string;
  corev1_ResourceMemory : string
}.

Module metav1.

Record ObjectMeta : Type := {
  Name : string;
  Namespace : string;
  Labels : gmap string string
}.

Record LabelSelector : Type := {
  MatchLabels : gmap string string
}.

End metav1.

Module corev1.

Record ServiceAccount : Type := {
  ObjectMeta : metav1.ObjectMeta;
  AutomountServiceAccountToken : option bool
}.

(** [corev1.ResourceRequirements]; a quantity is kept as the text
    [resource.MustParse] is given. *)
Record ResourceRequirements : Type := {
  Requests : gmap string string
}.

Record SecurityContext : Type := {
  AllowPrivilegeEscalation : option bool
}.

End corev1.

Module rbacv1.

Record PolicyRule : Type := {
  APIGroups : list string;
  Resources : list string;
  Verbs : list string
}.

Record Role : Type := {
  Role_ObjectMeta : metav1.ObjectMeta;
  Rules : list PolicyRule
}.

Record RoleRef_ : Type := {
  RoleRef_APIGroup : string;
  RoleRef_Kind : string;
  RoleRef_Name : string
}.

Record Subject : Type := {
  Subject_Kind : string;
  Subject_Name : string;
  Subject_Namespace : string
}.

Record RoleBinding : Type := {
  RoleBinding_ObjectMeta : metav1.ObjectMeta;
  RoleRef : RoleRef_;
  Subjects : list Subject
}.

End rbacv1.

Module otelv1beta1.

Record OpenTelemetryCommonFields : Type := {
  Image : string;
  Replicas : option Z;
  PriorityClassName : string;
  Resources : corev1.ResourceRequirements;
  SecurityContext : option corev1.SecurityContext;
  ServiceAccount : string
}.

Record TargetAllocatorPrometheusCR : Type := {
  Enabled : bool;
  AllowNamespaces : list string;
  ServiceMonitorSelector : option metav1.LabelSelector
}.

End otelv1beta1.

Module otelv1alpha1.

Record TargetAllocatorSpec : Type := {
  OpenTelemetryCommonFields : otelv1beta1.OpenTelemetryCommonFields;
  PrometheusCR : otelv1beta1.TargetAllocatorPrometheusCR
}.

Record TargetAllocator : Type := {
  ObjectMeta : metav1.ObjectMeta;
  Spec : TargetAllocatorSpec
}.

End otelv1alpha1.

(** A map literal: the entries are set in the order they are written. *)
Definition mapLiteral (entries : list (string * string)) : gmap string string :=
  fold_left (fun m entry => <[ fst entry := snd entry ]> m) entries ∅.

Module bundle.

Definition otelCollectorName : string := actuator.baseResourceName.
Definition targetAllocatorServiceName : string :=
  actuator.baseResourceName +:+ "-targetallocator".
Definition targetAllocatorServicePort : Z := 80.
Definition targetAllocatorReplicas : Z := 1.

Section Bundle.
Context {gardener : GardenerConstants}.

(** [getLabels] returns the common set of labels for the Collector and
    Target Allocator resources. *)
Definition getLabels : gmap string string :=
  (* The `networking.resources.gardener.cloud/to-all-scrape-targets' label *)
  let toAllScrapeTargetsLabel :=
    resourcesv1alpha1_NetworkPolicyLabelKeyPrefix +:+ "to"
    +:+ v1beta1constants_LabelNetworkPolicyScrapeTargets in
  let items :=
    mapLiteral
      [ (v1beta1constants_LabelRole, v1beta1constants_LabelObservability);
        (v1beta1constants_GardenRole, v1beta1constants_GardenRoleObservability);
        (v1beta1constants_LabelObservabilityApplication, otelCollectorName);
        (v1beta1constants_LabelNetworkPolicyToDNS,
         v1beta1constants_LabelNetworkPolicyAllowed);
        (v1beta1constants_LabelNetworkPolicyToRuntimeAPIServer,
         v1beta1constants_LabelNetworkPolicyAllowed);
        (v1beta1constants_LabelNetworkPolicyToPrivateNetworks,
         v1beta1constants_LabelNetworkPolicyAllowed);
        (v1beta1constants_LabelNetworkPolicyToPublicNetworks,
         v1beta1constants_LabelNetworkPolicyAllowed);
        (gardenerutils_NetworkPolicyLabel targetAllocatorServiceName
           targetAllocatorServicePort,
         v1beta1constants_LabelNetworkPolicyAllowed);
        (toAllScrapeTargetsLabel, v1beta1constants_LabelNetworkPolicyAllowed) ] in
  items.

(** [getTargetAllocatorServiceAccount] returns the [corev1.ServiceAccount]
    for the Target Allocator. *)
Definition getTargetAllocatorServiceAccount (namespace : string)
  : corev1.ServiceAccount :=
  let obj :=
    {| corev1.ObjectMeta :=
         {| metav1.Name := actuator.targetAllocatorServiceAccountName;
            metav1.Namespace := namespace;
            metav1.Labels := getLabels |};
       corev1.AutomountServiceAccountToken := Some false |} in
  obj.

(** [getTargetAllocatorRole] returns the [rbacv1.Role] for the Target
    Allocator. *)
Definition getTargetAllocatorRole (namespace : string) : rbacv1.Role :=
  {| rbacv1.Role_ObjectMeta :=
       {| metav1.Name := actuator.targetAllocatorRoleName;
          metav1.Namespace := namespace;
          metav1.Labels := getLabels |};
     rbacv1.Rules :=
       [ {| rbacv1.APIGroups := [""];
            rbacv1.Resources :=
              ["pods"; "services"; "endpoints"; "secrets"; "namespaces"];
            rbacv1.Verbs := ["get"; "list"; "watch"] |};
         {| rbacv1.APIGroups := ["discovery.k8s.io"];
            rbacv1.Resources := ["endpointslices"];
            rbacv1.Verbs := ["get"; "list"; "watch"] |};
         {| rbacv1.APIGroups := ["monitoring.coreos.com"];
            rbacv1.Resources :=
              ["servicemonitors"; "podmonitors"; "scrapeconfigs"; "probes"];
            rbacv1.Verbs := ["get"; "list"; "watch"] |} ] |}.

(** [getTargetAllocatorRoleBinding] returns the [rbacv1.RoleBinding] for
    the Target Allocator. *)
Definition getTargetAllocatorRoleBinding (namespace : string)
  : rbacv1.RoleBinding :=
  {| rbacv1.RoleBinding_ObjectMeta :=
       {| metav1.Name := actuator.targetAllocatorRoleName;
          metav1.Namespace := namespace;
          metav1.Labels := getLabels |};
     rbacv1.RoleRef :=
       {| rbacv1.RoleRef_APIGroup := rbacv1_GroupName;
          rbacv1.RoleRef_Kind := "Role";
          rbacv1.RoleRef_Name := actuator.targetAllocatorRoleName |};
     rbacv1.Subjects :=
       [ {| rbacv1.Subject_Kind := rbacv1_ServiceAccountKind;
            rbacv1.Subject_Name := actuator.targetAllocatorServiceAccountName;
            rbacv1.Subject_Namespace := namespace |} ] |}.

(** [getTargetAllocator] returns the [otelv1alpha1.TargetAllocator]
    resource. *)
Definition getTargetAllocator (namespace : string)
  : otelv1alpha1.TargetAllocator :=
  let obj :=
    {| otelv1alpha1.ObjectMeta :=
         {| metav1.Name := actuator.targetAllocatorName;
            metav1.Namespace := namespace;
            metav1.Labels := getLabels |};
       otelv1alpha1.Spec :=
         {| otelv1alpha1.OpenTelemetryCommonFields :=
              {| otelv1beta1.Image := "otel/target-allocator:v0.140.0";
                 otelv1beta1.Replicas := Some targetAllocatorReplicas;
                 otelv1beta1.PriorityClassName :=
                   v1beta1constants_PriorityClassNameShootControlPlane100;
                 otelv1beta1.Resources :=
                   {| corev1.Requests :=
                        mapLiteral [ (corev1_ResourceCPU, "10m");
                                     (corev1_ResourceMemory, "50Mi") ] |};
                 otelv1beta1.SecurityContext :=
                   Some {| corev1.AllowPrivilegeEscalation := Some false |};
                 otelv1beta1.ServiceAccount :=
                   actuator.targetAllocatorServiceAccountName |};
            otelv1alpha1.PrometheusCR :=
              {| otelv1beta1.Enabled := true;
                 otelv1beta1.AllowNamespaces := [namespace];
                 otelv1beta1.ServiceMonitorSelector :=
                   Some {| metav1.MatchLabels :=
                             mapLiteral [ ("prometheus", "shoot") ] |} |} |} |} in
  obj.

(** The kind, name and namespace under which an object of the bundle is
    registered. *)
Definition registered (kind : actuator.ObjectKind) (meta : metav1.ObjectMeta)
  : actuator.ManagedObject :=
  {| actuator.objKind := kind;
     actuator.objName := metav1.Name meta;
     actuator.objNamespace := metav1.Namespace meta |}.

End Bundle.

End bundle.

(** *** What a caller can tell of an error

    The means Go gives the caller of a method to tell one error from
    another: the text of [Error()], [errors.Is] with the sentinel of this
    repository, [apierrors.IsNotFound], the field errors of an aggregate,
    and the same of the error it wraps, down the [Unwrap] chain.  The
    dynamic type tells nothing more between a value made by [errors.New]
    here and one made by [errors.New] in a library. *)

Record Observation : Type := {
  obsText : string;
  obsIsExtensionNotFound : bool;
  obsIsNotFound : bool;
  obsFieldErrors : option (list FieldError)
}.

Section Observations.
Context {lib : GoLibrary}.

Fixpoint observations (e : error) : list Observation :=
  {| obsText := error_Error e;
     obsIsExtensionNotFound := is_ErrExtensionNotFound e;
     obsIsNotFound := apierrors_IsNotFound e;
     obsFieldErrors :=
       match e with
       | Aggregate errs => Some errs
       | _ => None
       end |}
  :: match e with
     | fmt_Errorf_w _ wrapped => observations wrapped
     | _ => []
     end.

End Observations.

(** *** A seed that refuses the apply *)

Module outage.

(** The error of the refusal: a plain error of the seed's API machinery,
    no not-found status. *)
Definition refusal : ExternalError :=
  {| ext_message := "no provider config specified"; ext_notFound := false |}.

(** The collaborators of [scenario], but for the apply, which fails and
    leaves the seed as it is. *)
Definition collaborators : actuator.Collaborators :=
  {| actuator.World := scenario.Seed;
     actuator.GetCluster := @actuator.GetCluster scenario.collaborators;
     actuator.DeleteForSeed := @actuator.DeleteForSeed scenario.collaborators;
     actuator.CreateForSeed := fun w _ _ _ _ => (w, Some refusal);
     actuator.AddAllAndSerialize :=
       @actuator.AddAllAndSerialize scenario.collaborators |}.

Definition stateOf (seed : scenario.Seed) : @actuator.State collaborators :=
  @actuator.Build_State collaborators seed ∅ [] [].

End outage.

(** *** The actuator with its client

    [Actuator] has the fields [reader] and [client] besides the three of
    [actuator.Actuator]; [New] leaves them nil, [WithReader] and
    [WithClient] set them.  The methods hand [a.client] to
    [extensionscontroller.GetCluster] and to [managedresources], which
    call its methods: on a nil client these calls panic.  The definitions
    of [actuator] are those of an actuator that has a client; here the
    client may be nil. *)

Module wired.

(** A non-nil [client.Client] (also a [client.Reader]): the handle on the
    seed. *)
Inductive Client : Type :=
| seedClient.

Record Actuator : Type := {
  reader : option Client;
  client : option Client;
  decoder : option runtime.Decoder;
  gardenerVersion : string;
  gardenletFeatureGates : gmap string bool
}.

(** The fields the methods read besides the client. *)
Definition settings (a : Actuator) : actuator.Actuator :=
  {| actuator.decoder := decoder a;
     actuator.gardenerVersion := gardenerVersion a;
     actuator.gardenletFeatureGates := gardenletFeatureGates a |}.

(** [Option] is a function, which configures the [Actuator]. *)
Definition Option : Type := Actuator -> Actuator * option error.

(** [New] creates a new actuator with the given options. *)
Definition New (opts : list Option) : option Actuator * option error :=
  let act := {| reader := None; client := None; decoder := None;
                gardenerVersion := ""; gardenletFeatureGates := ∅ |} in
  let fix loop (act : Actuator) (opts : list Option) :=
    match opts with
    | [] => (Some act, None)
    | opt :: opts' =>
        match opt act with
        | (_, Some err) => (None, Some err)
        | (act', None) => loop act' opts'
        end
    end in
  loop act opts.

Definition WithClient (c : option Client) : Option :=
  fun a =>
    ({| reader := reader a; client := c; decoder := decoder a;
        gardenerVersion := gardenerVersion a;
        gardenletFeatureGates := gardenletFeatureGates a |}, None).

Definition WithReader (r : option Client) : Option :=
  fun a =>
    ({| reader := r; client := client a; decoder := decoder a;
        gardenerVersion := gardenerVersion a;
        gardenletFeatureGates := gardenletFeatureGates a |}, None).

Definition WithDecoder (d : option runtime.Decoder) : Option :=
  fun a =>
    ({| reader := reader a; client := client a; decoder := d;
        gardenerVersion := gardenerVersion a;
        gardenletFeatureGates := gardenletFeatureGates a |}, None).

Definition WithGardenerVersion (v : string) : Option :=
  fun a =>
    ({| reader := reader a; client := client a; decoder := decoder a;
        gardenerVersion := v;
        gardenletFeatureGates := gardenletFeatureGates a |}, None).

Definition WithGardenletFeatures (feats : gmap string bool) : Option :=
  fun a =>
    ({| reader := reader a; client := client a; decoder := decoder a;
        gardenerVersion := gardenerVersion a;
        gardenletFeatureGates := feats |}, None).

(** An option that never fails and leaves the client as it is. *)
Definition keepsClient (opt : Option) : Prop :=
  forall a, snd (opt a) = None /\ client (fst (opt a)) = client a.

Section Actuator.
Context {lib : GoLibrary} {env : actuator.Collaborators}.

Notation "x <- m ;; k" := (actuator.bind m (fun x => k))
  (at level 100, m at next level, right associativity).
Notation "m ;;; k" := (actuator.bind m (fun _ => k))
  (at level 100, right associativity).

(** The calls that are given the client: a method of a nil client is
    called, and the call panics. *)
Definition extensionscontroller_GetCluster (c : option Client)
  (namespace : string) : actuator.M (extensionscontroller.Cluster + error) :=
  match c with
  | None => actuator.panic
  | Some _ => actuator.extensionscontroller_GetCluster namespace
  end.

Definition managedresources_DeleteForSeed (c : option Client)
  (namespace name : string) : actuator.M (option error) :=
  match c with
  | None => actuator.panic
  | Some _ => actuator.managedresources_DeleteForSeed namespace name
  end.

Definition managedresources_CreateForSeed (c : option Client)
  (namespace name : string) (keepObjects : bool)
  (data : actuator.SerializedData) : actuator.M (option error) :=
  match c with
  | None => actuator.panic
  | Some _ =>
      actuator.managedresources_CreateForSeed namespace name keepObjects data
  end.

(** [Delete] deletes any resources managed by the [Actuator]. *)
Definition Delete (a : Actuator) (ex : extensionsv1alpha1.Extension)
  : actuator.M (option error) :=
  (* Increment our example metrics counter *)
  actuator.defer (actuator.Inc (extensionsv1alpha1.Namespace ex) "delete") (
    actuator.logger_Info "deleting resources managed by extension" [] ;;;
    err <- managedresources_DeleteForSeed (client a)
             (extensionsv1alpha1.Namespace ex) actuator.managedResourceName ;;
    actuator.ret (client_IgnoreNotFound err)).

(** [Reconcile] reconciles the extension resource by taking care of any
    resources managed by the [Actuator]. *)
Definition Reconcile (a : Actuator) (ex : extensionsv1alpha1.Extension)
  : actuator.M (option error) :=
  let '(otelcolFeature, ok) :=
    match gardenletFeatureGates a !! actuator.OpenTelemetryCollector with
    | Some v => (v, true)
    | None => (false, false)
    end in
  if negb ok || negb otelcolFeature then
    actuator.logger_Info
      "gardenlet feature gate OpenTelemetryCollector is either missing or disabled"
      [] ;;;
    Delete a ex
  else
    (* The cluster name is the same as the name of the namespace for our
       Extension resource. *)
    let clusterName := extensionsv1alpha1.Namespace ex in
    (* Increment our example metrics counter *)
    actuator.defer (actuator.Inc clusterName "reconcile") (
      actuator.logger_Info "reconciling extension"
        [("name", extensionsv1alpha1.Name ex); ("cluster", clusterName)] ;;;
      r <- extensionscontroller_GetCluster (client a) clusterName ;;
      match r with
      | inr err =>
          actuator.ret
            (Some (fmt_Errorf_w
                     ("failed to get cluster: " +:+ error_Error err) err))
      | inl cluster =>
          (* Nothing to do here, if the shoot cluster is hibernated at the
             moment. *)
          hibernated <- actuator.lift
                          (v1beta1helper.HibernationIsEnabled
                             (extensionscontroller.Shoot cluster)) ;;
          if hibernated : bool then actuator.ret None
          else
            (* Parse and validate the provider config *)
            match extensionsv1alpha1.ProviderConfig ex with
            | None =>
                actuator.ret (Some (errors_New "no provider config specified"))
            | Some providerConfig =>
                d <- actuator.lift
                       (runtime.DecodeInto (decoder a)
                          (runtime.Raw providerConfig)) ;;
                match d with
                | inr err =>
                    actuator.ret
                      (Some (fmt_Errorf_w
                               ("invalid provider spec configuration: "
                                +:+ error_Error err) err))
                | inl cfg =>
                    match validation.Validate cfg with
                    | Some err => actuator.ret (Some err)
                    | None =>
                        (* Bundle things up in a managed resource *)
                        let namespace := extensionsv1alpha1.Namespace ex in
                        match actuator.AddAllAndSerialize
                                [ actuator.getTargetAllocatorServiceAccount namespace;
                                  actuator.getTargetAllocatorRole namespace;
                                  actuator.getTargetAllocatorRoleBinding namespace;
                                  actuator.getTargetAllocator namespace ] with
                        | inr e => actuator.ret (Some (External e))
                        | inl data =>
                            err <- managedresources_CreateForSeed (client a)
                                     namespace actuator.managedResourceName
                                     false data ;;
                            match err with
                            | Some err => actuator.ret (Some err)
                            | None => actuator.ret None
                            end
                        end
                    end
                end
            end
      end).

(** [ForceDelete] signals the [Actuator] to delete any resources managed
    by it, because of a force-delete event of the shoot cluster. *)
Definition ForceDelete (a : Actuator) (ex : extensionsv1alpha1.Extension)
  : actuator.M (option error) :=
  (* Increment our example metrics counter *)
  actuator.defer
    (actuator.Inc (extensionsv1alpha1.Namespace ex) "force_delete") (
    actuator.logger_Info
      "shoot has been force-deleted, deleting resources managed by extension"
      [] ;;;
    Delete a ex).

(** [Restore] restores the resources managed by the extension
    [Actuator]. *)
Definition Restore (a : Actuator) (ex : extensionsv1alpha1.Extension)
  : actuator.M (option error) :=
  (* Increment our example metrics counter *)
  actuator.defer (actuator.Inc (extensionsv1alpha1.Namespace ex) "restore")
    (Reconcile a ex).

(** [Migrate] signals the [Actuator] to reconcile the resources managed
    by it, because of a shoot control-plane migration event. *)
Definition Migrate (a : Actuator) (ex : extensionsv1alpha1.Extension)
  : actuator.M (option error) :=
  (* Increment our example metrics counter *)
  actuator.defer (actuator.Inc (extensionsv1alpha1.Namespace ex) "migrate")
    (Reconcile a ex).

(** The five methods of the [extension.Actuator] interface. *)
Definition call (op : extension.Operation) (a : Actuator)
  (ex : extensionsv1alpha1.Extension) : actuator.M (option error) :=
  match op with
  | extension.Reconcile => Reconcile a ex
  | extension.Delete => Delete a ex
  | extension.ForceDelete => ForceDelete a ex
  | extension.Restore => Restore a ex
  | extension.Migrate => Migrate a ex
  end.

End Actuator.

End wired.

(** ** Part II.  Properties *)

(** *** Strings and URLs *)

Lemma string_eqb_empty (s : string) : String.eqb s "" = true <-> s = "".
Proof. apply String.eqb_eq. Qed.

Lemma string_eqb_nonempty (s : string) : String.eqb s "" = false <-> s <> "".
Proof. apply String.eqb_neq. Qed.

Section UrlFacts.
Context {lib : GoLibrary}.

(** A text with blanks and no scheme, query or escape parses: it is a
    relative path. *)
Lemma Parse_not_a_url : url.Parse "not a url" = None.
Proof. reflexivity. Qed.

(** A percent sign that no two hex digits follow does not parse. *)
Lemma Parse_bad_escape : url.Parse "%zz" = Some (url.EscapeError "%zz").
Proof. reflexivity. Qed.

(** A text that starts with a colon has no scheme. *)
Lemma Parse_missing_scheme : url.Parse ":4318" = Some url.MissingProtocolScheme.
Proof. reflexivity. Qed.

(** A control character is refused before anything else. *)
Lemma Parse_control_character (s : string) :
  url.stringContainsCTLByte s = true ->
  url.parse s = Some url.InvalidControlCharacter.
Proof. intros Hctl. unfold url.parse. now rewrite Hctl. Qed.

End UrlFacts.

(** *** The list of field errors *)

Section ValidateFacts.
Context {lib : GoLibrary}.
Import config validation rules.

Lemma fold_left_grow {A B : Type} (step : list B -> A -> list B) :
  (forall acc x, step acc x = (acc ++ step [] x)%list) ->
  forall l acc, fold_left step l acc = (acc ++ flat_map (step []) l)%list.
Proof.
  intros Hstep l. induction l as [|x l IH]; intros acc; simpl.
  - now rewrite app_nil_r.
  - rewrite IH, Hstep. now rewrite <- app_assoc.
Qed.

Lemma urlFields_step_grow acc f :
  urlFields_step acc f = (acc ++ urlFields_step [] f)%list.
Proof.
  destruct f as [path value]; unfold urlFields_step, append.
  destruct (negb (String.eqb value "")); [destruct (url.Parse value)|];
    simpl; now rewrite ?app_nil_r.
Qed.

Lemma nonNegativeFields_step_grow acc f :
  nonNegativeFields_step acc f = (acc ++ nonNegativeFields_step [] f)%list.
Proof.
  destruct f as [path value]; unfold nonNegativeFields_step, append.
  destruct (value <? 0); simpl; now rewrite ?app_nil_r.
Qed.

Lemma resourceRefs_step_grow acc f :
  resourceRefs_step acc f = (acc ++ resourceRefs_step [] f)%list.
Proof.
  destruct f as [path [ref|]]; unfold resourceRefs_step, append.
  - destruct (_ || _); simpl; now rewrite ?app_nil_r.
  - now rewrite app_nil_r.
Qed.

(** [allErrs] is the concatenation of what each rule family adds. *)
Lemma allErrs_families cfg :
  allErrs cfg =
  ((if negb (cmp_Or
               [ DebugExporterConfig_IsEnabled (DebugExporter (Exporters (Spec cfg)));
                 OTLPHTTPExporterConfig_IsEnabled
                   (OTLPHTTPExporter (Exporters (Spec cfg))) ])
    then [field_Required "spec.exporters" "no exporter enabled"] else [])
   ++ flat_map (urlFields_step []) (urlFields cfg)
   ++ flat_map (nonNegativeFields_step []) (nonNegativeFields cfg)
   ++ flat_map (resourceRefs_step []) (resourceRefs cfg))%list.
Proof.
  unfold allErrs.
  rewrite (fold_left_grow _ resourceRefs_step_grow).
  rewrite (fold_left_grow _ nonNegativeFields_step_grow).
  rewrite (fold_left_grow _ urlFields_step_grow).
  rewrite <- !app_assoc. reflexivity.
Qed.

Lemma no_exporter_enabled_iff cfg :
  negb (cmp_Or
          [ DebugExporterConfig_IsEnabled (DebugExporter (Exporters (Spec cfg)));
            OTLPHTTPExporterConfig_IsEnabled
              (OTLPHTTPExporter (Exporters (Spec cfg))) ]) = true
  <-> DebugEnabled (DebugExporter (Exporters (Spec cfg))) <> Some true
      /\ Enabled (OTLPHTTPExporter (Exporters (Spec cfg))) <> Some true.
Proof.
  unfold DebugExporterConfig_IsEnabled, OTLPHTTPExporterConfig_IsEnabled.
  destruct (DebugEnabled _) as [[|]|], (Enabled _) as [[|]|]; simpl;
    split; intros H0; try discriminate; try (split; congruence);
    destruct H0 as [H1 H2]; congruence.
Qed.

Lemma in_urlFields_step e path value :
  In e (urlFields_step [] (path, value)) <->
  value <> "" /\ url.Parse value <> None
  /\ e = field_Invalid path (StringValue value) "invalid URL specified".
Proof.
  unfold urlFields_step, append.
  destruct (String.eqb value "") eqn:Hv; simpl.
  - apply string_eqb_empty in Hv. split; [tauto | intros [Hne _]; congruence].
  - apply string_eqb_nonempty in Hv.
    destruct (url.Parse value) as [err|]; simpl.
    + split.
      * intros [<- | []]. repeat split; congruence.
      * intros (_ & _ & ->). now left.
    + split; [tauto | intros (_ & Hp & _); congruence].
Qed.

Lemma in_nonNegativeFields_step e path value :
  In e (nonNegativeFields_step [] (path, value)) <->
  value < 0
  /\ e = field_Invalid path (IntValue value) "value cannot be negative".
Proof.
  unfold nonNegativeFields_step, append.
  destruct (Z.ltb_spec value 0); simpl.
  - split; [intros [<- | []]; now split | intros [_ ->]; now left].
  - split; [tauto | intros [Hlt _]; lia].
Qed.

Lemma in_resourceRefs_step e path ref :
  In e (resourceRefs_step [] (path, ref)) <->
  exists r, ref = Some r
    /\ (Name (ResourceRef r) = "" \/ DataKey (ResourceRef r) = "")
    /\ e = field_Invalid path (StringValue path) "name or dataKey is empty".
Proof.
  unfold resourceRefs_step, append. destruct ref as [r|]; simpl.
  - assert (Hiff :
      String.eqb (Name (ResourceRef r)) ""
      || String.eqb (DataKey (ResourceRef r)) "" = true
      <-> Name (ResourceRef r) = "" \/ DataKey (ResourceRef r) = "").
    { rewrite orb_true_iff, !string_eqb_empty. tauto. }
    destruct (_ || _); simpl.
    + split.
      * intros [<- | []]. exists r. repeat split. now apply Hiff.
      * intros (r' & _ & _ & ->). now left.
    + split; [tauto|].
      intros (r' & [= <-] & Hempty & _). apply Hiff in Hempty. discriminate.
  - split; [tauto | intros (r & Hr & _); discriminate].
Qed.

(** The field errors [Validate] collects are the violations of the
    rules. *)
Lemma in_allErrs_iff cfg e : In e (allErrs cfg) <-> violation cfg e.
Proof.
  rewrite allErrs_families, !in_app_iff, !in_flat_map. split.
  - intros [Hreq | [Hurl | [Hneg | Href]]].
    + destruct (negb _) eqn:Hnone; [|destruct Hreq].
      destruct Hreq as [<- | []].
      apply no_exporter_enabled_iff in Hnone as [Hd Ho].
      now constructor.
    + destruct Hurl as ([path value] & Hin & He).
      apply in_urlFields_step in He as (Hne & Hparse & ->).
      now constructor.
    + destruct Hneg as ([path value] & Hin & He).
      apply in_nonNegativeFields_step in He as (Hlt & ->).
      now constructor.
    + destruct Href as ([path ref] & Hin & He).
      apply in_resourceRefs_step in He as (r & -> & Hempty & ->).
      now apply resource_reference_complete with (ref := r).
  - intros Hv. destruct Hv as [Hd Ho | path value Hin Hne Hparse
                               | path value Hin Hlt | path ref Hin Hempty].
    + left. assert (Hnone := conj Hd Ho).
      apply no_exporter_enabled_iff in Hnone. rewrite Hnone. now left.
    + right; left. exists (path, value). split; [assumption|].
      now apply in_urlFields_step.
    + right; right; left. exists (path, value). split; [assumption|].
      now apply in_nonNegativeFields_step.
    + right; right; right. exists (path, Some ref). split; [assumption|].
      apply in_resourceRefs_step. now exists ref.
Qed.

(** Each step adds at most one error, on the path of its table entry. *)
Lemma Field_flat_map_sublist {A : Type}
  (step : list FieldError -> string * A -> list FieldError)
  (table : list (string * A)) :
  (forall f, Field <$> step [] f `sublist_of` [fst f]) ->
  Field <$> flat_map (step []) table `sublist_of` fst <$> table.
Proof.
  intros Hstep. induction table as [|f table IH]; simpl.
  - constructor.
  - rewrite fmap_app.
    exact (sublist_app _ [fst f] _ (fst <$> table) (Hstep f) IH).
Qed.

Lemma Field_urlFields_step f :
  Field <$> urlFields_step [] f `sublist_of` [fst f].
Proof.
  destruct f as [path value]; unfold urlFields_step, append; simpl.
  destruct (negb _); [destruct (url.Parse value)|]; simpl;
    auto using sublist_nil_l.
Qed.

Lemma Field_nonNegativeFields_step f :
  Field <$> nonNegativeFields_step [] f `sublist_of` [fst f].
Proof.
  destruct f as [path value]; unfold nonNegativeFields_step, append; simpl.
  destruct (value <? 0); simpl; auto using sublist_nil_l.
Qed.

Lemma Field_resourceRefs_step f :
  Field <$> resourceRefs_step [] f `sublist_of` [fst f].
Proof.
  destruct f as [path [ref|]]; unfold resourceRefs_step, append; simpl.
  - destruct (_ || _); simpl; auto using sublist_nil_l.
  - apply sublist_nil_l.
Qed.

(** The paths of the collected errors follow the order of [fieldPaths],
    each at most once. *)
Lemma Field_allErrs_sublist cfg :
  Field <$> allErrs cfg `sublist_of` fieldPaths cfg.
Proof.
  rewrite allErrs_families, !fmap_app. unfold fieldPaths.
  apply (sublist_app _ ["spec.exporters"]);
    [|apply sublist_app; [|apply sublist_app]].
  - destruct (negb _); simpl; auto using sublist_nil_l.
  - apply Field_flat_map_sublist, Field_urlFields_step.
  - apply Field_flat_map_sublist, Field_nonNegativeFields_step.
  - apply Field_flat_map_sublist, Field_resourceRefs_step.
Qed.

Lemma NoDup_fieldPaths cfg : NoDup (fieldPaths cfg).
Proof.
  unfold fieldPaths; simpl.
  repeat (apply NoDup_cons; split; [rewrite list_elem_of_In; simpl; intuition discriminate|]).
  apply NoDup_nil_2.
Qed.

Lemma NoDup_Field_allErrs cfg : NoDup (Field <$> allErrs cfg).
Proof.
  eapply sublist_NoDup; [apply NoDup_fieldPaths | apply Field_allErrs_sublist].
Qed.

(** Two errors on paths of [Validate] with the same text are on the same
    path: no path continues another one with a colon and a blank. *)
Lemma field_Error_same_path cfg e1 e2 :
  In (Field e1) (fieldPaths cfg) -> In (Field e2) (fieldPaths cfg) ->
  field_Error e1 = field_Error e2 -> Field e1 = Field e2.
Proof.
  unfold field_Error.
  generalize (field_ErrorBody e1) (field_ErrorBody e2) (Field e1) (Field e2).
  intros b1 b2 p1 p2 H1 H2. unfold fieldPaths in H1, H2; simpl in H1, H2.
  repeat (destruct H1 as [<- | H1]; [|try contradiction]);
    repeat (destruct H2 as [<- | H2]; [|try contradiction]);
    intros Heq; try reflexivity; simpl in Heq; discriminate Heq.
Qed.

(** [ToAggregate] drops nothing of a list whose errors are on distinct
    paths of [Validate]. *)
Lemma dedupe_distinct_paths cfg (l : list FieldError) :
  forall seen : gset string,
  NoDup (Field <$> l) ->
  (forall e, In e l -> In (Field e) (fieldPaths cfg)) ->
  (forall e, In e l -> field_Error e ∉ seen) ->
  dedupe seen l = l.
Proof.
  induction l as [|e l IH]; intros seen Hnodup Hpaths Hseen; simpl.
  - reflexivity.
  - case_bool_decide as Hmem.
    + exfalso. apply (Hseen e); [now left | assumption].
    + f_equal. apply NoDup_cons in Hnodup as [Hfresh Hnodup].
      apply IH; [assumption | intros e' He'; apply Hpaths; now right |].
      intros e' He' [Hsame%elem_of_singleton | Hold]%elem_of_union.
      * apply Hfresh. apply list_elem_of_fmap. exists e'. split.
        -- symmetry. apply (field_Error_same_path cfg);
             [apply Hpaths; now right | apply Hpaths; now left | assumption].
        -- now apply list_elem_of_In.
      * apply (Hseen e'); [now right | assumption].
Qed.

Lemma dedupe_allErrs cfg : dedupe ∅ (allErrs cfg) = allErrs cfg.
Proof.
  apply (dedupe_distinct_paths cfg).
  - apply NoDup_Field_allErrs.
  - intros e He. apply list_elem_of_In.
    eapply elem_of_sublist; [|apply Field_allErrs_sublist].
    apply list_elem_of_fmap. exists e. split; [reflexivity|].
    now apply list_elem_of_In.
  - intros e _. apply not_elem_of_empty.
Qed.

(** [Validate] returns nil when nothing was collected, and otherwise the
    aggregate of all that was collected. *)
Lemma Validate_allErrs cfg :
  Validate cfg =
  match allErrs cfg with
  | [] => None
  | errs => Some (Aggregate errs)
  end.
Proof.
  unfold Validate, ToAggregate. rewrite dedupe_allErrs.
  now destruct (allErrs cfg).
Qed.

Lemma reported_Validate cfg e :
  reported (Validate cfg) e <-> In e (allErrs cfg).
Proof.
  rewrite Validate_allErrs. destruct (allErrs cfg); simpl; tauto.
Qed.

End ValidateFacts.

(** *** The validator of the configuration *)

Section ValidateClaims.
Context {lib : GoLibrary}.
Import config validation rules.

(** A path of the URL table is a path of no other table, and names one
    entry of its own. *)
Lemma urlFields_path_unique cfg path value value' :
  In (path, value) (urlFields cfg) -> In (path, value') (urlFields cfg) ->
  value' = value.
Proof.
  unfold urlFields; simpl. intros Hin Hin'.
  repeat (destruct Hin as [Hin | Hin]); try contradiction;
    repeat (destruct Hin' as [Hin' | Hin']); try contradiction;
    congruence.
Qed.

Lemma urlFields_path_not_other cfg path value :
  In (path, value) (urlFields cfg) ->
  path <> "spec.exporters"
  /\ (forall n, ~ In (path, n) (nonNegativeFields cfg))
  /\ (forall r, ~ In (path, r) (resourceRefs cfg)).
Proof.
  unfold urlFields, nonNegativeFields, resourceRefs; simpl. intros Hin.
  repeat (destruct Hin as [Hin | Hin]); try contradiction;
    injection Hin as <- <-;
    (split; [discriminate | split; intros x Hx; intuition discriminate]).
Qed.

(** [Validate] returns nil exactly when no rule is violated. *)
Lemma Validate_None_iff cfg :
  Validate cfg = None <-> forall e, ~ violation cfg e.
Proof.
  rewrite Validate_allErrs. split.
  - intros Hnone e He%in_allErrs_iff.
    destruct (allErrs cfg); [destruct He | discriminate].
  - intros Hno. destruct (allErrs cfg) as [|e errs] eqn:Herrs; [reflexivity|].
    destruct (Hno e). apply in_allErrs_iff. rewrite Herrs. now left.
Qed.

(** C1.  The rule on the endpoints as [Validate] applies it, and the
    scenario of the specification on which it differs from the claim.
    For each of the five endpoint fields of the OTLP HTTP exporter (the
    base, traces, metrics, logs and profiles endpoint, each read from
    its own field of the configuration), [Validate] reports an error on
    the field's path exactly when the field is non-empty and
    [url.Parse] fails on it, and that error is the one with detail
    "invalid URL specified"; an empty field is not reported.  With one
    exporter enabled and the endpoint "not a url", where the claim has a
    violation on the endpoint, [url.Parse] succeeds (the text is a
    relative path) and [Validate] reports nothing; the endpoint "%zz",
    which [url.Parse] refuses, is reported alone. *)
Theorem Validate_url_fields (cfg : CollectorConfig) (path value : string) :
  In (path, value)
    [ ("spec.exporters.otlphttp.endpoint",
       Endpoint (OTLPHTTPExporter (Exporters (Spec cfg))));
      ("spec.exporters.otlphttp.traces_endpoint",
       TracesEndpoint (OTLPHTTPExporter (Exporters (Spec cfg))));
      ("spec.exporters.otlphttp.metrics_endpoint",
       MetricsEndpoint (OTLPHTTPExporter (Exporters (Spec cfg))));
      ("spec.exporters.otlphttp.logs_endpoint",
       LogsEndpoint (OTLPHTTPExporter (Exporters (Spec cfg))));
      ("spec.exporters.otlphttp.profiles_endpoint",
       ProfilesEndpoint (OTLPHTTPExporter (Exporters (Spec cfg)))) ] ->
  (forall e,
     reported (Validate cfg) e /\ Field e = path <->
     value <> "" /\ url.Parse value <> None
     /\ e = field_Invalid path (StringValue value) "invalid URL specified")
  /\ Validate (scenario.otlphttpOnly "not a url" 0) = None
  /\ Validate (scenario.otlphttpOnly "%zz" 0)
     = Some (Aggregate
               [field_Invalid "spec.exporters.otlphttp.endpoint"
                  (StringValue "%zz") "invalid URL specified"]).
Proof.
  intros Hin. change (In (path, value) (endpoints cfg)) in Hin.
  split; [|split].
  - intros e. rewrite reported_Validate, in_allErrs_iff. split.
    + intros [Hv Hpath].
      destruct (urlFields_path_not_other _ _ _ Hin) as (Hreq & Hneg & Href).
      destruct Hv as [Hd Ho | path' value' Hin' Hne Hparse
                      | path' value' Hin' Hlt | path' ref Hin' Hempty];
        simpl in Hpath.
      * congruence.
      * subst path'.
        rewrite (urlFields_path_unique _ _ _ _ Hin Hin') in *. now repeat split.
      * subst path'. now destruct (Hneg value').
      * subst path'. now destruct (Href (Some ref)).
    + intros (Hne & Hparse & ->). split; [now constructor | reflexivity].
  - rewrite Validate_allErrs. reflexivity.
  - rewrite Validate_allErrs. reflexivity.
Qed.

(** C3.  When no exporter's enabled flag is true, [Validate] returns a
    non-empty aggregate that holds the violation "no exporter enabled" on
    [spec.exporters], whatever the other fields are; for an empty
    exporters block that violation is the whole result. *)
Theorem Validate_no_exporter_enabled (cfg : CollectorConfig) :
  DebugEnabled (DebugExporter (Exporters (Spec cfg))) <> Some true ->
  Enabled (OTLPHTTPExporter (Exporters (Spec cfg))) <> Some true ->
  (exists errs,
     Validate cfg = Some (Aggregate errs) /\ errs <> []
     /\ In (field_Required "spec.exporters" "no exporter enabled") errs)
  /\ (Exporters (Spec cfg) = config.CollectorExportersConfig_zero ->
      Validate cfg
      = Some (Aggregate [field_Required "spec.exporters" "no exporter enabled"])).
Proof.
  intros Hd Ho. split.
  - assert (Hin : In (field_Required "spec.exporters" "no exporter enabled")
                    (allErrs cfg))
      by (apply in_allErrs_iff; now constructor).
    rewrite Validate_allErrs. destruct (allErrs cfg) as [|e errs].
    + destruct Hin.
    + exists (e :: errs). repeat split; [discriminate | assumption].
  - intros Hnone. rewrite Validate_allErrs.
    unfold allErrs, urlFields, nonNegativeFields, resourceRefs.
    rewrite Hnone. reflexivity.
Qed.


(** Two defects are reported together. *)
Corollary Validate_two_defects (cfg : CollectorConfig) (e1 e2 : FieldError) :
  violation cfg e1 -> violation cfg e2 ->
  exists errs, Validate cfg = Some (Aggregate errs) /\ In e1 errs /\ In e2 errs.
Proof.
  intros H1 H2. apply in_allErrs_iff in H1, H2.
  apply reported_Validate in H1, H2.
  destruct (Validate cfg) as [[| | |errs|]|]; simpl in *; try contradiction.
  now exists errs.
Qed.

End ValidateClaims.

(** The empty exporters block of the specification's scenario: one
    violation, "no exporter enabled". *)
Lemma Validate_no_exporter_enabled_witness :
  config.DebugEnabled
    (config.DebugExporter
       (config.Exporters (config.Spec (scenario.configOf config.CollectorExportersConfig_zero))))
  <> Some true
  /\ validation.Validate (lib := scenario.library)
       (scenario.configOf config.CollectorExportersConfig_zero)
     = Some (Aggregate [field_Required "spec.exporters" "no exporter enabled"]).
Proof.
  split; [discriminate|].
  apply (@Validate_no_exporter_enabled scenario.library
           (scenario.configOf config.CollectorExportersConfig_zero));
    [discriminate | discriminate | reflexivity].
Defined.

(** The base endpoint is the first of the five URL fields. *)
Lemma Validate_url_fields_witness :
  validation.Validate (lib := scenario.library) (scenario.otlphttpOnly ":4318" 0)
  = Some (Aggregate
            [field_Invalid "spec.exporters.otlphttp.endpoint"
               (StringValue ":4318") "invalid URL specified"])
  /\ rules.reported
       (validation.Validate (lib := scenario.library)
          (scenario.otlphttpOnly ":4318" 0))
       (field_Invalid "spec.exporters.otlphttp.endpoint"
          (StringValue ":4318") "invalid URL specified").
Proof.
  split; [reflexivity|].
  apply (@Validate_url_fields scenario.library
           (scenario.otlphttpOnly ":4318" 0)
           "spec.exporters.otlphttp.endpoint" ":4318");
    [now left | repeat split; discriminate].
Defined.

(** The scenario of the specification, run: with the OTLP HTTP exporter
    enabled and the endpoint "not a url", [Validate] reports nothing. *)
Lemma Validate_not_a_url_accepted :
  validation.Validate (lib := scenario.library)
    (scenario.otlphttpOnly "not a url" 0)
  = None.
Proof. vm_compute. reflexivity. Qed.

(** A malformed URL and a negative buffer size: both are reported. *)
Example Validate_bad_url_and_negative_buffer :
  validation.Validate (lib := scenario.library) (scenario.otlphttpOnly "%zz" (-1))
  = Some (Aggregate
            [ field_Invalid "spec.exporters.otlphttp.endpoint"
                (StringValue "%zz") "invalid URL specified";
              field_Invalid "spec.exporters.otlphttp.read_buffer_size"
                (IntValue (-1)) "value cannot be negative" ]).
Proof. vm_compute. reflexivity. Qed.

(** *** The admission webhook *)

(** [slices.IndexFunc] followed by indexing is [find]. *)
Lemma index_IndexFunc {A : Type} (f : A -> bool) (s : list A) :
  match find f s with
  | Some x => slices_IndexFunc s f <> -1 /\ index s (slices_IndexFunc s f) = Returns x
  | None => slices_IndexFunc s f = -1
  end.
Proof.
  induction s as [|x s IH]; simpl; [reflexivity|].
  destruct (f x); [split; [discriminate | reflexivity]|].
  destruct (find f s) as [y|].
  - destruct IH as [Hfound Hindex].
    destruct (Z.eqb_spec (slices_IndexFunc s f) (-1)) as [|_]; [contradiction|].
    unfold index in *.
    destruct (Z.ltb_spec (slices_IndexFunc s f) 0) as [|Hpos]; [discriminate|].
    split; [lia|].
    destruct (Z.ltb_spec (slices_IndexFunc s f + 1) 0); [lia|].
    replace (Z.to_nat (slices_IndexFunc s f + 1))
      with (S (Z.to_nat (slices_IndexFunc s f))) by lia.
    exact Hindex.
  - now rewrite IH.
Qed.

Lemma find_none_iff {A : Type} (f : A -> bool) (s : list A) :
  find f s = None <-> forall x, In x s -> f x = false.
Proof.
  split; [apply find_none|].
  induction s as [|x s IH]; simpl; [reflexivity|]. intros Hall.
  rewrite (Hall x) by now left. apply IH. intros y Hy. apply Hall. now right.
Qed.

(** [errors.Is(err, ErrExtensionNotFound)] holds of the errors that are
    or wrap the sentinel. *)
Lemma is_ErrExtensionNotFound_iff e :
  is_ErrExtensionNotFound e = true <-> rules.wraps_ErrExtensionNotFound e.
Proof.
  split.
  - induction e as [|msg|msg e IH|errs|x]; simpl; try discriminate.
    + constructor.
    + intros He. constructor. now apply IH.
  - induction 1 as [|msg e _ IH]; simpl; [reflexivity | exact IH].
Qed.

Section ValidatorFacts.
Context {lib : GoLibrary}.
Import rules.

(** [getExtension] returns the extension block of the shoot, or the
    wrapped sentinel when there is none; it does not panic. *)
Lemma getExtension_extensionBlock v shoot :
  validator.getExtension v (Some shoot) =
  match extensionBlock v shoot with
  | Some ext => Returns (ext, None)
  | None =>
      Returns (core.Extension_zero,
               Some (fmt_Errorf_w
                       ("extension not found: " +:+ validator.extensionType v)
                       ErrExtensionNotFound))
  end.
Proof.
  unfold validator.getExtension, extensionBlock.
  pose proof (index_IndexFunc
    (fun ext => String.eqb (core.Type_ ext) (validator.extensionType v))
    (core.Extensions (core.Spec shoot))) as Hidx.
  destruct (find _ _) as [ext|].
  - destruct Hidx as [Hfound Hindex].
    destruct (Z.eqb_spec (slices_IndexFunc (core.Extensions (core.Spec shoot))
      (fun ext => String.eqb (core.Type_ ext) (validator.extensionType v))) (-1));
      [contradiction|].
    now rewrite Hindex.
  - now rewrite Hidx.
Qed.

(** What [validateExtension] does with the extension block. *)
Lemma validateExtension_block v shoot oldShoot ext :
  extensionBlock v shoot = Some ext ->
  validator.validateExtension v (Some shoot) oldShoot =
  if match core.Disabled ext with Some disabled => disabled | None => false end
  then Returns None
  else
    match core.ProviderConfig ext with
    | None =>
        Returns (Some (errors_New ("no provider config specified for "
                                   +:+ validator.extensionType v)))
    | Some providerConfig =>
        match runtime.DecodeInto (validator.decoder v)
                (runtime.Raw providerConfig) with
        | Panics => Panics
        | Returns (inr err) =>
            Returns (Some (fmt_Errorf_w
                             ("invalid provider spec configuration for "
                              +:+ validator.extensionType v +:+ ": "
                              +:+ error_Error err) err))
        | Returns (inl cfg) =>
            match validation.Validate cfg with
            | Some err =>
                Returns (Some (fmt_Errorf_w
                                 ("invalid extension configuration for "
                                  +:+ validator.extensionType v +:+ ": "
                                  +:+ error_Error err) err))
            | None => Returns None
            end
        end
    end.
Proof.
  intros Hblock. unfold validator.validateExtension.
  now rewrite getExtension_extensionBlock, Hblock.
Qed.

Lemma validateExtension_no_block v shoot oldShoot :
  extensionBlock v shoot = None ->
  validator.validateExtension v (Some shoot) oldShoot = Returns None.
Proof.
  intros Hblock. unfold validator.validateExtension.
  now rewrite getExtension_extensionBlock, Hblock.
Qed.

(** C8.  A shoot that is not under deletion and whose extension block is
    marked disabled is accepted, whatever the payload of the block and
    whatever the decoder of the validator (a nil decoder, which panics
    when called, included): the payload is neither decoded nor
    validated. *)
Theorem Validate_disabled_extension (v : validator.shootValidator)
  (shoot : core.Shoot) (ext : core.Extension) (oldObj : client_Object) :
  core.DeletionTimestamp shoot = None ->
  extensionBlock v shoot = Some ext ->
  core.Disabled ext = Some true ->
  validator.Validate v (ShootObject (Some shoot)) oldObj = Returns None.
Proof.
  intros Hlive Hblock Hdisabled. unfold validator.Validate. rewrite Hlive.
  rewrite (validateExtension_block _ _ _ _ Hblock), Hdisabled.
  reflexivity.
Qed.

(** C9.  A shoot with no extension block of the validator's type is
    accepted: the lookup yields an error that wraps
    [ErrExtensionNotFound], which [IgnoreExtensionNotFound] maps to nil;
    [IgnoreExtensionNotFound] maps the errors that are or wrap the
    sentinel to nil and returns every other error (nil too) as it is. *)
Theorem Validate_missing_extension (v : validator.shootValidator)
  (shoot : core.Shoot) (oldObj : client_Object) :
  (forall ext, In ext (core.Extensions (core.Spec shoot)) ->
               core.Type_ ext <> validator.extensionType v) ->
  (exists err,
     validator.getExtension v (Some shoot)
     = Returns (core.Extension_zero, Some err)
     /\ errors_Unwrap err = Some ErrExtensionNotFound
     /\ errors_Is_ErrExtensionNotFound (Some err) = true
     /\ validator.IgnoreExtensionNotFound (Some err) = None)
  /\ validator.Validate v (ShootObject (Some shoot)) oldObj = Returns None
  /\ (forall e, wraps_ErrExtensionNotFound e ->
                validator.IgnoreExtensionNotFound (Some e) = None)
  /\ (forall e, ~ wraps_ErrExtensionNotFound e ->
                validator.IgnoreExtensionNotFound (Some e) = Some e)
  /\ validator.IgnoreExtensionNotFound None = None.
Proof.
  intros Hnone.
  assert (Hblock : extensionBlock v shoot = None).
  { apply find_none_iff. intros ext Hin. apply String.eqb_neq. now apply Hnone. }
  repeat apply conj.
  - eexists. rewrite getExtension_extensionBlock, Hblock.
    repeat split; reflexivity.
  - unfold validator.Validate.
    destruct (core.DeletionTimestamp shoot); [reflexivity|].
    now apply validateExtension_no_block.
  - intros e He%is_ErrExtensionNotFound_iff.
    unfold validator.IgnoreExtensionNotFound; simpl. now rewrite He.
  - intros e He. unfold validator.IgnoreExtensionNotFound; simpl.
    destruct (is_ErrExtensionNotFound e) eqn:Hwraps; [|reflexivity].
    now apply is_ErrExtensionNotFound_iff in Hwraps.
  - reflexivity.
Qed.

(** C10.  The verdict of [Validate] does not depend on the old object:
    nil, a shoot, a nil shoot pointer or an object of another type give
    the same result, for every new object. *)
Theorem Validate_ignores_old (v : validator.shootValidator)
  (newObj oldObj1 oldObj2 : client_Object) :
  validator.Validate v newObj oldObj1 = validator.Validate v newObj oldObj2.
Proof.
  destruct newObj as [|newShoot|typeName].
  - (* not a shoot: the error names the type of the new object *)
    reflexivity.
  - (* the old shoot is only handed to validateExtension, which drops it *)
    unfold validator.Validate. destruct newShoot as [shoot|]; [|reflexivity].
    destruct (core.DeletionTimestamp shoot); [reflexivity|].
    unfold validator.validateExtension. reflexivity.
  - reflexivity.
Qed.

(** The errors [IgnoreExtensionNotFound] lets through keep their
    identity; an error with the text of the sentinel that is another
    value is not ignored. *)
Lemma IgnoreExtensionNotFound_other_value :
  validator.IgnoreExtensionNotFound (Some (errors_New "extension not found"))
  = Some (errors_New "extension not found").
Proof. reflexivity. Qed.

(** A shoot under deletion is accepted, whatever it holds. *)
Lemma Validate_under_deletion v shoot oldObj t :
  core.DeletionTimestamp shoot = Some t ->
  validator.Validate v (ShootObject (Some shoot)) oldObj = Returns None.
Proof. intros Hdel. unfold validator.Validate. now rewrite Hdel. Qed.

End ValidatorFacts.

(** *** The actuator *)

Section ActuatorFacts.
Context {lib : GoLibrary} {env : actuator.Collaborators}.
Import actuator rules.

(** A deferred function changes the state a body leaves, not its
    result. *)
Lemma defer_result {A : Type} (d : State -> State) (body : M A) st :
  fst (defer d body st) = fst (body st).
Proof. unfold defer. now destruct (body st). Qed.

Lemma defer_state {A : Type} (d : State -> State) (body : M A) st :
  snd (defer d body st) = d (snd (body st)).
Proof. unfold defer. now destruct (body st). Qed.

Lemma counter_Inc_same cluster operation st :
  counter (Inc cluster operation st) cluster operation
  = S (counter st cluster operation).
Proof. unfold counter at 1, Inc; simpl. now rewrite lookup_insert_eq. Qed.

Lemma counter_Inc_other cluster operation cluster' operation' st :
  (cluster, operation) <> (cluster', operation') ->
  counter (Inc cluster operation st) cluster' operation'
  = counter st cluster' operation'.
Proof.
  intros Hne. unfold counter at 1, Inc; simpl. now rewrite lookup_insert_ne.
Qed.

(** [Delete], run: one removal call, the not-found error dropped, one
    log line, the counter of "delete" incremented. *)
Lemma Delete_run a ex st :
  Delete a ex st =
  (Returns
     (client_IgnoreNotFound
        (External <$>
           snd (DeleteForSeed (world st) (extensionsv1alpha1.Namespace ex)
                  managedResourceName))),
   Inc (extensionsv1alpha1.Namespace ex) "delete"
     {| world :=
          fst (DeleteForSeed (world st) (extensionsv1alpha1.Namespace ex)
                 managedResourceName);
        ActuatorOperationTotal := ActuatorOperationTotal st;
        logs := append (logs st)
                  {| logMsg := "deleting resources managed by extension";
                     logKeysAndValues := [] |};
        calls := append (calls st)
                   (CallDeleteForSeed (extensionsv1alpha1.Namespace ex)
                      managedResourceName) |}).
Proof.
  unfold Delete, defer, bind, logger_Info, managedresources_DeleteForSeed, ret.
  simpl. now destruct (DeleteForSeed _ _ _).
Qed.

(** With the feature gate missing or false, [Reconcile] is [Delete]
    after one more log line. *)
Lemma Reconcile_gate_off a ex st :
  gardenletFeatureGates a !! OpenTelemetryCollector <> Some true ->
  Reconcile a ex st =
  Delete a ex
    {| world := world st;
       ActuatorOperationTotal := ActuatorOperationTotal st;
       logs := append (logs st)
                 {| logMsg :=
                      "gardenlet feature gate OpenTelemetryCollector is either missing or disabled";
                    logKeysAndValues := [] |};
       calls := calls st |}.
Proof.
  intros Hoff. unfold Reconcile.
  destruct (gardenletFeatureGates a !! OpenTelemetryCollector) as [[|]|];
    [contradiction | reflexivity | reflexivity].
Qed.

(** With the feature gate on, [Reconcile] is its deferred increment
    around the body that starts with the fetch of the cluster. *)
Lemma Reconcile_gate_on_state a ex st :
  featureGateOn a ->
  exists st',
    snd (Reconcile a ex st)
    = Inc (extensionsv1alpha1.Namespace ex) "reconcile" st'
    /\ ActuatorOperationTotal st' = ActuatorOperationTotal st.
Proof.
  unfold featureGateOn. intros Hon. unfold Reconcile. rewrite Hon. simpl.
  rewrite defer_state. eexists. split; [reflexivity|].
  unfold bind, logger_Info, extensionscontroller_GetCluster, lift, ret,
    managedresources_CreateForSeed.
  simpl.
  destruct (GetCluster _ _) as [cluster|e]; simpl; [|reflexivity].
  destruct (v1beta1helper.HibernationIsEnabled _) as [[|]|]; simpl;
    try reflexivity.
  destruct (extensionsv1alpha1.ProviderConfig ex) as [providerConfig|]; simpl;
    [|reflexivity].
  destruct (runtime.DecodeInto _ _) as [[cfg|err]|]; simpl; try reflexivity.
  destruct (validation.Validate cfg); simpl; [reflexivity|].
  destruct (AddAllAndSerialize _) as [data|e]; simpl; [|reflexivity].
  destruct (CreateForSeed _ _ _ _ _) as [w [e|]]; reflexivity.
Qed.

(** Every trigger but one counts itself on every path: the result of the
    trigger is that of its body, and its own counter is one more than the
    body left it. *)
Lemma Delete_counts a ex st :
  counter (snd (Delete a ex st)) (extensionsv1alpha1.Namespace ex) "delete"
  = S (counter st (extensionsv1alpha1.Namespace ex) "delete").
Proof. rewrite Delete_run; simpl. rewrite counter_Inc_same. reflexivity. Qed.

Lemma Reconcile_counts_gate_on a ex st :
  featureGateOn a ->
  counter (snd (Reconcile a ex st)) (extensionsv1alpha1.Namespace ex) "reconcile"
  = S (counter st (extensionsv1alpha1.Namespace ex) "reconcile").
Proof.
  intros Hon. destruct (Reconcile_gate_on_state a ex st Hon) as (st' & -> & Hsame).
  rewrite counter_Inc_same. unfold counter. now rewrite Hsame.
Qed.

(** [Delete] and [Reconcile] leave the counters of the other operations
    as they are. *)
Lemma Delete_counters_frame a ex st cluster operation :
  (extensionsv1alpha1.Namespace ex, "delete") <> (cluster, operation) ->
  counter (snd (Delete a ex st)) cluster operation = counter st cluster operation.
Proof.
  intros Hne. rewrite Delete_run; simpl.
  rewrite counter_Inc_other by assumption. reflexivity.
Qed.

Lemma Reconcile_counters_frame a ex st cluster operation :
  (extensionsv1alpha1.Namespace ex, "delete") <> (cluster, operation) ->
  (extensionsv1alpha1.Namespace ex, "reconcile") <> (cluster, operation) ->
  counter (snd (Reconcile a ex st)) cluster operation
  = counter st cluster operation.
Proof.
  intros Hdelete Hreconcile.
  destruct (gardenletFeatureGates a !! OpenTelemetryCollector) as [[|]|] eqn:Hgate.
  - destruct (Reconcile_gate_on_state a ex st Hgate) as (st' & -> & Hsame).
    rewrite counter_Inc_other by assumption. unfold counter. now rewrite Hsame.
  - rewrite Reconcile_gate_off by congruence.
    now rewrite Delete_counters_frame.
  - rewrite Reconcile_gate_off by congruence.
    now rewrite Delete_counters_frame.
Qed.

Lemma ForceDelete_counts a ex st :
  fst (ForceDelete a ex st)
  = fst (Delete a ex
           (snd (logger_Info
                   "shoot has been force-deleted, deleting resources managed by extension"
                   [] st)))
  /\ counter (snd (ForceDelete a ex st))
       (extensionsv1alpha1.Namespace ex) "force_delete"
     = S (counter st (extensionsv1alpha1.Namespace ex) "force_delete").
Proof.
  unfold ForceDelete. rewrite defer_result, defer_state, counter_Inc_same.
  unfold bind at 1 2; simpl. split; [reflexivity|].
  now rewrite Delete_counters_frame by congruence.
Qed.

Lemma Restore_counts a ex st :
  fst (Restore a ex st) = fst (Reconcile a ex st)
  /\ counter (snd (Restore a ex st)) (extensionsv1alpha1.Namespace ex) "restore"
     = S (counter st (extensionsv1alpha1.Namespace ex) "restore").
Proof.
  unfold Restore. rewrite defer_result, defer_state, counter_Inc_same.
  split; [reflexivity|].
  now rewrite Reconcile_counters_frame by congruence.
Qed.

Lemma Migrate_counts a ex st :
  fst (Migrate a ex st) = fst (Reconcile a ex st)
  /\ counter (snd (Migrate a ex st)) (extensionsv1alpha1.Namespace ex) "migrate"
     = S (counter st (extensionsv1alpha1.Namespace ex) "migrate").
Proof.
  unfold Migrate. rewrite defer_result, defer_state, counter_Inc_same.
  split; [reflexivity|].
  now rewrite Reconcile_counters_frame by congruence.
Qed.

(** C2, where the code departs from it.  [Reconcile] counts itself
    exactly when the feature gate is on.  With the gate missing or false
    (the map [New] starts with has no entry) the counter of "reconcile"
    is left as it was: the return through [Delete] comes before the
    deferred increment is registered, and the counter of "delete" is the
    one that grows. *)
Theorem Reconcile_gate_off_not_counted (a : Actuator)
  (ex : extensionsv1alpha1.Extension) (st : State) :
  match gardenletFeatureGates a !! OpenTelemetryCollector with
  | Some true =>
      counter (snd (Reconcile a ex st))
        (extensionsv1alpha1.Namespace ex) "reconcile"
      = S (counter st (extensionsv1alpha1.Namespace ex) "reconcile")
  | _ =>
      counter (snd (Reconcile a ex st))
        (extensionsv1alpha1.Namespace ex) "reconcile"
      = counter st (extensionsv1alpha1.Namespace ex) "reconcile"
      /\ counter (snd (Reconcile a ex st))
           (extensionsv1alpha1.Namespace ex) "delete"
         = S (counter st (extensionsv1alpha1.Namespace ex) "delete")
  end.
Proof.
  destruct (gardenletFeatureGates a !! OpenTelemetryCollector) as [[|]|] eqn:Hgate.
  - now apply Reconcile_counts_gate_on.
  - rewrite Reconcile_gate_off by congruence. split.
    + now rewrite Delete_counters_frame by congruence.
    + now rewrite Delete_counts.
  - rewrite Reconcile_gate_off by congruence. split.
    + now rewrite Delete_counters_frame by congruence.
    + now rewrite Delete_counts.
Qed.

(** C5.  With the feature gate absent or false, [Reconcile] gives the
    result of [Delete] and leaves the seed, the counters and the calls
    made to the managed-resources library as [Delete] leaves them: one
    removal of the managed resource, and no apply. *)
Theorem Reconcile_feature_gate_off (a : Actuator)
  (ex : extensionsv1alpha1.Extension) (st : State) :
  gardenletFeatureGates a !! OpenTelemetryCollector = None
  \/ gardenletFeatureGates a !! OpenTelemetryCollector = Some false ->
  fst (Reconcile a ex st) = fst (Delete a ex st)
  /\ world (snd (Reconcile a ex st)) = world (snd (Delete a ex st))
  /\ ActuatorOperationTotal (snd (Reconcile a ex st))
     = ActuatorOperationTotal (snd (Delete a ex st))
  /\ calls (snd (Reconcile a ex st)) = calls (snd (Delete a ex st))
  /\ calls (snd (Reconcile a ex st))
     = append (calls st)
         (CallDeleteForSeed (extensionsv1alpha1.Namespace ex)
            managedResourceName).
Proof.
  intros Hoff.
  rewrite Reconcile_gate_off by (destruct Hoff as [-> | ->]; discriminate).
  rewrite !Delete_run. simpl. repeat split; reflexivity.
Qed.

(** C6.  With the feature gate on and the fetched cluster hibernated,
    [Reconcile] returns nil; the seed is as it was and no call was made
    to the managed-resources library, neither an apply nor a removal. *)
Theorem Reconcile_hibernated (a : Actuator)
  (ex : extensionsv1alpha1.Extension) (st : State)
  (cluster : extensionscontroller.Cluster) :
  featureGateOn a ->
  GetCluster (world st) (extensionsv1alpha1.Namespace ex) = inl cluster ->
  v1beta1helper.HibernationIsEnabled (extensionscontroller.Shoot cluster)
  = Returns true ->
  fst (Reconcile a ex st) = Returns None
  /\ world (snd (Reconcile a ex st)) = world st
  /\ calls (snd (Reconcile a ex st)) = calls st.
Proof.
  unfold featureGateOn. intros Hon Hcluster Hhibernated.
  unfold Reconcile. rewrite Hon. simpl.
  unfold defer, bind, logger_Info, extensionscontroller_GetCluster, lift, ret.
  simpl. rewrite Hcluster. simpl. rewrite Hhibernated. simpl.
  repeat split; reflexivity.
Qed.

(** C7, as amended.  An extension block that is present and not disabled
    and has no provider config is rejected by the validator with the
    error "no provider config specified for" the extension type;
    [Reconcile], with the feature gate on and the fetched cluster not
    hibernated, fails for an extension without provider config with the
    error "no provider config specified", returned before any call to
    the managed-resources library.  That error is a plain value of
    [errors.New], of no type of its own: all a caller can tell of it is
    its text, and an error of a collaborator with the same text and no
    not-found status is the same to the caller. *)
Theorem no_provider_config_rejected (v : validator.shootValidator)
  (shoot : core.Shoot) (oldShoot : option core.Shoot) (block : core.Extension)
  (a : Actuator) (ex : extensionsv1alpha1.Extension) (st : State)
  (cluster : extensionscontroller.Cluster) :
  extensionBlock v shoot = Some block ->
  core.Disabled block <> Some true ->
  core.ProviderConfig block = None ->
  featureGateOn a ->
  GetCluster (world st) (extensionsv1alpha1.Namespace ex) = inl cluster ->
  v1beta1helper.HibernationIsEnabled (extensionscontroller.Shoot cluster)
  = Returns false ->
  extensionsv1alpha1.ProviderConfig ex = None ->
  (validator.validateExtension v (Some shoot) oldShoot
   = Returns (Some (errors_New ("no provider config specified for "
                                +:+ validator.extensionType v)))
   /\ forall oldObj,
        core.DeletionTimestamp shoot = None ->
        validator.Validate v (ShootObject (Some shoot)) oldObj
        = Returns (Some (errors_New ("no provider config specified for "
                                     +:+ validator.extensionType v))))
  /\ fst (Reconcile a ex st)
     = Returns (Some (errors_New "no provider config specified"))
  /\ world (snd (Reconcile a ex st)) = world st
  /\ calls (snd (Reconcile a ex st)) = calls st
  /\ observations (errors_New "no provider config specified")
     = [ {| obsText := "no provider config specified";
            obsIsExtensionNotFound := false;
            obsIsNotFound := false;
            obsFieldErrors := None |} ]
  /\ (forall e : ExternalError,
        observations (External e)
        = observations (errors_New "no provider config specified")
        <-> ext_message e = "no provider config specified"
            /\ ext_notFound e = false).
Proof.
  intros Hblock Henabled Hnoconfig Hon Hcluster Hawake Hmissing.
  unfold featureGateOn in Hon.
  assert (Hgate :
    validator.validateExtension v (Some shoot) oldShoot
    = Returns (Some (errors_New ("no provider config specified for "
                                 +:+ validator.extensionType v)))).
  { rewrite (validateExtension_block _ _ _ _ Hblock), Hnoconfig.
    destruct (core.Disabled block) as [[|]|]; [congruence | reflexivity..]. }
  split; [split|].
  - exact Hgate.
  - intros oldObj Hlive. unfold validator.Validate. rewrite Hlive.
    rewrite (validateExtension_block _ _ _ _ Hblock), Hnoconfig.
    destruct (core.Disabled block) as [[|]|]; [congruence | reflexivity..].
  - assert (Hrun :
      Reconcile a ex st
      = (Returns (Some (errors_New "no provider config specified")),
         Inc (extensionsv1alpha1.Namespace ex) "reconcile"
           (snd (logger_Info "reconciling extension"
                   [("name", extensionsv1alpha1.Name ex);
                    ("cluster", extensionsv1alpha1.Namespace ex)] st)))).
    { unfold Reconcile. rewrite Hon. simpl.
      unfold defer, bind, logger_Info, extensionscontroller_GetCluster, lift,
        ret.
      simpl. rewrite Hcluster. simpl. rewrite Hawake. simpl.
      now rewrite Hmissing. }
    rewrite Hrun. simpl. repeat apply conj; try reflexivity.
    intros e. split.
    + intros [= Htext Hstatus]. now split.
    + intros [Htext Hstatus]. destruct e as [message notFound].
      simpl in Htext, Hstatus. now subst.
Qed.

(** A failed fetch of the cluster comes back wrapped, with the
    collaborator's error as its cause. *)
Lemma Reconcile_cluster_fetch_fails a ex st e :
  featureGateOn a ->
  GetCluster (world st) (extensionsv1alpha1.Namespace ex) = inr e ->
  fst (Reconcile a ex st)
  = Returns (Some (fmt_Errorf_w ("failed to get cluster: " +:+ ext_message e)
                     (External e))).
Proof.
  unfold featureGateOn. intros Hon Hcluster.
  unfold Reconcile. rewrite Hon. simpl.
  unfold defer, bind, logger_Info, extensionscontroller_GetCluster, lift, ret.
  simpl. now rewrite Hcluster.
Qed.

End ActuatorFacts.

(** *** The scenarios, run *)

(** A disabled block with a garbage payload, before a validator whose
    decoder refuses everything: accepted. *)
Lemma Validate_disabled_extension_witness :
  validator.Validate (lib := scenario.library) scenario.shootValidator
    (ShootObject
       (Some (scenario.shootWith None
                [scenario.otherBlock; scenario.disabledBlock])))
    nilObject
  = Returns None.
Proof.
  apply (@Validate_disabled_extension scenario.library scenario.shootValidator
           (scenario.shootWith None [scenario.otherBlock; scenario.disabledBlock])
           scenario.disabledBlock nilObject);
    reflexivity.
Defined.

(** A shoot with a block of another extension only: accepted. *)
Lemma Validate_missing_extension_witness :
  validator.Validate (lib := scenario.library) scenario.shootValidator
    (ShootObject (Some (scenario.shootWith None [scenario.otherBlock])))
    nilObject
  = Returns None.
Proof.
  apply (@Validate_missing_extension scenario.library scenario.shootValidator
           (scenario.shootWith None [scenario.otherBlock]) nilObject).
  intros ext [<- | []]. discriminate.
Defined.

(** No feature gate: [Reconcile] removes the managed resource applied
    earlier and returns nil, as [Delete] does. *)
Lemma Reconcile_feature_gate_off_witness :
  fst (actuator.Reconcile (lib := scenario.library) (scenario.actuatorWith ∅)
         (scenario.extension None) (scenario.stateOf (scenario.seedOf false)))
  = fst (actuator.Delete (scenario.actuatorWith ∅)
           (scenario.extension None) (scenario.stateOf (scenario.seedOf false)))
  /\ actuator.calls
       (snd (actuator.Reconcile (lib := scenario.library) (scenario.actuatorWith ∅)
               (scenario.extension None)
               (scenario.stateOf (scenario.seedOf false))))
     = [actuator.CallDeleteForSeed scenario.shootNamespace
          actuator.managedResourceName].
Proof.
  pose proof (@Reconcile_feature_gate_off scenario.library
                scenario.collaborators (scenario.actuatorWith ∅)
                (scenario.extension None)
                (scenario.stateOf (scenario.seedOf false))
                (or_introl eq_refl))
    as (Hresult & _ & _ & _ & Hcalls).
  split; [exact Hresult | exact Hcalls].
Defined.

(** The gate on and the cluster hibernated: nil, and no call. *)
Lemma Reconcile_hibernated_witness :
  fst (actuator.Reconcile (lib := scenario.library)
         (scenario.actuatorWith {[ actuator.OpenTelemetryCollector := true ]})
         (scenario.extension None) (scenario.stateOf (scenario.seedOf true)))
  = Returns None
  /\ actuator.calls
       (snd (actuator.Reconcile (lib := scenario.library)
               (scenario.actuatorWith {[ actuator.OpenTelemetryCollector := true ]})
               (scenario.extension None)
               (scenario.stateOf (scenario.seedOf true))))
     = [].
Proof.
  pose proof (@Reconcile_hibernated scenario.library scenario.collaborators
                (scenario.actuatorWith {[ actuator.OpenTelemetryCollector := true ]})
                (scenario.extension None)
                (scenario.stateOf (scenario.seedOf true))
                (scenario.clusterOf true))
    as Hrun.
  destruct Hrun as (Hresult & _ & Hcalls);
    [vm_compute; reflexivity | vm_compute; reflexivity | reflexivity |].
  split; [exact Hresult | exact Hcalls].
Defined.

(** A block without payload before the validator, and an extension
    without payload before an actuator with the gate on and an awake
    cluster. *)
Lemma no_provider_config_rejected_witness :
  validator.validateExtension (lib := scenario.library) scenario.shootValidator
    (Some (scenario.shootWith None [scenario.bareBlock])) None
  = Returns (Some (errors_New "no provider config specified for otelcol"))
  /\ fst (actuator.Reconcile (lib := scenario.library)
            (scenario.actuatorWith {[ actuator.OpenTelemetryCollector := true ]})
            (scenario.extension None)
            (scenario.stateOf (scenario.seedOf false)))
     = Returns (Some (errors_New "no provider config specified")).
Proof.
  pose proof (@no_provider_config_rejected scenario.library
                scenario.collaborators scenario.shootValidator
                (scenario.shootWith None [scenario.bareBlock]) None
                scenario.bareBlock
                (scenario.actuatorWith {[ actuator.OpenTelemetryCollector := true ]})
                (scenario.extension None)
                (scenario.stateOf (scenario.seedOf false))
                (scenario.clusterOf false))
    as Hrun.
  destruct Hrun as ((Hgate & _) & Hresult & _);
    [ reflexivity | discriminate | reflexivity | vm_compute; reflexivity
    | vm_compute; reflexivity | reflexivity | reflexivity | ].
  split; [exact Hgate | exact Hresult].
Defined.

(** C7 as stated fails: the error of the missing provider config is not
    distinct from a transient one.  The validator's text goes on after
    "no provider config specified"; and where the seed refuses the apply
    of a valid configuration with a plain error of the same text,
    [Reconcile] returns an error of which a caller can tell nothing that
    it cannot tell of the error for the missing provider config. *)
Lemma Reconcile_missing_config_not_distinct :
  validator.validateExtension (lib := scenario.library) scenario.shootValidator
    (Some (scenario.shootWith None [scenario.bareBlock])) None
  = Returns (Some (errors_New "no provider config specified for otelcol"))
  /\ fst (actuator.Reconcile (lib := scenario.library)
            (scenario.actuatorWith {[ actuator.OpenTelemetryCollector := true ]})
            (scenario.extension None)
            (scenario.stateOf (scenario.seedOf false)))
     = Returns (Some (errors_New "no provider config specified"))
  /\ fst (actuator.Reconcile (lib := scenario.library)
            (fixtures.actuatorOf
               (scenario.otlphttpOnly fixtures.collectorEndpoint 0))
            (scenario.extension (Some fixtures.payload))
            (outage.stateOf (scenario.seedOf false)))
     = Returns (Some (External outage.refusal))
  /\ actuator.calls
       (snd (actuator.Reconcile (lib := scenario.library)
               (fixtures.actuatorOf
                  (scenario.otlphttpOnly fixtures.collectorEndpoint 0))
               (scenario.extension (Some fixtures.payload))
               (outage.stateOf (scenario.seedOf false))))
     = [ actuator.CallCreateForSeed scenario.shootNamespace
           actuator.managedResourceName false
           {[ "external-otelcol" := [];
              "external-otelcol-targetallocator" := [] ]} ]
  /\ observations (lib := scenario.library) (External outage.refusal)
     = observations (lib := scenario.library)
         (errors_New "no provider config specified").
Proof. repeat apply conj; vm_compute; reflexivity. Qed.

(** The run behind C2: after [Reconcile] with no feature gate, from a
    state with no counter, "reconcile" counts zero and "delete" one. *)
Example Reconcile_gate_off_counters :
  actuator.counter
    (snd (actuator.Reconcile (lib := scenario.library) (scenario.actuatorWith ∅)
            (scenario.extension None)
            (scenario.stateOf (scenario.seedOf false))))
    scenario.shootNamespace "reconcile"
  = 0%nat
  /\ actuator.counter
       (snd (actuator.Reconcile (lib := scenario.library)
               (scenario.actuatorWith ∅) (scenario.extension None)
               (scenario.stateOf (scenario.seedOf false))))
       scenario.shootNamespace "delete"
     = 1%nat.
Proof. split; vm_compute; reflexivity. Qed.

(** *** Further properties of the webhook and of the actuator *)

Section Further.
Context {lib : GoLibrary} {env : actuator.Collaborators}.
Import actuator rules.

(** X1.  Deletion bypass: a shoot with a deletion timestamp is accepted,
    whatever its extension blocks hold and whatever the validator's
    decoder is. *)
Theorem Validate_deletion_bypass (v : validator.shootValidator)
  (name namespace : string) (deletionTimestamp : Z) (spec : core.ShootSpec)
  (oldObj : client_Object) :
  validator.Validate v
    (ShootObject
       (Some {| core.Name := name; core.Namespace := namespace;
                core.DeletionTimestamp := Some deletionTimestamp;
                core.Spec := spec |}))
    oldObj
  = Returns None.
Proof.
  unfold validator.Validate.
  (* the deletion timestamp is read before the extensions are *)
  cbn [core.DeletionTimestamp]. reflexivity.
Qed.

(** X2.  A validator is not built without a decoder: the constructor
    returns an error and no validator; with a decoder it returns the
    validator of the actuator's extension type. *)
Theorem newShootValidator_needs_decoder (d : runtime.Decoder) :
  validator.newShootValidator None
  = (None,
     Some (errors_New "invalid decoder specified for shoot validator otelcol"))
  /\ validator.newShootValidator (Some d)
     = (Some {| validator.decoder := Some d;
                validator.extensionType := ExtensionType |},
        None).
Proof.
  unfold validator.newShootValidator. split.
  - reflexivity.
  - reflexivity.
Qed.

(** X3.  The triggers are two: [ForceDelete] returns what [Delete]
    returns and makes the calls [Delete] makes; [Restore] and [Migrate]
    return what [Reconcile] returns and leave the seed and the calls as
    [Reconcile] leaves them. *)
Theorem trigger_aliases (a : Actuator) (ex : extensionsv1alpha1.Extension)
  (st : State) :
  (fst (ForceDelete a ex st) = fst (Delete a ex st)
   /\ world (snd (ForceDelete a ex st)) = world (snd (Delete a ex st))
   /\ calls (snd (ForceDelete a ex st)) = calls (snd (Delete a ex st)))
  /\ (fst (Restore a ex st) = fst (Reconcile a ex st)
      /\ world (snd (Restore a ex st)) = world (snd (Reconcile a ex st))
      /\ calls (snd (Restore a ex st)) = calls (snd (Reconcile a ex st)))
  /\ (fst (Migrate a ex st) = fst (Reconcile a ex st)
      /\ world (snd (Migrate a ex st)) = world (snd (Reconcile a ex st))
      /\ calls (snd (Migrate a ex st)) = calls (snd (Reconcile a ex st))).
Proof.
  split; [|split].
  - unfold ForceDelete. rewrite defer_result, defer_state.
    unfold bind, logger_Info; simpl. rewrite !Delete_run. simpl.
    repeat split; reflexivity.
  - unfold Restore. rewrite defer_result, defer_state.
    repeat split; reflexivity.
  - unfold Migrate. rewrite defer_result, defer_state.
    repeat split; reflexivity.
Qed.

(** X4.  [Delete] always asks for the removal of the managed resource,
    and a not-found answer is a success: the result is nil when the
    removal succeeded or found nothing, and the error of the removal
    otherwise. *)
Theorem Delete_idempotent (a : Actuator) (ex : extensionsv1alpha1.Extension)
  (st : State) :
  fst (Delete a ex st)
  = Returns
      match snd (DeleteForSeed (world st) (extensionsv1alpha1.Namespace ex)
                   managedResourceName) with
      | Some e => if ext_notFound e then None else Some (External e)
      | None => None
      end
  /\ calls (snd (Delete a ex st))
     = append (calls st)
         (CallDeleteForSeed (extensionsv1alpha1.Namespace ex)
            managedResourceName).
Proof.
  rewrite Delete_run. simpl. split; [|reflexivity].
  now destruct (snd (DeleteForSeed _ _ _)) as [e|].
Qed.

(** X5.  A configuration that does not decode or does not validate is
    never applied: when no valid configuration comes out of the payload,
    [Reconcile] with the feature gate on makes no call to the
    managed-resources library and leaves the seed as it was. *)
Theorem Reconcile_invalid_config_not_applied (a : Actuator)
  (ex : extensionsv1alpha1.Extension) (st : State) :
  featureGateOn a ->
  (forall providerConfig cfg,
     extensionsv1alpha1.ProviderConfig ex = Some providerConfig ->
     runtime.DecodeInto (decoder a) (runtime.Raw providerConfig)
     = Returns (inl cfg) ->
     validation.Validate cfg <> None) ->
  world (snd (Reconcile a ex st)) = world st
  /\ calls (snd (Reconcile a ex st)) = calls st.
Proof.
  unfold featureGateOn. intros Hon Hinvalid.
  unfold Reconcile. rewrite Hon. simpl.
  unfold defer, bind, logger_Info, extensionscontroller_GetCluster, lift, ret.
  simpl.
  destruct (GetCluster _ _) as [cluster|e]; simpl; [|now split].
  destruct (v1beta1helper.HibernationIsEnabled _) as [[|]|]; simpl;
    try (now split).
  destruct (extensionsv1alpha1.ProviderConfig ex) as [providerConfig|];
    simpl; [|now split].
  destruct (runtime.DecodeInto _ _) as [[cfg|err]|] eqn:Hdecode; simpl;
    try (now split).
  specialize (Hinvalid providerConfig cfg eq_refl Hdecode).
  destruct (validation.Validate cfg); simpl; [now split | contradiction].
Qed.

End Further.

(** A payload that the decoder refuses: nothing is applied. *)
Lemma Reconcile_invalid_config_not_applied_witness :
  actuator.calls
    (snd (actuator.Reconcile (lib := scenario.library)
            (scenario.actuatorWith {[ actuator.OpenTelemetryCollector := true ]})
            (scenario.extension (Some {| runtime.Raw := scenario.garbage |}))
            (scenario.stateOf (scenario.seedOf false))))
  = [].
Proof.
  pose proof (@Reconcile_invalid_config_not_applied scenario.library
                scenario.collaborators
                (scenario.actuatorWith {[ actuator.OpenTelemetryCollector := true ]})
                (scenario.extension (Some {| runtime.Raw := scenario.garbage |}))
                (scenario.stateOf (scenario.seedOf false)))
    as Hrun.
  destruct Hrun as (_ & Hcalls);
    [vm_compute; reflexivity | intros providerConfig cfg _; discriminate |].
  exact Hcalls.
Defined.

(** *** More on the validator of the configuration *)

Section ValidateMore.
Context {lib : GoLibrary}.
Import config validation rules.

(** X6.  [Validate] returns nil exactly for the configurations that have
    an exporter enabled, whose five endpoints are empty or parse, whose
    read and write buffer sizes are not negative and whose token, CA,
    cert and key references, when present, have a name and a data key.
    The settings of the OTLP HTTP exporter are checked whether that
    exporter is enabled or not. *)
Theorem Validate_accepts_iff (cfg : CollectorConfig) :
  Validate cfg = None <->
  (DebugEnabled (DebugExporter (Exporters (Spec cfg))) = Some true
   \/ Enabled (OTLPHTTPExporter (Exporters (Spec cfg))) = Some true)
  /\ (forall value,
        In value
          [ Endpoint (OTLPHTTPExporter (Exporters (Spec cfg)));
            TracesEndpoint (OTLPHTTPExporter (Exporters (Spec cfg)));
            MetricsEndpoint (OTLPHTTPExporter (Exporters (Spec cfg)));
            LogsEndpoint (OTLPHTTPExporter (Exporters (Spec cfg)));
            ProfilesEndpoint (OTLPHTTPExporter (Exporters (Spec cfg))) ] ->
        value = "" \/ url.Parse value = None)
  /\ 0 <= ReadBufferSize (OTLPHTTPExporter (Exporters (Spec cfg)))
  /\ 0 <= WriteBufferSize (OTLPHTTPExporter (Exporters (Spec cfg)))
  /\ (forall ref,
        In (Some ref)
          [ Token (OTLPHTTPExporter (Exporters (Spec cfg)));
            CA (TLS (OTLPHTTPExporter (Exporters (Spec cfg))));
            Cert (TLS (OTLPHTTPExporter (Exporters (Spec cfg))));
            Key (TLS (OTLPHTTPExporter (Exporters (Spec cfg)))) ] ->
        Name (ResourceRef ref) <> "" /\ DataKey (ResourceRef ref) <> "").
Proof.
  rewrite Validate_None_iff. split.
  - intros Hno.
    assert (Hurl : forall path value,
              In (path, value) (endpoints cfg) ->
              value = "" \/ url.Parse value = None).
    { intros path value Hin.
      destruct (String.eqb_spec value ""); [now left|].
      destruct (url.Parse value) eqn:Hparse; [|now right].
      destruct (Hno (field_Invalid path (StringValue value)
                       "invalid URL specified")).
      constructor; congruence. }
    assert (Hbuf : forall path value,
              In (path, value) (bufferSizes cfg) -> 0 <= value).
    { intros path value Hin.
      destruct (Z.lt_ge_cases value 0) as [Hneg|]; [|assumption].
      destruct (Hno (field_Invalid path (IntValue value)
                       "value cannot be negative")).
      now constructor. }
    assert (Href : forall path ref,
              In (path, Some ref) (references cfg) ->
              Name (ResourceRef ref) <> "" /\ DataKey (ResourceRef ref) <> "").
    { intros path ref Hin.
      destruct (String.eqb_spec (Name (ResourceRef ref)) "") as [Hn|Hn].
      { destruct (Hno (field_Invalid path (StringValue path)
                         "name or dataKey is empty")).
        apply resource_reference_complete with (ref := ref); auto. }
      destruct (String.eqb_spec (DataKey (ResourceRef ref)) "") as [Hk|Hk].
      { destruct (Hno (field_Invalid path (StringValue path)
                         "name or dataKey is empty")).
        apply resource_reference_complete with (ref := ref); auto. }
      now split. }
    repeat apply conj.
    + destruct (DebugEnabled _) as [[|]|] eqn:Hd; [now left | |];
        (destruct (Enabled _) as [[|]|] eqn:Ho; [now right | |];
         destruct (Hno (field_Required "spec.exporters" "no exporter enabled"));
         constructor; congruence).
    + intros value Hin.
      apply (in_map_iff snd (endpoints cfg)) in Hin as ([path value'] & <- & Hin).
      exact (Hurl path value' Hin).
    + apply (Hbuf "spec.exporters.otlphttp.read_buffer_size"). now left.
    + apply (Hbuf "spec.exporters.otlphttp.write_buffer_size"). right. now left.
    + intros ref Hin.
      apply (in_map_iff snd (references cfg)) in Hin as ([path ref'] & Heq & Hin).
      simpl in Heq. subst ref'. exact (Href path ref Hin).
  - intros (Hflag & Hurl & Hread & Hwrite & Href) e He.
    destruct He as [Hd Ho | path value Hin Hne Hparse
                    | path value Hin Hlt | path ref Hin Hempty].
    + destruct Hflag; contradiction.
    + apply (in_map snd) in Hin. destruct (Hurl value Hin); contradiction.
    + destruct Hin as [[= <- <-] | [[= <- <-] | []]]; lia.
    + apply (in_map snd) in Hin. destruct (Href ref Hin) as [Hn Hk].
      destruct Hempty; contradiction.
Qed.

(** X7.  The result of [Validate] is a function of the fields it reads:
    two configurations that agree on the [Enabled] flags, the five
    endpoints, the two buffer sizes and the four references get the same
    result, whatever their kind, timeout, encoding, compression, retry
    policy, TLS verification flag and debug verbosity are. *)
Theorem Validate_reads_checkedFields (cfg cfg' : CollectorConfig) :
  views.checkedFields cfg = views.checkedFields cfg' ->
  Validate cfg = Validate cfg'.
Proof.
  unfold views.checkedFields. intros Heq.
  pose proof (f_equal snd Heq) as Href.
  pose proof (f_equal (fun t => snd (fst t)) Heq) as Hbuf.
  pose proof (f_equal (fun t => snd (fst (fst t))) Heq) as Hurl.
  pose proof (f_equal (fun t => snd (fst (fst (fst t)))) Heq) as Ho.
  pose proof (f_equal (fun t => fst (fst (fst (fst t)))) Heq) as Hd.
  cbn [fst snd] in Href, Hbuf, Hurl, Ho, Hd.
  unfold Validate. f_equal. unfold allErrs.
  unfold DebugExporterConfig_IsEnabled, OTLPHTTPExporterConfig_IsEnabled.
  now rewrite Hd, Ho, Hurl, Hbuf, Href.
Qed.

(** X8.  The errors of a result come in the order in which [Validate]
    visits its paths (the exporters, the five endpoints, the two buffer
    sizes, the four references), with at most one error on a path: there
    are at most twelve. *)
Theorem Validate_errors_ordered (cfg : CollectorConfig)
  (errs : list FieldError) :
  Validate cfg = Some (Aggregate errs) ->
  Field <$> errs `sublist_of` fieldPaths cfg
  /\ NoDup (Field <$> errs)
  /\ (length errs <= 12)%nat.
Proof.
  rewrite Validate_allErrs. intros Herrs.
  assert (errs = allErrs cfg) as ->
    by (destruct (allErrs cfg); [discriminate | now injection Herrs]).
  split; [apply Field_allErrs_sublist | split; [apply NoDup_Field_allErrs|]].
  pose proof (sublist_length _ _ (Field_allErrs_sublist cfg)) as Hlen.
  rewrite length_fmap in Hlen. exact Hlen.
Qed.

End ValidateMore.

(** *** What [url.Parse] lets through *)

Lemma Count_Cut (s : string) (sep x : ascii) :
  (strings.Count (fst (fst (strings.Cut s sep))) x
   + strings.Count (snd (fst (strings.Cut s sep))) x
   <= strings.Count s x)%nat.
Proof.
  induction s as [|c s IH]; simpl; [lia|].
  destruct (Ascii.eqb c sep); simpl; [lia|].
  destruct (strings.Cut s sep) as [[before after] found]; simpl in *. lia.
Qed.

Lemma Count_dropLast (s : string) (x : ascii) :
  (strings.Count (strings.dropLast s) x <= strings.Count s x)%nat.
Proof.
  induction s as [|c s IH]; simpl; [lia|].
  destruct s as [|c' s']; simpl in *; lia.
Qed.

Lemma CTL_Cut (s : string) (sep : ascii) :
  url.stringContainsCTLByte s = false ->
  url.stringContainsCTLByte (fst (fst (strings.Cut s sep))) = false
  /\ url.stringContainsCTLByte (snd (fst (strings.Cut s sep))) = false.
Proof.
  induction s as [|c s IH]; simpl; [now split|].
  intros [Hc Hs]%orb_false_iff. destruct (Ascii.eqb c sep); simpl; [now split|].
  destruct (strings.Cut s sep) as [[before after] found]; simpl in *.
  destruct (IH Hs) as [Hbefore Hafter]. split; [|assumption].
  now rewrite Hc, Hbefore.
Qed.

(** The text before a separator, and a text without its last byte, are
    the start of the whole text. *)
Lemma Cut_before (s : string) (sep : ascii) :
  exists rest, s = fst (fst (strings.Cut s sep)) +:+ rest.
Proof.
  induction s as [|c s [rest IH]]; simpl.
  - now exists EmptyString.
  - destruct (Ascii.eqb c sep); simpl.
    + now exists (String c s).
    + destruct (strings.Cut s sep) as [[before after] found]; simpl in *.
      exists rest. change (String c s = String c (before +:+ rest)).
      congruence.
Qed.

Lemma dropLast_before (s : string) :
  exists rest, s = strings.dropLast s +:+ rest.
Proof.
  induction s as [|c s [rest IH]].
  - now exists EmptyString.
  - destruct s as [|c' s'].
    + now exists (String c EmptyString).
    + exists rest.
      change (String c (String c' s')
              = String c (strings.dropLast (String c' s') +:+ rest)).
      f_equal. exact IH.
Qed.

Lemma HasPrefix_slashes (s : string) :
  strings.HasPrefix s "//" = true <-> exists t, s = String "/" (String "/" t).
Proof.
  unfold strings.HasPrefix. split.
  - destruct s as [|c1 [|c2 t]]; cbn [String.prefix]; try discriminate.
    + destruct (ascii_dec "/" c1); discriminate.
    + destruct (ascii_dec "/" c1) as [<-|]; [|discriminate].
      destruct (ascii_dec "/" c2) as [<-|]; [|discriminate].
      intros _. now exists t.
  - intros [t ->]. cbn [String.prefix].
    destruct (ascii_dec "/" "/"); [|congruence]. now destruct t.
Qed.

Lemma HasPrefix_start (s before rest : string) :
  s = before +:+ rest ->
  strings.HasPrefix s "//" = false ->
  strings.HasPrefix before "//" = false.
Proof.
  intros -> Hs. destruct (strings.HasPrefix before "//") eqn:Hbefore;
    [|reflexivity].
  apply HasPrefix_slashes in Hbefore as [t ->].
  rewrite <- Hs. symmetry. apply HasPrefix_slashes. now exists (t +:+ rest).
Qed.

Lemma HasPrefix_Cut (s : string) (sep : ascii) :
  strings.HasPrefix s "//" = false ->
  strings.HasPrefix (fst (fst (strings.Cut s sep))) "//" = false.
Proof.
  destruct (Cut_before s sep) as [rest Hs]. now apply HasPrefix_start with rest.
Qed.

Lemma HasPrefix_dropLast (s : string) :
  strings.HasPrefix s "//" = false ->
  strings.HasPrefix (strings.dropLast s) "//" = false.
Proof.
  destruct (dropLast_before s) as [rest Hs]. now apply HasPrefix_start with rest.
Qed.

Lemma getScheme_no_colon (rawURL rest : string) (i : nat) :
  strings.Count rest ":" = 0%nat ->
  url.getScheme_from rawURL i rest = (EmptyString, rawURL, None).
Proof.
  revert i. induction rest as [|c rest IH]; intros i; simpl; [reflexivity|].
  destruct (Ascii.eqb c ":") eqn:Hc; [discriminate|]. simpl. intros Hrest.
  destruct (url.isLetter c); [now apply IH|].
  destruct (url.isDigit c || Ascii.eqb c "+" || Ascii.eqb c "-"
            || Ascii.eqb c "."); [|reflexivity].
  destruct (Nat.eqb i 0); [reflexivity | now apply IH].
Qed.

Lemma unescape_no_percent (s : string) :
  strings.Count s "%" = 0%nat -> url.unescape_err s = None.
Proof.
  induction s as [|c s IH]; simpl; [reflexivity|].
  destruct (Ascii.eqb c "%"); [discriminate | exact IH].
Qed.

Section UrlLenient.
Context {lib : GoLibrary}.
Import config validation rules.

(** A text with no control character, no percent sign and no colon that
    does not start with two slashes parses: there is no scheme to get
    wrong, no escape to decode and no authority to check. *)
Lemma Parse_plain (value : string) :
  url.stringContainsCTLByte value = false ->
  strings.Contains value "%" = false ->
  strings.Contains value ":" = false ->
  strings.HasPrefix value "//" = false ->
  url.Parse value = None.
Proof.
  unfold strings.Contains. rewrite !negb_false_iff, !Nat.eqb_eq.
  intros Hctl Hpercent Hcolon Hslashes. unfold url.Parse.
  pose proof (Count_Cut value "#" "%") as Hcut_percent.
  pose proof (Count_Cut value "#" ":") as Hcut_colon.
  pose proof (CTL_Cut value "#" Hctl) as [Hctl_u _].
  pose proof (HasPrefix_Cut value "#" Hslashes) as Hslashes_u.
  destruct (strings.Cut value "#") as [[u frag] found]; simpl in *.
  assert (Hparse : url.parse u = None).
  { unfold url.parse. rewrite Hctl_u.
    destruct (String.eqb u "*"); [reflexivity|].
    unfold url.getScheme. rewrite getScheme_no_colon by lia.
    cbn [strings.ToLower String.eqb negb andb orb].
    pose proof (Count_Cut u "?" "%") as Hq_percent.
    pose proof (Count_Cut u "?" ":") as Hq_colon.
    pose proof (Count_dropLast u "%") as Hd_percent.
    pose proof (Count_dropLast u ":") as Hd_colon.
    pose proof (HasPrefix_Cut u "?" Hslashes_u) as Hq_slashes.
    pose proof (HasPrefix_dropLast u Hslashes_u) as Hd_slashes.
    set (rest := if strings.HasSuffix u "?" && Nat.eqb (strings.Count u "?") 1
                 then strings.dropLast u
                 else fst (fst (strings.Cut u "?"))).
    assert (Hrest : strings.Count rest "%" = 0%nat
                    /\ strings.Count rest ":" = 0%nat
                    /\ strings.HasPrefix rest "//" = false).
    { subst rest. destruct (_ && _); repeat split; (lia || assumption). }
    clearbody rest. destruct Hrest as (Hr_percent & Hr_colon & Hr_slashes).
    rewrite andb_false_r.
    pose proof (Count_Cut rest "/" ":") as Hseg.
    unfold strings.Contains.
    replace (strings.Count (fst (fst (strings.Cut rest "/"))) ":")
      with 0%nat by lia.
    rewrite Hr_slashes. cbn [Nat.eqb negb andb].
    rewrite !andb_false_r. now apply unescape_no_percent. }
  rewrite Hparse. destruct (String.eqb frag ""); [reflexivity|].
  apply unescape_no_percent. lia.
Qed.

(** X9.  The URL rule of [Validate] lets every plain text through: an
    endpoint with no control character, no percent sign and no colon that
    does not start with two slashes is never reported, blanks and all. *)
Theorem Validate_plain_endpoint_accepted (cfg : CollectorConfig)
  (path value : string) (e : FieldError) :
  In (path, value) (urlFields cfg) ->
  url.stringContainsCTLByte value = false ->
  strings.Contains value "%" = false ->
  strings.Contains value ":" = false ->
  strings.HasPrefix value "//" = false ->
  reported (Validate cfg) e -> Field e <> path.
Proof.
  intros Hin Hctl Hpercent Hcolon Hslashes He Hpath.
  pose proof (Parse_plain value Hctl Hpercent Hcolon Hslashes) as Hparse.
  apply reported_Validate, in_allErrs_iff in He.
  destruct (urlFields_path_not_other _ _ _ Hin) as (Hreq & Hneg & Href).
  destruct He as [Hd Ho | path' value' Hin' Hne Hparse'
                  | path' value' Hin' Hlt | path' ref Hin' Hempty];
    simpl in Hpath.
  - congruence.
  - subst path'. rewrite (urlFields_path_unique _ _ _ _ Hin Hin') in *.
    contradiction.
  - subst path'. now destruct (Hneg value').
  - subst path'. now destruct (Href (Some ref)).
Qed.

End UrlLenient.

(** *** More on the admission webhook *)

Lemma find_first {A : Type} (f : A -> bool) (pre post : list A) (x : A) :
  (forall y, In y pre -> f y = false) -> f x = true ->
  find f (pre ++ x :: post) = Some x.
Proof.
  intros Hpre Hx. induction pre as [|y pre IH]; simpl.
  - now rewrite Hx.
  - rewrite (Hpre y) by now left. apply IH. intros z Hz. apply Hpre. now right.
Qed.

Section ValidatorMore.
Context {lib : GoLibrary}.
Import rules.

(** The extension block of a shoot is the first block of the type: the
    blocks after it, of the same type or not, are not looked at. *)
Lemma extensionBlock_first v name namespace deletionTimestamp pre block post :
  (forall other, In other pre -> core.Type_ other <> validator.extensionType v) ->
  core.Type_ block = validator.extensionType v ->
  extensionBlock v
    {| core.Name := name; core.Namespace := namespace;
       core.DeletionTimestamp := deletionTimestamp;
       core.Spec := {| core.Extensions := pre ++ block :: post |} |}
  = Some block.
Proof.
  intros Hpre Hblock. unfold extensionBlock; simpl. apply find_first.
  - intros other Hother. apply String.eqb_neq. now apply Hpre.
  - now apply String.eqb_eq.
Qed.

(** X10.  The verdict on a shoot that is not under deletion depends on
    the first extension block of the validator's type only, and on that
    block through its disabled flag and its payload: an unset flag is a
    flag set to false, the payload of a disabled block does not count,
    and neither do the other blocks, the names and the old objects. *)
Theorem Validate_reads_first_block (v : validator.shootValidator)
  (shoot shoot' : core.Shoot) (oldObj oldObj' : client_Object) :
  core.DeletionTimestamp shoot = None ->
  core.DeletionTimestamp shoot' = None ->
  views.enabledPayload <$> extensionBlock v shoot
  = views.enabledPayload <$> extensionBlock v shoot' ->
  validator.Validate v (ShootObject (Some shoot)) oldObj
  = validator.Validate v (ShootObject (Some shoot')) oldObj'.
Proof.
  intros Hlive Hlive' Hview. unfold validator.Validate.
  rewrite Hlive, Hlive'.
  destruct (extensionBlock v shoot) as [block|] eqn:Hblock;
    destruct (extensionBlock v shoot') as [block'|] eqn:Hblock';
    try discriminate.
  - rewrite (validateExtension_block _ _ _ _ Hblock).
    rewrite (validateExtension_block _ _ _ _ Hblock').
    injection Hview as Hview. unfold views.enabledPayload in Hview.
    destruct (match core.Disabled block with
              | Some disabled => disabled | None => false end);
      destruct (match core.Disabled block' with
                | Some disabled => disabled | None => false end);
      try discriminate; [reflexivity|].
    injection Hview as ->. reflexivity.
  - rewrite !validateExtension_no_block by assumption. reflexivity.
Qed.

(** [Validate] on a shoot whose block is enabled and has a payload:
    decode, then validate. *)
Lemma Validate_enabled_payload v shoot block providerConfig d oldObj :
  core.DeletionTimestamp shoot = None ->
  extensionBlock v shoot = Some block ->
  views.enabledPayload block = Some (Some providerConfig) ->
  validator.decoder v = Some d ->
  validator.Validate v (ShootObject (Some shoot)) oldObj
  = match d (runtime.Raw providerConfig) with
    | inr e =>
        Returns (Some (fmt_Errorf_w
                         ("invalid provider spec configuration for "
                          +:+ validator.extensionType v +:+ ": "
                          +:+ ext_message e)
                         (External e)))
    | inl cfg =>
        match validation.Validate cfg with
        | Some err =>
            Returns (Some (fmt_Errorf_w
                             ("invalid extension configuration for "
                              +:+ validator.extensionType v +:+ ": "
                              +:+ error_Error err) err))
        | None => Returns None
        end
    end.
Proof.
  intros Hlive Hblock Hview Hdecoder.
  unfold validator.Validate. rewrite Hlive.
  rewrite (validateExtension_block _ _ _ _ Hblock).
  unfold views.enabledPayload in Hview.
  destruct (match core.Disabled block with
            | Some disabled => disabled | None => false end);
    [discriminate|].
  injection Hview as ->. rewrite Hdecoder. unfold runtime.DecodeInto.
  now destruct (d (runtime.Raw providerConfig)).
Qed.

(** X11.  When the block is enabled and has a payload, the rejection
    keeps its cause: a payload that does not decode is rejected with an
    error that wraps the decoder's error, a configuration that does not
    validate with an error that wraps the aggregate of its violations,
    and a configuration that validates is accepted.  The texts of the two
    rejections start differently, whatever the extension type is. *)
Theorem Validate_rejection_cause (v : validator.shootValidator)
  (shoot : core.Shoot) (block : core.Extension)
  (providerConfig : runtime.RawExtension) (d : runtime.Decoder)
  (oldObj : client_Object) :
  core.DeletionTimestamp shoot = None ->
  extensionBlock v shoot = Some block ->
  views.enabledPayload block = Some (Some providerConfig) ->
  validator.decoder v = Some d ->
  (forall e,
     d (runtime.Raw providerConfig) = inr e ->
     validator.Validate v (ShootObject (Some shoot)) oldObj
     = Returns (Some (fmt_Errorf_w
                        ("invalid provider spec configuration for "
                         +:+ validator.extensionType v +:+ ": "
                         +:+ ext_message e)
                        (External e))))
  /\ (forall cfg errs,
        d (runtime.Raw providerConfig) = inl cfg ->
        validation.Validate cfg = Some (Aggregate errs) ->
        validator.Validate v (ShootObject (Some shoot)) oldObj
        = Returns (Some (fmt_Errorf_w
                           ("invalid extension configuration for "
                            +:+ validator.extensionType v +:+ ": "
                            +:+ aggregate_Error errs)
                           (Aggregate errs)))
        /\ forall e, In e errs <-> violation cfg e)
  /\ (forall cfg,
        d (runtime.Raw providerConfig) = inl cfg ->
        validation.Validate cfg = None ->
        validator.Validate v (ShootObject (Some shoot)) oldObj = Returns None)
  /\ (forall type type' cause cause',
        "invalid provider spec configuration for " +:+ type +:+ cause
        <> "invalid extension configuration for " +:+ type' +:+ cause').
Proof.
  intros Hlive Hblock Hview Hdecoder.
  pose proof (Validate_enabled_payload v shoot block providerConfig d oldObj
                Hlive Hblock Hview Hdecoder) as Hrun.
  repeat apply conj.
  - intros e He. now rewrite Hrun, He.
  - intros cfg errs Hcfg Herrs. rewrite Hrun, Hcfg, Herrs. split; [reflexivity|].
    intros e. rewrite <- in_allErrs_iff, <- reported_Validate, Herrs.
    reflexivity.
  - intros cfg Hcfg Hvalid. now rewrite Hrun, Hcfg, Hvalid.
  - intros type type' cause cause' Heq. discriminate Heq.
Qed.

(** X12.  A validator that has a decoder panics on one input only, a
    nil shoot pointer in the new object: an index out of range and a
    call of a nil decoder do not happen.  The error "invalid shoot
    resource provided" of [getExtension] is never the result of
    [Validate], which reads the deletion timestamp of the shoot first. *)
Theorem Validate_panics_iff (d : runtime.Decoder) (type : string)
  (newObj oldObj : client_Object) :
  (validator.Validate
     {| validator.decoder := Some d; validator.extensionType := type |}
     newObj oldObj = Panics
   <-> newObj = ShootObject None)
  /\ validator.Validate
       {| validator.decoder := Some d; validator.extensionType := type |}
       newObj oldObj
     <> Returns (Some (errors_New "invalid shoot resource provided")).
Proof.
  set (v := {| validator.decoder := Some d; validator.extensionType := type |}).
  destruct newObj as [|[shoot|]|typeName].
  - split; [split; discriminate | intros [= Hmsg]; discriminate Hmsg].
  - unfold validator.Validate.
    destruct (core.DeletionTimestamp shoot);
      [split; [split; discriminate | discriminate]|].
    destruct (extensionBlock v shoot) as [block|] eqn:Hblock.
    + rewrite (validateExtension_block _ _ _ _ Hblock).
      destruct (match core.Disabled block with
                | Some disabled => disabled | None => false end);
        [split; [split; discriminate | discriminate]|].
      destruct (core.ProviderConfig block) as [providerConfig|].
      * simpl. destruct (d (runtime.Raw providerConfig)) as [cfg|e].
        -- destruct (validation.Validate cfg);
             (split; [split; discriminate | discriminate]).
        -- split; [split; discriminate | discriminate].
      * split; [split; discriminate | intros [= Hmsg]; discriminate Hmsg].
    + rewrite (validateExtension_no_block _ _ _ Hblock).
      split; [split; discriminate | discriminate].
  - split; [now split | discriminate].
  - split; [split; discriminate | intros [= Hmsg]; discriminate Hmsg].
Qed.

End ValidatorMore.

(** *** The properties above, on the scenarios *)

(** A configuration with a bad endpoint and a negative buffer size, and
    the same with another encoding and compression: the same result. *)
Lemma Validate_reads_checkedFields_witness :
  validation.Validate (lib := scenario.library)
    (scenario.otlphttpOnly "%zz" (-1))
  = validation.Validate (lib := scenario.library)
      (fixtures.recoded (scenario.otlphttpOnly "%zz" (-1))).
Proof.
  apply (@Validate_reads_checkedFields scenario.library
           (scenario.otlphttpOnly "%zz" (-1))
           (fixtures.recoded (scenario.otlphttpOnly "%zz" (-1)))).
  reflexivity.
Defined.

(** The two errors of that configuration: the endpoint before the buffer
    size. *)
Lemma Validate_errors_ordered_witness :
  Field <$>
    [ field_Invalid "spec.exporters.otlphttp.endpoint" (StringValue "%zz")
        "invalid URL specified";
      field_Invalid "spec.exporters.otlphttp.read_buffer_size" (IntValue (-1))
        "value cannot be negative" ]
  `sublist_of` validation.fieldPaths (scenario.otlphttpOnly "%zz" (-1))
  /\ NoDup
       (Field <$>
          [ field_Invalid "spec.exporters.otlphttp.endpoint" (StringValue "%zz")
              "invalid URL specified";
            field_Invalid "spec.exporters.otlphttp.read_buffer_size"
              (IntValue (-1)) "value cannot be negative" ])
  /\ (2 <= 12)%nat.
Proof.
  apply (@Validate_errors_ordered scenario.library
           (scenario.otlphttpOnly "%zz" (-1))).
  reflexivity.
Defined.

(** The endpoint "not a url" of a configuration with a negative buffer
    size: the one error is not on the endpoint. *)
Lemma Validate_plain_endpoint_accepted_witness :
  Field (field_Invalid "spec.exporters.otlphttp.read_buffer_size"
           (IntValue (-1)) "value cannot be negative")
  <> "spec.exporters.otlphttp.endpoint".
Proof.
  apply (@Validate_plain_endpoint_accepted scenario.library
           (scenario.otlphttpOnly "not a url" (-1))
           "spec.exporters.otlphttp.endpoint" "not a url");
    [now left | reflexivity | reflexivity | reflexivity | reflexivity
    | now left].
Defined.

(** A shoot with a block of another extension, a disabled block and a
    block with no payload, and a shoot with the disabled block alone: the
    same verdict, an acceptance. *)
Lemma Validate_reads_first_block_witness :
  validator.Validate (lib := scenario.library) scenario.shootValidator
    (ShootObject
       (Some (scenario.shootWith None
                [scenario.otherBlock; scenario.disabledBlock;
                 scenario.bareBlock])))
    nilObject
  = validator.Validate (lib := scenario.library) scenario.shootValidator
      (ShootObject
         (Some (scenario.shootWith None
                  [ {| core.Type_ := "otelcol"; core.ProviderConfig := None;
                       core.Disabled := Some true |} ])))
      (OtherObject "*core.Seed").
Proof.
  apply (@Validate_reads_first_block scenario.library scenario.shootValidator);
    reflexivity.
Defined.

(** An enabled block with a payload: rejected with the decoder's error
    when the decoder refuses it, with the aggregate when the
    configuration has a bad endpoint, accepted when it validates. *)
Lemma Validate_rejection_cause_witness :
  validator.Validate (lib := scenario.library)
    (fixtures.shootValidatorOf
       (scenario.otlphttpOnly fixtures.collectorEndpoint 0))
    (ShootObject (Some (scenario.shootWith None [fixtures.enabledBlock])))
    nilObject
  = Returns None.
Proof.
  destruct (@Validate_rejection_cause scenario.library
              (fixtures.shootValidatorOf
                 (scenario.otlphttpOnly fixtures.collectorEndpoint 0))
              (scenario.shootWith None [fixtures.enabledBlock])
              fixtures.enabledBlock fixtures.payload
              (fixtures.decoderOf
                 (scenario.otlphttpOnly fixtures.collectorEndpoint 0))
              nilObject eq_refl eq_refl eq_refl eq_refl)
    as (_ & _ & Haccepted & _).
  apply (Haccepted (scenario.otlphttpOnly fixtures.collectorEndpoint 0));
    reflexivity.
Defined.

(** *** More on the actuator *)

Section ActuatorMore.
Context {lib : GoLibrary} {env : actuator.Collaborators}.
Import actuator rules.

(** [Reconcile] with the feature gate on, run: the state it leaves is
    the deferred increment on the state after the log line, changed by
    the apply when the body gets that far. *)
Lemma Reconcile_gate_on_run a ex st :
  featureGateOn a ->
  Reconcile a ex st =
  let namespace := extensionsv1alpha1.Namespace ex in
  let logged :=
    snd (logger_Info "reconciling extension"
           [("name", extensionsv1alpha1.Name ex); ("cluster", namespace)] st) in
  match GetCluster (world st) namespace with
  | inr e =>
      (Returns (Some (fmt_Errorf_w
                        ("failed to get cluster: " +:+ error_Error (External e))
                        (External e))),
       Inc namespace "reconcile" logged)
  | inl cluster =>
      match v1beta1helper.HibernationIsEnabled
              (extensionscontroller.Shoot cluster) with
      | Panics => (Panics, Inc namespace "reconcile" logged)
      | Returns true => (Returns None, Inc namespace "reconcile" logged)
      | Returns false =>
          match extensionsv1alpha1.ProviderConfig ex with
          | None =>
              (Returns (Some (errors_New "no provider config specified")),
               Inc namespace "reconcile" logged)
          | Some providerConfig =>
              match runtime.DecodeInto (decoder a)
                      (runtime.Raw providerConfig) with
              | Panics => (Panics, Inc namespace "reconcile" logged)
              | Returns (inr err) =>
                  (Returns (Some (fmt_Errorf_w
                                    ("invalid provider spec configuration: "
                                     +:+ error_Error err) err)),
                   Inc namespace "reconcile" logged)
              | Returns (inl cfg) =>
                  match validation.Validate cfg with
                  | Some err =>
                      (Returns (Some err), Inc namespace "reconcile" logged)
                  | None =>
                      match AddAllAndSerialize
                              [ getTargetAllocatorServiceAccount namespace;
                                getTargetAllocatorRole namespace;
                                getTargetAllocatorRoleBinding namespace;
                                getTargetAllocator namespace ] with
                      | inr e =>
                          (Returns (Some (External e)),
                           Inc namespace "reconcile" logged)
                      | inl data =>
                          (Returns
                             (External <$>
                                snd (CreateForSeed (world st) namespace
                                       managedResourceName false data)),
                           Inc namespace "reconcile"
                             {| world :=
                                  fst (CreateForSeed (world st) namespace
                                         managedResourceName false data);
                                ActuatorOperationTotal :=
                                  ActuatorOperationTotal st;
                                logs := logs logged;
                                calls :=
                                  append (calls st)
                                    (CallCreateForSeed namespace
                                       managedResourceName false data) |})
                      end
                  end
              end
          end
      end
  end.
Proof.
  unfold featureGateOn. intros Hon. unfold Reconcile. rewrite Hon. simpl.
  unfold defer, bind, logger_Info, extensionscontroller_GetCluster, lift, ret,
    managedresources_CreateForSeed.
  simpl.
  destruct (GetCluster _ _) as [cluster|e]; simpl; [|reflexivity].
  destruct (v1beta1helper.HibernationIsEnabled _) as [[|]|]; simpl;
    try reflexivity.
  destruct (extensionsv1alpha1.ProviderConfig ex) as [providerConfig|]; simpl;
    [|reflexivity].
  destruct (runtime.DecodeInto _ _) as [[cfg|err]|]; simpl; try reflexivity.
  destruct (validation.Validate cfg); simpl; [reflexivity|].
  destruct (AddAllAndSerialize _) as [data|e]; simpl; [|reflexivity].
  destruct (CreateForSeed _ _ _ _ _) as [w [e|]]; reflexivity.
Qed.

(** What [Reconcile] adds to the log and to the calls, for an operation
    that returns through it. *)
Lemma Reconcile_history op a ex st :
  accounting.reconciles op = true ->
  exists newLogs newCalls,
    logs (snd (Reconcile a ex st)) = (logs st ++ newLogs)%list
    /\ calls (snd (Reconcile a ex st)) = (calls st ++ newCalls)%list
    /\ ((newCalls = [] /\ world (snd (Reconcile a ex st)) = world st)
        \/ (newCalls
            = [CallDeleteForSeed (extensionsv1alpha1.Namespace ex)
                 managedResourceName]
            /\ world (snd (Reconcile a ex st))
               = fst (DeleteForSeed (world st)
                        (extensionsv1alpha1.Namespace ex) managedResourceName)
            /\ (accounting.reconciles op = true -> ~ featureGateOn a))
        \/ (exists data,
              AddAllAndSerialize
                [ getTargetAllocatorServiceAccount (extensionsv1alpha1.Namespace ex);
                  getTargetAllocatorRole (extensionsv1alpha1.Namespace ex);
                  getTargetAllocatorRoleBinding (extensionsv1alpha1.Namespace ex);
                  getTargetAllocator (extensionsv1alpha1.Namespace ex) ]
              = inl data
              /\ newCalls
                 = [CallCreateForSeed (extensionsv1alpha1.Namespace ex)
                      managedResourceName false data]
              /\ world (snd (Reconcile a ex st))
                 = fst (CreateForSeed (world st)
                          (extensionsv1alpha1.Namespace ex)
                          managedResourceName false data)
              /\ accounting.reconciles op = true
              /\ featureGateOn a)).
Proof.
  intros Hop.
  destruct (gardenletFeatureGates a !! OpenTelemetryCollector) as [[|]|] eqn:Hgate.
  - rewrite (Reconcile_gate_on_run a ex st Hgate). cbv zeta.
    exists [ {| logMsg := "reconciling extension";
                logKeysAndValues :=
                  [("name", extensionsv1alpha1.Name ex);
                   ("cluster", extensionsv1alpha1.Namespace ex)] |} ].
    destruct (GetCluster _ _) as [cluster|e];
      [|exists []; simpl; rewrite app_nil_r; auto].
    destruct (v1beta1helper.HibernationIsEnabled _) as [[|]|];
      try (exists []; simpl; rewrite app_nil_r; now auto).
    destruct (extensionsv1alpha1.ProviderConfig ex) as [providerConfig|];
      [|exists []; simpl; rewrite app_nil_r; auto].
    destruct (runtime.DecodeInto _ _) as [[cfg|err]|];
      try (exists []; simpl; rewrite app_nil_r; now auto).
    destruct (validation.Validate cfg);
      [exists []; simpl; rewrite app_nil_r; now auto|].
    destruct (AddAllAndSerialize _) as [data|e] eqn:Hdata;
      [|exists []; simpl; rewrite app_nil_r; now auto].
    exists [CallCreateForSeed (extensionsv1alpha1.Namespace ex)
              managedResourceName false data].
    simpl. repeat apply conj; try reflexivity.
    right; right. exists data. repeat apply conj; try reflexivity; assumption.
  - rewrite Reconcile_gate_off, Delete_run by congruence. simpl.
    eexists [_; _], [_]. unfold append. rewrite <- app_assoc. simpl.
    repeat apply conj; try reflexivity.
    right; left. repeat apply conj; try reflexivity.
    unfold featureGateOn. congruence.
  - rewrite Reconcile_gate_off, Delete_run by congruence. simpl.
    eexists [_; _], [_]. unfold append. rewrite <- app_assoc. simpl.
    repeat apply conj; try reflexivity.
    right; left. repeat apply conj; try reflexivity.
    unfold featureGateOn. congruence.
Qed.

(** X13.  Whatever the operation and its outcome, a call of the actuator
    only adds to the log and to the record of calls, and makes at most
    one call to the managed-resources library: none, and the seed is as
    it was; or one removal of the managed resource external-otelcol in
    the namespace of the extension, which for [Reconcile], [Restore] and
    [Migrate] happens with the feature gate off only; or one apply of the
    serialized bundle, under that name in that namespace with
    [keepObjects] false, which [Delete] and [ForceDelete] never make and
    the other three with the feature gate on only. *)
Theorem operations_history (op : extension.Operation) (a : Actuator)
  (ex : extensionsv1alpha1.Extension) (st : State) :
  exists newLogs newCalls,
    logs (snd (extension.call op a ex st)) = (logs st ++ newLogs)%list
    /\ calls (snd (extension.call op a ex st)) = (calls st ++ newCalls)%list
    /\ ((newCalls = [] /\ world (snd (extension.call op a ex st)) = world st)
        \/ (newCalls
            = [CallDeleteForSeed (extensionsv1alpha1.Namespace ex)
                 managedResourceName]
            /\ world (snd (extension.call op a ex st))
               = fst (DeleteForSeed (world st)
                        (extensionsv1alpha1.Namespace ex) managedResourceName)
            /\ (accounting.reconciles op = true -> ~ featureGateOn a))
        \/ (exists data,
              AddAllAndSerialize
                [ getTargetAllocatorServiceAccount (extensionsv1alpha1.Namespace ex);
                  getTargetAllocatorRole (extensionsv1alpha1.Namespace ex);
                  getTargetAllocatorRoleBinding (extensionsv1alpha1.Namespace ex);
                  getTargetAllocator (extensionsv1alpha1.Namespace ex) ]
              = inl data
              /\ newCalls
                 = [CallCreateForSeed (extensionsv1alpha1.Namespace ex)
                      managedResourceName false data]
              /\ world (snd (extension.call op a ex st))
                 = fst (CreateForSeed (world st)
                          (extensionsv1alpha1.Namespace ex)
                          managedResourceName false data)
              /\ accounting.reconciles op = true
              /\ featureGateOn a)).
Proof.
  destruct op; unfold extension.call.
  - now apply Reconcile_history.
  - rewrite Delete_run. simpl. eexists [_], [_].
    repeat apply conj; try reflexivity.
    right; left. repeat apply conj; try reflexivity. discriminate.
  - unfold ForceDelete. rewrite defer_state.
    change (bind
              (logger_Info
                 "shoot has been force-deleted, deleting resources managed by extension"
                 [])
              (fun _ => Delete a ex) st)
      with (Delete a ex
              (snd (logger_Info
                      "shoot has been force-deleted, deleting resources managed by extension"
                      [] st))).
    rewrite Delete_run. simpl. eexists [_; _], [_].
    unfold append. rewrite <- app_assoc. simpl.
    repeat apply conj; try reflexivity.
    right; left. repeat apply conj; try reflexivity. discriminate.
  - unfold Restore. rewrite defer_state. simpl.
    now apply (Reconcile_history extension.Restore).
  - unfold Migrate. rewrite defer_state. simpl.
    now apply (Reconcile_history extension.Migrate).
Qed.

(** Case analysis on the decisions of a goal. *)
Ltac split_decisions :=
  repeat match goal with
         | |- context [bool_decide ?P] => destruct (bool_decide_reflect P)
         end.

(** Membership in a list that is written out, as a disjunction, and
    equal pairs, as equal components. *)
Ltac unfold_membership :=
  repeat match goal with
         | H : context [_ ∈ _ :: _] |- _ => rewrite elem_of_cons in H
         | H : context [_ ∈ []] |- _ => rewrite elem_of_nil in H
         | H : (_, _) = (_, _) |- _ => injection H as ? ?
         | H : (_, _) <> (_, _) |- _ =>
             apply (not_iff_compat (pair_equal_spec _ _ _ _)) in H
         end.

(** A counter after an increment, whichever counter it is. *)
Lemma counter_Inc cluster operation st cluster' operation' :
  counter (Inc cluster operation st) cluster' operation'
  = (counter st cluster' operation'
     + (if bool_decide ((cluster, operation) = (cluster', operation'))
        then 1 else 0))%nat.
Proof.
  case_bool_decide as Hkey.
  - injection Hkey as <- <-. rewrite counter_Inc_same. lia.
  - rewrite counter_Inc_other by assumption. lia.
Qed.

Lemma Delete_counter a ex st cluster operation :
  counter (snd (Delete a ex st)) cluster operation
  = (counter st cluster operation
     + (if bool_decide ((extensionsv1alpha1.Namespace ex, "delete")
                        = (cluster, operation))
        then 1 else 0))%nat.
Proof. rewrite Delete_run; simpl. now rewrite counter_Inc. Qed.

Lemma Reconcile_counter a ex st cluster operation :
  counter (snd (Reconcile a ex st)) cluster operation
  = (counter st cluster operation
     + (if bool_decide
             ((extensionsv1alpha1.Namespace ex,
               if bool_decide (featureGateOn a) then "reconcile" else "delete")
              = (cluster, operation))
        then 1 else 0))%nat.
Proof.
  destruct (bool_decide (featureGateOn a)) eqn:Hgate.
  - apply bool_decide_eq_true in Hgate.
    destruct (Reconcile_gate_on_state a ex st Hgate) as (st' & -> & Hsame).
    rewrite counter_Inc. unfold counter. now rewrite Hsame.
  - apply bool_decide_eq_false in Hgate.
    rewrite Reconcile_gate_off by exact Hgate.
    now rewrite Delete_counter.
Qed.

(** X14.  What a call of the actuator does to the operation counters:
    the counters of the namespace of the extension under the operations
    the call is counted as go up by one, and every other counter is as it
    was.  A call is counted as its own operation and as the operations
    of the methods it returns through: [ForceDelete] also as "delete",
    [Restore] and [Migrate] also as "reconcile", and where "reconcile"
    stands, "delete" takes its place when the feature gate is off. *)
Theorem operations_counted (op : extension.Operation) (a : Actuator)
  (ex : extensionsv1alpha1.Extension) (st : State)
  (cluster operation : string) :
  counter (snd (extension.call op a ex st)) cluster operation
  = (counter st cluster operation
     + (if bool_decide (cluster = extensionsv1alpha1.Namespace ex
                        /\ operation ∈ accounting.counted op a)
        then 1 else 0))%nat.
Proof.
  destruct op; unfold extension.call, accounting.counted.
  - rewrite Reconcile_counter.
    destruct (bool_decide (featureGateOn a));
      split_decisions; try lia; exfalso; unfold_membership; subst;
      intuition (solve [auto | congruence]).
  - rewrite Delete_counter.
    split_decisions; try lia; exfalso; unfold_membership; subst;
      intuition (solve [auto | congruence]).
  - unfold ForceDelete. rewrite defer_state, counter_Inc.
    change (bind
              (logger_Info
                 "shoot has been force-deleted, deleting resources managed by extension"
                 [])
              (fun _ => Delete a ex) st)
      with (Delete a ex
              (snd (logger_Info
                      "shoot has been force-deleted, deleting resources managed by extension"
                      [] st))).
    rewrite Delete_counter.
    change (counter
              (snd (logger_Info
                      "shoot has been force-deleted, deleting resources managed by extension"
                      [] st)) cluster operation)
      with (counter st cluster operation).
    split_decisions; try lia; exfalso; unfold_membership; subst;
      intuition (solve [auto | congruence]).
  - unfold Restore. rewrite defer_state, counter_Inc, Reconcile_counter.
    destruct (bool_decide (featureGateOn a));
      split_decisions; try lia; exfalso; unfold_membership; subst;
      intuition (solve [auto | congruence]).
  - unfold Migrate. rewrite defer_state, counter_Inc, Reconcile_counter.
    destruct (bool_decide (featureGateOn a));
      split_decisions; try lia; exfalso; unfold_membership; subst;
      intuition (solve [auto | congruence]).
Qed.

Lemma HibernationIsEnabled_panics shoot :
  v1beta1helper.HibernationIsEnabled shoot = Panics <-> shoot = None.
Proof. destruct shoot; simpl; split; congruence. Qed.

(** When [Reconcile] panics, and what it leaves then. *)
Lemma Reconcile_panics_only a ex st :
  fst (Reconcile a ex st) = Panics ->
  (featureGateOn a
   /\ exists cluster,
        GetCluster (world st) (extensionsv1alpha1.Namespace ex) = inl cluster
        /\ (extensionscontroller.Shoot cluster = None
            \/ (v1beta1helper.HibernationIsEnabled
                  (extensionscontroller.Shoot cluster) = Returns false
                /\ extensionsv1alpha1.ProviderConfig ex <> None
                /\ decoder a = None)))
  /\ calls (snd (Reconcile a ex st)) = calls st
  /\ world (snd (Reconcile a ex st)) = world st
  /\ counter (snd (Reconcile a ex st))
       (extensionsv1alpha1.Namespace ex) "reconcile"
     = S (counter st (extensionsv1alpha1.Namespace ex) "reconcile").
Proof.
  destruct (gardenletFeatureGates a !! OpenTelemetryCollector) as [[|]|] eqn:Hgate.
  2, 3: rewrite Reconcile_gate_off, Delete_run by congruence; discriminate.
  rewrite (Reconcile_gate_on_run a ex st Hgate). cbv zeta.
  destruct (GetCluster _ _) as [cluster|e] eqn:Hcluster; [|discriminate].
  destruct (v1beta1helper.HibernationIsEnabled _) as [[|]|] eqn:Hhibernated;
    [discriminate | |].
  - destruct (extensionsv1alpha1.ProviderConfig ex) as [providerConfig|]
      eqn:Hconfig; [|discriminate].
    destruct (decoder a) as [d|] eqn:Hdecoder; simpl.
    + destruct (d (runtime.Raw providerConfig)) as [cfg|e]; [|discriminate].
      destruct (validation.Validate cfg); [discriminate|].
      destruct (AddAllAndSerialize _) as [data|e]; discriminate.
    + intros _. rewrite counter_Inc_same. repeat apply conj; try reflexivity.
      * exact Hgate.
      * exists cluster. split; [reflexivity|]. right.
        repeat apply conj; first [assumption | reflexivity | discriminate].
  - intros _. simpl. rewrite counter_Inc_same.
    repeat apply conj; try reflexivity.
    + exact Hgate.
    + exists cluster. split; [reflexivity|]. left.
      now apply HibernationIsEnabled_panics.
Qed.

Lemma Reconcile_panics_when a ex st cluster :
  featureGateOn a ->
  GetCluster (world st) (extensionsv1alpha1.Namespace ex) = inl cluster ->
  extensionscontroller.Shoot cluster = None
  \/ (v1beta1helper.HibernationIsEnabled
        (extensionscontroller.Shoot cluster) = Returns false
      /\ extensionsv1alpha1.ProviderConfig ex <> None
      /\ decoder a = None) ->
  fst (Reconcile a ex st) = Panics.
Proof.
  intros Hon Hcluster Hcase.
  rewrite (Reconcile_gate_on_run a ex st Hon). cbv zeta. rewrite Hcluster.
  destruct Hcase as [Hnil | (Hawake & Hpresent & Hnone)].
  - now rewrite Hnil.
  - rewrite Hawake.
    destruct (extensionsv1alpha1.ProviderConfig ex); [|contradiction].
    now rewrite Hnone.
Qed.

(** When a call of an actuator that has a client panics: in two cases
    only, both in [Reconcile], [Restore] and [Migrate]. *)
Lemma call_panics (op : extension.Operation) (a : Actuator)
  (ex : extensionsv1alpha1.Extension) (st : State) :
  (fst (extension.call op a ex st) = Panics
   <-> accounting.reconciles op = true
       /\ featureGateOn a
       /\ exists cluster,
            GetCluster (world st) (extensionsv1alpha1.Namespace ex) = inl cluster
            /\ (extensionscontroller.Shoot cluster = None
                \/ (v1beta1helper.HibernationIsEnabled
                      (extensionscontroller.Shoot cluster) = Returns false
                    /\ extensionsv1alpha1.ProviderConfig ex <> None
                    /\ decoder a = None)))
  /\ (fst (extension.call op a ex st) = Panics ->
      calls (snd (extension.call op a ex st)) = calls st
      /\ world (snd (extension.call op a ex st)) = world st
      /\ counter (snd (extension.call op a ex st))
           (extensionsv1alpha1.Namespace ex) "reconcile"
         = S (counter st (extensionsv1alpha1.Namespace ex) "reconcile")).
Proof.
  assert (Hreconcile :
    forall st' : State,
      calls st' = calls (snd (Reconcile a ex st)) ->
      world st' = world (snd (Reconcile a ex st)) ->
      counter st' (extensionsv1alpha1.Namespace ex) "reconcile"
      = counter (snd (Reconcile a ex st))
          (extensionsv1alpha1.Namespace ex) "reconcile" ->
      (fst (Reconcile a ex st) = Panics
       <-> true = true
           /\ featureGateOn a
           /\ exists cluster,
                GetCluster (world st) (extensionsv1alpha1.Namespace ex)
                = inl cluster
                /\ (extensionscontroller.Shoot cluster = None
                    \/ (v1beta1helper.HibernationIsEnabled
                          (extensionscontroller.Shoot cluster) = Returns false
                        /\ extensionsv1alpha1.ProviderConfig ex <> None
                        /\ decoder a = None)))
      /\ (fst (Reconcile a ex st) = Panics ->
          calls st' = calls st
          /\ world st' = world st
          /\ counter st' (extensionsv1alpha1.Namespace ex) "reconcile"
             = S (counter st (extensionsv1alpha1.Namespace ex) "reconcile"))).
  { intros st' -> -> ->. split; [split|].
    - intros Hpanic. split; [reflexivity|].
      now apply Reconcile_panics_only in Hpanic.
    - intros (_ & Hon & cluster & Hcluster & Hcase).
      now apply (Reconcile_panics_when a ex st cluster).
    - intros Hpanic. now apply Reconcile_panics_only in Hpanic. }
  destruct op; unfold extension.call.
  - now apply (Hreconcile (snd (Reconcile a ex st))).
  - rewrite Delete_run. simpl.
    split; [split; [discriminate | intros [[=] _]] | discriminate].
  - unfold ForceDelete. rewrite defer_result.
    change (bind
              (logger_Info
                 "shoot has been force-deleted, deleting resources managed by extension"
                 [])
              (fun _ => Delete a ex) st)
      with (Delete a ex
              (snd (logger_Info
                      "shoot has been force-deleted, deleting resources managed by extension"
                      [] st))).
    rewrite Delete_run. simpl.
    split; [split; [discriminate | intros [[=] _]] | discriminate].
  - unfold Restore. rewrite defer_result, defer_state.
    apply (Hreconcile (Inc (extensionsv1alpha1.Namespace ex) "restore"
                         (snd (Reconcile a ex st))));
      [reflexivity | reflexivity |].
    now rewrite counter_Inc_other by congruence.
  - unfold Migrate. rewrite defer_result, defer_state.
    apply (Hreconcile (Inc (extensionsv1alpha1.Namespace ex) "migrate"
                         (snd (Reconcile a ex st))));
      [reflexivity | reflexivity |].
    now rewrite counter_Inc_other by congruence.
Qed.

(** X16.  The webhook and the actuator agree on a payload they decode
    with the same decoder.  If the webhook accepts the shoot, a failure
    of [Reconcile] on that payload is a failure of a collaborator: of the
    fetch of the cluster, of the serialization of the bundle, of the
    apply or of the removal.  If the webhook rejects it, [Reconcile],
    with the feature gate on and the cluster awake, fails for the same
    cause without a call to the managed-resources library: it returns
    the aggregate that the webhook wraps, or wraps the same decoder
    error. *)
Theorem admission_agrees_with_Reconcile (v : validator.shootValidator)
  (shoot : core.Shoot) (block : core.Extension)
  (providerConfig : runtime.RawExtension) (d : runtime.Decoder)
  (oldObj : client_Object) (a : Actuator)
  (ex : extensionsv1alpha1.Extension) (st : State) :
  core.DeletionTimestamp shoot = None ->
  extensionBlock v shoot = Some block ->
  views.enabledPayload block = Some (Some providerConfig) ->
  validator.decoder v = Some d ->
  decoder a = Some d ->
  extensionsv1alpha1.ProviderConfig ex = Some providerConfig ->
  (validator.Validate v (ShootObject (Some shoot)) oldObj = Returns None ->
   forall err,
     fst (Reconcile a ex st) = Returns (Some err) ->
     (exists e,
        GetCluster (world st) (extensionsv1alpha1.Namespace ex) = inr e
        /\ err = fmt_Errorf_w ("failed to get cluster: " +:+ ext_message e)
                   (External e))
     \/ (exists e,
           err = External e
           /\ (AddAllAndSerialize
                 [ getTargetAllocatorServiceAccount (extensionsv1alpha1.Namespace ex);
                   getTargetAllocatorRole (extensionsv1alpha1.Namespace ex);
                   getTargetAllocatorRoleBinding (extensionsv1alpha1.Namespace ex);
                   getTargetAllocator (extensionsv1alpha1.Namespace ex) ]
               = inr e
               \/ (exists data,
                     snd (CreateForSeed (world st)
                            (extensionsv1alpha1.Namespace ex)
                            managedResourceName false data) = Some e)
               \/ snd (DeleteForSeed (world st)
                         (extensionsv1alpha1.Namespace ex)
                         managedResourceName) = Some e)))
  /\ (forall rejection cluster,
        validator.Validate v (ShootObject (Some shoot)) oldObj
        = Returns (Some rejection) ->
        featureGateOn a ->
        GetCluster (world st) (extensionsv1alpha1.Namespace ex) = inl cluster ->
        v1beta1helper.HibernationIsEnabled (extensionscontroller.Shoot cluster)
        = Returns false ->
        exists failure,
          fst (Reconcile a ex st) = Returns (Some failure)
          /\ calls (snd (Reconcile a ex st)) = calls st
          /\ (errors_Unwrap rejection = Some failure
              \/ (errors_Unwrap failure <> None
                  /\ errors_Unwrap rejection = errors_Unwrap failure))).
Proof.
  intros Hlive Hblock Hview Hdecoder Hdecoder' Hconfig.
  rewrite (Validate_enabled_payload v shoot block providerConfig d oldObj
             Hlive Hblock Hview Hdecoder).
  split.
  - intros Haccepted err.
    destruct (gardenletFeatureGates a !! OpenTelemetryCollector) as [[|]|]
      eqn:Hgate.
    2, 3: rewrite Reconcile_gate_off, Delete_run by congruence; simpl;
      destruct (snd (DeleteForSeed _ _ _)) as [e|] eqn:Hdelete; simpl;
      [destruct (ext_notFound e)|]; intros [= <-];
      right; exists e; split; [reflexivity | now right; right].
    rewrite (Reconcile_gate_on_run a ex st Hgate). cbv zeta.
    destruct (GetCluster _ _) as [cluster|e] eqn:Hcluster.
    2: { intros [= <-]. left. now exists e. }
    destruct (v1beta1helper.HibernationIsEnabled _) as [[|]|];
      try discriminate.
    rewrite Hconfig, Hdecoder'. simpl.
    destruct (d (runtime.Raw providerConfig)) as [cfg|e]; [|discriminate].
    destruct (validation.Validate cfg); [discriminate|].
    destruct (AddAllAndSerialize _) as [data|e] eqn:Hdata.
    + simpl. destruct (snd (CreateForSeed _ _ _ _ _)) as [e|] eqn:Hcreate;
        [|discriminate].
      intros [= <-]. right. exists e. split; [reflexivity|].
      right; left. now exists data.
    + intros [= <-]. right. exists e. split; [reflexivity|]. now left.
  - intros rejection cluster Hrejected Hon Hcluster Hawake.
    rewrite (Reconcile_gate_on_run a ex st Hon). cbv zeta.
    rewrite Hcluster, Hawake, Hconfig, Hdecoder'. simpl.
    destruct (d (runtime.Raw providerConfig)) as [cfg|e].
    + destruct (validation.Validate cfg) as [err|]; [|discriminate].
      injection Hrejected as <-. exists err.
      repeat apply conj; try reflexivity. now left.
    + injection Hrejected as <-. eexists.
      repeat apply conj; try reflexivity. right. split; [discriminate|reflexivity].
Qed.

(** [New] is its loop, from the actuator with an empty map of feature
    gates. *)
Lemma New_applyAll opts :
  New opts
  = accounting.applyAll
      {| decoder := None; gardenerVersion := "";
         gardenletFeatureGates := ∅ |} opts.
Proof. reflexivity. Qed.

Lemma applyAll_app act pre post :
  accounting.applyAll act (pre ++ post)
  = match accounting.applyAll act pre with
    | (Some act', None) => accounting.applyAll act' post
    | other => other
    end.
Proof.
  revert act. induction pre as [|opt pre IH]; intros act; simpl.
  - reflexivity.
  - destruct (opt act) as [act' [err|]]; [reflexivity | apply IH].
Qed.

Lemma applyAll_succeeds act opts :
  Forall accounting.succeeds opts ->
  exists act', accounting.applyAll act opts = (Some act', None).
Proof.
  intros Hopts. revert act.
  induction Hopts as [|opt opts Hopt _ IH]; intros act; simpl.
  - now exists act.
  - specialize (Hopt act). destruct (opt act) as [act' [err|]];
      [discriminate | apply IH].
Qed.

Lemma applyAll_keepsFeatureGates act opts :
  Forall accounting.keepsFeatureGates opts ->
  exists act',
    accounting.applyAll act opts = (Some act', None)
    /\ gardenletFeatureGates act' = gardenletFeatureGates act.
Proof.
  intros Hopts. revert act.
  induction Hopts as [|opt opts Hopt _ IH]; intros act; simpl.
  - now exists act.
  - destruct (Hopt act) as [Hok Hkept].
    destruct (opt act) as [act' [err|]]; [discriminate|].
    destruct (IH act') as (act'' & -> & Hkept').
    exists act''. split; [reflexivity|]. simpl in Hkept. congruence.
Qed.

(** X17.  [New] applies its options from left to right, on an actuator
    that starts with no feature gate.  The feature gates of the result
    are those of the last [WithGardenletFeatures], whatever options that
    keep the gates come after it; without one the map is empty, the gate
    is off and [Reconcile] only ever removes the managed resource.  The
    first option that fails ends the construction: [New] returns its
    error and no actuator.  [WithDecoder] and [WithGardenerVersion] never
    fail and keep the gates, [WithGardenletFeatures] never fails. *)
Theorem New_options :
  (forall pre post feats,
     Forall accounting.succeeds pre ->
     Forall accounting.keepsFeatureGates post ->
     exists a,
       New (pre ++ WithGardenletFeatures feats :: post) = (Some a, None)
       /\ gardenletFeatureGates a = feats)
  /\ (forall opts,
        Forall accounting.keepsFeatureGates opts ->
        exists a,
          New opts = (Some a, None)
          /\ gardenletFeatureGates a = ∅
          /\ forall ex st,
               calls (snd (Reconcile a ex st))
               = append (calls st)
                   (CallDeleteForSeed (extensionsv1alpha1.Namespace ex)
                      managedResourceName))
  /\ (forall pre opt post err,
        Forall accounting.succeeds pre ->
        accounting.failsWith err opt ->
        New (pre ++ opt :: post) = (None, Some err))
  /\ (forall d version feats,
        accounting.keepsFeatureGates (WithDecoder d)
        /\ accounting.keepsFeatureGates (WithGardenerVersion version)
        /\ accounting.succeeds (WithGardenletFeatures feats)).
Proof.
  repeat apply conj.
  - intros pre post feats Hpre Hpost. rewrite New_applyAll, applyAll_app.
    destruct (applyAll_succeeds
                {| decoder := None; gardenerVersion := "";
                   gardenletFeatureGates := ∅ |} pre Hpre) as (act & ->).
    simpl.
    destruct (applyAll_keepsFeatureGates
                {| decoder := decoder act;
                   gardenerVersion := gardenerVersion act;
                   gardenletFeatureGates := feats |} post Hpost)
      as (act' & -> & Hkept).
    now exists act'.
  - intros opts Hopts. rewrite New_applyAll.
    destruct (applyAll_keepsFeatureGates
                {| decoder := None; gardenerVersion := "";
                   gardenletFeatureGates := ∅ |} opts Hopts)
      as (act & -> & Hkept).
    exists act. simpl in Hkept. repeat apply conj; [reflexivity | exact Hkept |].
    intros ex st. rewrite Reconcile_gate_off, Delete_run.
    + reflexivity.
    + rewrite Hkept, lookup_empty. discriminate.
  - intros pre opt post err Hpre Hopt. rewrite New_applyAll, applyAll_app.
    destruct (applyAll_succeeds
                {| decoder := None; gardenerVersion := "";
                   gardenletFeatureGates := ∅ |} pre Hpre) as (act & ->).
    simpl. specialize (Hopt act).
    destruct (opt act) as [act' [err'|]]; simpl in Hopt; congruence.
  - intros d version feats.
    repeat apply conj; intros a; try split; reflexivity.
Qed.

End ActuatorMore.

(** A payload that decodes to a configuration with a bad endpoint and a
    negative buffer size: the webhook rejects the shoot, and [Reconcile],
    with the feature gate on and the cluster awake, fails for the same
    cause and applies nothing. *)
Lemma admission_agrees_with_Reconcile_witness :
  exists failure,
    fst (actuator.Reconcile (lib := scenario.library)
           (fixtures.actuatorOf (scenario.otlphttpOnly "%zz" (-1)))
           (scenario.extension (Some fixtures.payload))
           (scenario.stateOf (scenario.seedOf false)))
    = Returns (Some failure)
    /\ actuator.calls
         (snd (actuator.Reconcile (lib := scenario.library)
                 (fixtures.actuatorOf (scenario.otlphttpOnly "%zz" (-1)))
                 (scenario.extension (Some fixtures.payload))
                 (scenario.stateOf (scenario.seedOf false))))
       = []
    /\ failure
       = Aggregate
           [ field_Invalid "spec.exporters.otlphttp.endpoint"
               (StringValue "%zz") "invalid URL specified";
             field_Invalid "spec.exporters.otlphttp.read_buffer_size"
               (IntValue (-1)) "value cannot be negative" ].
Proof.
  destruct (@admission_agrees_with_Reconcile scenario.library
              scenario.collaborators
              (fixtures.shootValidatorOf (scenario.otlphttpOnly "%zz" (-1)))
              (scenario.shootWith None [fixtures.enabledBlock])
              fixtures.enabledBlock fixtures.payload
              (fixtures.decoderOf (scenario.otlphttpOnly "%zz" (-1)))
              nilObject
              (fixtures.actuatorOf (scenario.otlphttpOnly "%zz" (-1)))
              (scenario.extension (Some fixtures.payload))
              (scenario.stateOf (scenario.seedOf false))
              eq_refl eq_refl eq_refl eq_refl eq_refl eq_refl)
    as [_ Hrejected].
  destruct (Hrejected _ (scenario.clusterOf false) eq_refl eq_refl eq_refl
              eq_refl)
    as (failure & Hfailure & Hcalls & Hcause).
  exists failure. repeat apply conj; [exact Hfailure | exact Hcalls |].
  vm_compute in Hfailure. now injection Hfailure as <-.
Defined.

Section ActuatorApply.
Context {lib : GoLibrary} {env : actuator.Collaborators}.
Import actuator rules.

(** X18.  With the feature gate on and the cluster awake, a provider
    config that decodes and validates is applied: [Reconcile] makes one
    call, the apply of the serialized bundle as the managed resource
    external-otelcol in the namespace of the extension, keeping no
    objects, and returns what the apply returns.  The bundle is made from
    the namespace alone: what is applied does not depend on the content
    of the configuration. *)
Theorem Reconcile_applies_bundle (a : Actuator)
  (ex : extensionsv1alpha1.Extension) (st : State)
  (cluster : extensionscontroller.Cluster)
  (providerConfig : runtime.RawExtension) (d : runtime.Decoder)
  (cfg : config.CollectorConfig) (data : SerializedData) :
  featureGateOn a ->
  GetCluster (world st) (extensionsv1alpha1.Namespace ex) = inl cluster ->
  v1beta1helper.HibernationIsEnabled (extensionscontroller.Shoot cluster)
  = Returns false ->
  extensionsv1alpha1.ProviderConfig ex = Some providerConfig ->
  decoder a = Some d ->
  d (runtime.Raw providerConfig) = inl cfg ->
  validation.Validate cfg = None ->
  AddAllAndSerialize
    [ getTargetAllocatorServiceAccount (extensionsv1alpha1.Namespace ex);
      getTargetAllocatorRole (extensionsv1alpha1.Namespace ex);
      getTargetAllocatorRoleBinding (extensionsv1alpha1.Namespace ex);
      getTargetAllocator (extensionsv1alpha1.Namespace ex) ]
  = inl data ->
  fst (Reconcile a ex st)
  = Returns (External <$>
               snd (CreateForSeed (world st) (extensionsv1alpha1.Namespace ex)
                      managedResourceName false data))
  /\ calls (snd (Reconcile a ex st))
     = append (calls st)
         (CallCreateForSeed (extensionsv1alpha1.Namespace ex)
            managedResourceName false data)
  /\ world (snd (Reconcile a ex st))
     = fst (CreateForSeed (world st) (extensionsv1alpha1.Namespace ex)
              managedResourceName false data).
Proof.
  intros Hon Hcluster Hawake Hconfig Hdecoder Hdecoded Hvalid Hdata.
  rewrite (Reconcile_gate_on_run a ex st Hon). cbv zeta.
  rewrite Hcluster, Hawake, Hconfig, Hdecoder. simpl.
  rewrite Hdecoded, Hvalid, Hdata. simpl. repeat apply conj; reflexivity.
Qed.

End ActuatorApply.

(** A payload that decodes to a configuration with a collector endpoint:
    [Reconcile] returns nil and has replaced the managed resource of the
    seed by the bundle. *)
Lemma Reconcile_applies_bundle_witness :
  fst (actuator.Reconcile (lib := scenario.library)
         (fixtures.actuatorOf
            (scenario.otlphttpOnly fixtures.collectorEndpoint 0))
         (scenario.extension (Some fixtures.payload))
         (scenario.stateOf (scenario.seedOf false)))
  = Returns None
  /\ scenario.managedResources
       (actuator.world
          (snd (actuator.Reconcile (lib := scenario.library)
                  (fixtures.actuatorOf
                     (scenario.otlphttpOnly fixtures.collectorEndpoint 0))
                  (scenario.extension (Some fixtures.payload))
                  (scenario.stateOf (scenario.seedOf false)))))
     !! (scenario.shootNamespace, actuator.managedResourceName)
     = Some {[ "external-otelcol" := []; "external-otelcol-targetallocator" := [] ]}.
Proof.
  destruct (@Reconcile_applies_bundle scenario.library scenario.collaborators
              (fixtures.actuatorOf
                 (scenario.otlphttpOnly fixtures.collectorEndpoint 0))
              (scenario.extension (Some fixtures.payload))
              (scenario.stateOf (scenario.seedOf false))
              (scenario.clusterOf false) fixtures.payload
              (fixtures.decoderOf
                 (scenario.otlphttpOnly fixtures.collectorEndpoint 0))
              (scenario.otlphttpOnly fixtures.collectorEndpoint 0)
              _ eq_refl eq_refl eq_refl eq_refl eq_refl eq_refl eq_refl
              eq_refl)
    as (Hresult & _ & Hworld).
  split; [exact Hresult|].
  rewrite Hworld. vm_compute. reflexivity.
Defined.

(** *** The bundle *)

Section BundleFacts.
Context {gardener : GardenerConstants}.

(** X19.  The references inside the bundle resolve inside the bundle,
    whatever the namespace is: the role binding refers to a Role by the
    name of the bundle's role, in whose namespace it lives; its subjects
    are the bundle's service account, by kind, name and namespace; the
    target allocator runs under that service account, in its namespace,
    and watches its own namespace only; the role grants no verb other
    than get, list and watch.  The four objects are the ones [Reconcile]
    serializes, and carry the same labels. *)
Theorem bundle_references_resolve (namespace : string) :
  (rbacv1.RoleRef_Kind
     (rbacv1.RoleRef (bundle.getTargetAllocatorRoleBinding namespace))
   = "Role"
   /\ rbacv1.RoleRef_Name
        (rbacv1.RoleRef (bundle.getTargetAllocatorRoleBinding namespace))
      = metav1.Name
          (rbacv1.Role_ObjectMeta (bundle.getTargetAllocatorRole namespace))
   /\ metav1.Namespace
        (rbacv1.RoleBinding_ObjectMeta
           (bundle.getTargetAllocatorRoleBinding namespace))
      = metav1.Namespace
          (rbacv1.Role_ObjectMeta (bundle.getTargetAllocatorRole namespace)))
  /\ (forall subject,
        subject ∈ rbacv1.Subjects (bundle.getTargetAllocatorRoleBinding namespace) ->
        rbacv1.Subject_Kind subject = rbacv1_ServiceAccountKind
        /\ rbacv1.Subject_Name subject
           = metav1.Name
               (corev1.ObjectMeta
                  (bundle.getTargetAllocatorServiceAccount namespace))
        /\ rbacv1.Subject_Namespace subject
           = metav1.Namespace
               (corev1.ObjectMeta
                  (bundle.getTargetAllocatorServiceAccount namespace)))
  /\ (otelv1beta1.ServiceAccount
        (otelv1alpha1.OpenTelemetryCommonFields
           (otelv1alpha1.Spec (bundle.getTargetAllocator namespace)))
      = metav1.Name
          (corev1.ObjectMeta (bundle.getTargetAllocatorServiceAccount namespace))
      /\ metav1.Namespace
           (otelv1alpha1.ObjectMeta (bundle.getTargetAllocator namespace))
         = metav1.Namespace
             (corev1.ObjectMeta
                (bundle.getTargetAllocatorServiceAccount namespace))
      /\ otelv1beta1.AllowNamespaces
           (otelv1alpha1.PrometheusCR
              (otelv1alpha1.Spec (bundle.getTargetAllocator namespace)))
         = [namespace])
  /\ (forall rule verb,
        rule ∈ rbacv1.Rules (bundle.getTargetAllocatorRole namespace) ->
        verb ∈ rbacv1.Verbs rule ->
        verb ∈ ["get"; "list"; "watch"])
  /\ ([ bundle.registered actuator.ServiceAccount
          (corev1.ObjectMeta (bundle.getTargetAllocatorServiceAccount namespace));
        bundle.registered actuator.Role
          (rbacv1.Role_ObjectMeta (bundle.getTargetAllocatorRole namespace));
        bundle.registered actuator.RoleBinding
          (rbacv1.RoleBinding_ObjectMeta
             (bundle.getTargetAllocatorRoleBinding namespace));
        bundle.registered actuator.TargetAllocator
          (otelv1alpha1.ObjectMeta (bundle.getTargetAllocator namespace)) ]
      = [ actuator.getTargetAllocatorServiceAccount namespace;
          actuator.getTargetAllocatorRole namespace;
          actuator.getTargetAllocatorRoleBinding namespace;
          actuator.getTargetAllocator namespace ]
      /\ forall meta,
           meta ∈ [ corev1.ObjectMeta
                      (bundle.getTargetAllocatorServiceAccount namespace);
                    rbacv1.Role_ObjectMeta
                      (bundle.getTargetAllocatorRole namespace);
                    rbacv1.RoleBinding_ObjectMeta
                      (bundle.getTargetAllocatorRoleBinding namespace);
                    otelv1alpha1.ObjectMeta
                      (bundle.getTargetAllocator namespace) ] ->
           metav1.Labels meta = bundle.getLabels
           /\ metav1.Namespace meta = namespace).
Proof.
  repeat apply conj; try reflexivity.
  - intros subject Hsubject. simpl in Hsubject.
    apply list_elem_of_singleton in Hsubject as ->. now repeat split.
  - intros rule verb Hrule Hverb. simpl in Hrule.
    rewrite !elem_of_cons, elem_of_nil in Hrule.
    destruct Hrule as [-> | [-> | [-> | []]]]; exact Hverb.
  - intros meta Hmeta. rewrite !elem_of_cons, elem_of_nil in Hmeta.
    destruct Hmeta as [-> | [-> | [-> | [-> | []]]]]; now split.
Qed.

End BundleFacts.

(** Three options, the feature gates in the middle: the gates of the
    actuator are those that were given. *)
Lemma New_options_witness :
  exists a,
    actuator.New
      [ actuator.WithGardenerVersion "v1.131.0";
        actuator.WithGardenletFeatures
          {[ actuator.OpenTelemetryCollector := true ]};
        actuator.WithDecoder (Some scenario.refusingDecoder) ]
    = (Some a, None)
    /\ actuator.gardenletFeatureGates a
       = {[ actuator.OpenTelemetryCollector := true ]}.
Proof.
  destruct (@New_options scenario.library scenario.collaborators)
    as (Hlast & _ & _ & Hstandard).
  apply (Hlast [actuator.WithGardenerVersion "v1.131.0"]
           [actuator.WithDecoder (Some scenario.refusingDecoder)]
           {[ actuator.OpenTelemetryCollector := true ]}).
  - repeat constructor.
  - constructor; [|constructor].
    exact (proj1 (Hstandard (Some scenario.refusingDecoder) "" ∅)).
Defined.

(** *** The actuator with its client *)

Section Wired.
Context {lib : GoLibrary} {env : actuator.Collaborators}.
Import actuator rules.

(** With a client, the methods are those of [actuator]. *)
Lemma wired_call_client op a c ex st :
  wired.client a = Some c ->
  wired.call op a ex st = extension.call op (wired.settings a) ex st.
Proof.
  intros Hclient.
  destruct op; unfold wired.call, extension.call, wired.ForceDelete,
    wired.Restore, wired.Migrate, wired.Reconcile, wired.Delete;
    rewrite Hclient; reflexivity.
Qed.

(** Without one, every method panics at its first call with the client,
    before anything is asked of the seed. *)
Lemma wired_call_nil op a ex st :
  wired.client a = None ->
  fst (wired.call op a ex st) = Panics
  /\ calls (snd (wired.call op a ex st)) = calls st
  /\ world (snd (wired.call op a ex st)) = world st.
Proof.
  intros Hclient.
  destruct op; unfold wired.call, wired.ForceDelete, wired.Restore,
    wired.Migrate, wired.Reconcile, wired.Delete;
    rewrite Hclient;
    try (destruct (wired.gardenletFeatureGates a !! OpenTelemetryCollector)
           as [[|]|]);
    repeat split.
Qed.

(** The loop of [New] keeps the client over options that keep it: the
    client is nil at the end, as at the start. *)
Lemma wired_New_keepsClient opts :
  Forall wired.keepsClient opts ->
  exists a, wired.New opts = (Some a, None) /\ wired.client a = None.
Proof.
  intros Hopts. unfold wired.New.
  assert (Hloop :
    forall act,
    exists a,
      (fix loop (act : wired.Actuator) (opts : list wired.Option) :=
         match opts with
         | [] => (Some act, None)
         | opt :: opts' =>
             match opt act with
             | (_, Some err) => (None, Some err)
             | (act', None) => loop act' opts'
             end
         end) act opts = (Some a, None)
      /\ wired.client a = wired.client act).
  { induction Hopts as [|opt opts Hopt _ IH]; intros act.
    - now exists act.
    - destruct (Hopt act) as [Hok Hkept].
      destruct (opt act) as [act' [err|]]; [discriminate|].
      destruct (IH act') as (a & -> & Hclient).
      exists a. split; [reflexivity|]. simpl in Hkept. congruence. }
  exact (Hloop {| wired.reader := None; wired.client := None;
                  wired.decoder := None; wired.gardenerVersion := "";
                  wired.gardenletFeatureGates := ∅ |}).
Qed.

(** X15.  When a call of the actuator panics.  An actuator whose client
    is nil, as [New] leaves it when no [WithClient] is among the options,
    panics in every method, at the first call that is given the client:
    the fetch of the cluster or the removal.  An actuator that has a
    client runs the methods of [actuator], and panics in two cases only,
    both in [Reconcile], [Restore] and [Migrate] with the feature gate on
    and the cluster fetched: the cluster has no shoot, or the shoot is
    awake, the extension has a provider config and the actuator has no
    decoder; with a client, [Delete] and [ForceDelete] never panic.  A
    call that panics has made no call to the managed-resources library
    and leaves the seed as it was. *)
Theorem operations_panic (op : extension.Operation) (a : wired.Actuator)
  (ex : extensionsv1alpha1.Extension) (st : State) :
  (fst (wired.call op a ex st) = Panics
   <-> wired.client a = None
       \/ (accounting.reconciles op = true
           /\ wired.gardenletFeatureGates a !! OpenTelemetryCollector
              = Some true
           /\ exists cluster,
                GetCluster (world st) (extensionsv1alpha1.Namespace ex)
                = inl cluster
                /\ (extensionscontroller.Shoot cluster = None
                    \/ (v1beta1helper.HibernationIsEnabled
                          (extensionscontroller.Shoot cluster) = Returns false
                        /\ extensionsv1alpha1.ProviderConfig ex <> None
                        /\ wired.decoder a = None))))
  /\ (fst (wired.call op a ex st) = Panics ->
      calls (snd (wired.call op a ex st)) = calls st
      /\ world (snd (wired.call op a ex st)) = world st)
  /\ (wired.client a <> None ->
      wired.call op a ex st = extension.call op (wired.settings a) ex st)
  /\ (forall opts,
        Forall wired.keepsClient opts ->
        exists built,
          wired.New opts = (Some built, None)
          /\ wired.client built = None
          /\ forall op' ex' st', fst (wired.call op' built ex' st') = Panics)
  /\ (forall r d version feats,
        wired.keepsClient (wired.WithReader r)
        /\ wired.keepsClient (wired.WithDecoder d)
        /\ wired.keepsClient (wired.WithGardenerVersion version)
        /\ wired.keepsClient (wired.WithGardenletFeatures feats)).
Proof.
  split; [|split; [|split; [|split]]].
  - destruct (wired.client a) as [c|] eqn:Hclient.
    + rewrite (wired_call_client op a c ex st Hclient).
      destruct (call_panics op (wired.settings a) ex st) as [Hiff _].
      rewrite Hiff. split.
      * intros Hcase. now right.
      * intros [Hnil | Hcase]; [discriminate | exact Hcase].
    + split; [now left | intros _].
      now apply wired_call_nil.
  - intros Hpanic. destruct (wired.client a) as [c|] eqn:Hclient.
    + rewrite (wired_call_client op a c ex st Hclient) in *.
      destruct (call_panics op (wired.settings a) ex st) as [_ Hleft].
      destruct (Hleft Hpanic) as (Hcalls & Hworld & _). now split.
    + now apply wired_call_nil.
  - intros Hclient. destruct (wired.client a) as [c|] eqn:Hc;
      [|contradiction].
    now apply (wired_call_client op a c).
  - intros opts Hopts.
    destruct (wired_New_keepsClient opts Hopts) as (built & Hbuilt & Hnil).
    exists built. repeat split; [exact Hbuilt | exact Hnil |].
    intros op' ex' st'. now apply wired_call_nil.
  - intros r d version feats. repeat split.
Qed.

End Wired.
